(** * A SEED backend: contextual memory and mood-trend subsystem

    A shallow embedding of the retrieval-augmented memory store, the cosine
    ranking and the mood-trend analyzer of [main.py], with the chat endpoint
    that drives them, followed by the properties the design document states
    about them.  The endpoints of the same file that save, load and list
    sessions, register and sign in users and pick the voice of the speech
    service are embedded after them, with properties read off the code.

    Conventions of the embedding:
    - a Python [str] is the list of its Unicode code points ([str]); what the
      source takes from the Unicode database outside ASCII ([\w], [upper],
      [lower]) and from [json.loads] is a variable of the section;
    - a Python [float] is a binary64 value ([PrimFloat.float]), a Python
      [int] is a [Z];
    - a function that can raise returns a [result];
    - files are finite maps from exact paths to their decoded content, where
      a file that [json.load] rejects is a constructor of its own;
    - decoded payloads have the shape their producer gives them: a memory
      file is an array of objects whose keys may be missing, a session file
      an object whose keys may be missing, an embedding an array of numbers
      (each taken as a binary64); the content of a generated message and
      the object decoded from a generated text are arbitrary JSON values;
    - every answer of an external service (embedding backend, generation
      backend, clock, disk write) is an argument of the function that asks
      for it. *)

From Stdlib Require Import ZArith List Bool Lia String Ascii Floats Uint63.
From Stdlib Require Import Sorting.Sorted Sorting.Permutation.
From stdpp Require Import gmap list pretty.
Import ListNotations.

Local Open Scope Z_scope.
Local Open Scope list_scope.

(** ** Python strings *)

Definition char := N.
Definition str := list N.

(** The code points of an ASCII literal of the source. *)
Definition py (s : string) : str :=
  List.map N_of_ascii (list_ascii_of_string s).

(** [str.isspace] on one character, the set [str.strip] removes. *)
Definition is_space (c : char) : bool :=
  ((9 <=? c) && (c <=? 13) || (28 <=? c) && (c <=? 32)
   || (c =? 133) || (c =? 160) || (c =? 5760)
   || (8192 <=? c) && (c <=? 8202)
   || (c =? 8232) || (c =? 8233) || (c =? 8239) || (c =? 8287)
   || (c =? 12288))%N.

Fixpoint lstrip (s : str) : str :=
  match s with
  | c :: s' => if is_space c then lstrip s' else s
  | [] => []
  end.

Definition rstrip (s : str) : str := rev (lstrip (rev s)).

(** [s.strip()] *)
Definition strip (s : str) : str := rstrip (lstrip s).

(** Truth value of a string: [not s] is [is_empty s]. *)
Definition is_empty {A} (l : list A) : bool :=
  match l with [] => true | _ => false end.

Definition is_ascii (c : char) : bool := (c <? 128)%N.
Definition is_ascii_lower (c : char) : bool := ((97 <=? c) && (c <=? 122))%N.
Definition is_ascii_upper (c : char) : bool := ((65 <=? c) && (c <=? 90))%N.
Definition is_ascii_digit (c : char) : bool := ((48 <=? c) && (c <=? 57))%N.

Definition ascii_upper (c : char) : char :=
  if is_ascii_lower c then (c - 32)%N else c.
Definition ascii_lower (c : char) : char :=
  if is_ascii_upper c then (c + 32)%N else c.

(** The line feed, [\n] in the source's literals. *)
Definition nl : str := [10%N].

(** [str(n)] for an [int]. *)
Definition str_of_int (n : Z) : str := py (pretty n).

(** [sep.join(parts)] *)
Fixpoint join (sep : str) (parts : list str) : str :=
  match parts with
  | [] => []
  | [p] => p
  | p :: ps => p ++ sep ++ join sep ps
  end.

(** Index of the first element that satisfies [p]. *)
Fixpoint find_index {A} (p : A -> bool) (l : list A) : option nat :=
  match l with
  | [] => None
  | x :: l' => if p x then Some O else option_map S (find_index p l')
  end.

(** ** Exceptions *)

Inductive exn :=
| KeyError (key : str)
| AttributeError (attr : str).

Inductive result (A : Type) :=
| Ok (a : A)
| Raise (e : exn).
Arguments Ok {A} a.
Arguments Raise {A} e.

#[global] Instance result_ret : MRet result := fun A a => Ok a.
#[global] Instance result_bind : MBind result := fun A B k r =>
  match r with
  | Ok a => k a
  | Raise e => Raise e
  end.

(** [[f(x) for x in l]], stopping at the first exception. *)
Fixpoint map_result {A B} (f : A -> result B) (l : list A) : result (list B) :=
  match l with
  | [] => Ok []
  | x :: l' => y ← f x; ys ← map_result f l'; Ok (y :: ys)
  end.

(** ** Numbers *)

Definition vec := list float.

(** [sum(xs)] over floats, as CPython computes it from version 3.12 on
    (the source needs that version: the f-string of line 88 has a backslash
    in its expression).  The integer start 0 is added to the first item;
    every further item is added with Neumaier's compensation, [c] collecting
    what each addition rounds away; at the end [c] is added to the sum when
    it is finite and not zero. *)
Definition sum_step (acc : float * float) (x : float) : float * float :=
  let f := fst acc in
  let c := snd acc in
  let t := PrimFloat.add f x in
  (t, if PrimFloat.leb (PrimFloat.abs x) (PrimFloat.abs f)
      then PrimFloat.add c (PrimFloat.add (PrimFloat.sub f t) x)
      else PrimFloat.add c (PrimFloat.add (PrimFloat.sub x t) f)).

Definition py_sum (xs : list float) : float :=
  match xs with
  | [] => 0%float
  | x :: xs' =>
      let acc := fold_left sum_step xs' (PrimFloat.add 0%float x, 0%float) in
      if negb (PrimFloat.eqb (snd acc) 0%float) && PrimFloat.is_finite (snd acc)
      then PrimFloat.add (fst acc) (snd acc)
      else fst acc
  end.

(** [float(n)] for an [int]: the nearest binary64. *)
Definition float_of_int (n : Z) : float :=
  SF2Prim (binary_normalize prec emax n 0 false).

(** [a / b] on two [int]s (true division).  Python returns the correctly
    rounded quotient; dividing the two converted operands is that same
    value as long as both are below 2^53, where the conversions are exact. *)
Definition int_truediv (a b : Z) : float :=
  PrimFloat.div (float_of_int a) (float_of_int b).

(** [cosine_sim], main.py lines 112-118. *)
Definition cosine_sim (v1 v2 : vec) : float :=
  if is_empty v1 || is_empty v2 || negb (length v1 =? length v2)%nat
  then 0%float
  else
    let dot := py_sum (List.map (fun ab => PrimFloat.mul (fst ab) (snd ab))
                                (combine v1 v2)) in
    let mag1 := PrimFloat.sqrt (py_sum (List.map (fun a => PrimFloat.mul a a) v1)) in
    let mag2 := PrimFloat.sqrt (py_sum (List.map (fun b => PrimFloat.mul b b) v2)) in
    if PrimFloat.eqb mag1 0%float || PrimFloat.eqb mag2 0%float
    then 0%float
    else PrimFloat.div dot (PrimFloat.mul mag1 mag2).

(** [list.sort(key=lambda x: x[0], reverse=True)] on (score, text) pairs.
    Python's sort compares keys with [<] only, is stable, and with
    [reverse=True] still keeps elements with equal keys in their original
    order.  On keys that [<] orders totally (no NaN) the stable arrangement
    is unique ([stable_sorted_unique] below), and it is the one this
    insertion sort builds. *)
Fixpoint insert_desc {A} (x : float * A) (l : list (float * A)) : list (float * A) :=
  match l with
  | [] => [x]
  | y :: l' =>
      if PrimFloat.ltb (fst x) (fst y) then y :: insert_desc x l' else x :: y :: l'
  end.

Definition sort_desc {A} (l : list (float * A)) : list (float * A) :=
  fold_right insert_desc [] l.

(** [l[:k]] for an [int] k. *)
Definition slice_to {A} (k : Z) (l : list A) : list A :=
  if k <? 0 then firstn (Z.to_nat (Z.of_nat (length l) + k)) l
  else firstn (Z.to_nat k) l.

(** [x] is ranked no lower than [y]: [key(y) <= key(x)]. *)
Definition ge_key {A} (x y : float * A) : Prop :=
  PrimFloat.leb (fst y) (fst x) = true.

(** No key is a NaN. *)
Definition numeric_keys {A} (l : list (float * A)) : Prop :=
  Forall (fun x => PrimFloat.is_nan (fst x) = false) l.

(** The elements whose key is equal ([==]) to [s], in their order. *)
Definition with_key {A} (s : float) (l : list (float * A)) : list (float * A) :=
  List.filter (fun x => PrimFloat.eqb (fst x) s) l.

(** The order of the specification of binary64 comparison: less or equal. *)
Definition SFle (x y : spec_float) : Prop :=
  SFcompare x y = Some Lt \/ SFcompare x y = Some Eq.

(** The sum of squares and the magnitude [cosine_sim] computes. *)
Definition sumsq (v : vec) : float :=
  py_sum (List.map (fun a => PrimFloat.mul a a) v).

Definition magnitude (v : vec) : float := PrimFloat.sqrt (sumsq v).

(** ** JSON values, as [json.loads] returns them *)

#[local] Unset Elimination Schemes.
Inductive json :=
| JNull
| JBool (b : bool)
| JInt (n : Z)
| JFloat (f : float)
| JStr (s : str)
| JArr (l : list json)
| JObj (kvs : list (str * json)).
#[local] Set Elimination Schemes.

(** Truth value of a decoded JSON value ([x or y] tests it). *)
Definition truthy (j : json) : bool :=
  match j with
  | JNull => false
  | JBool b => b
  | JInt n => negb (n =? 0)
  | JFloat f => negb (PrimFloat.eqb f 0%float)
  | JStr s => negb (is_empty s)
  | JArr l => negb (is_empty l)
  | JObj kvs => negb (is_empty kvs)
  end.

Definition str_eqb (a b : str) : bool := bool_decide (a = b).

(** [d.get(key)] on a dict. *)
Fixpoint dict_get {V} (key : str) (d : list (str * V)) : option V :=
  match d with
  | [] => None
  | (k, v) :: d' => if str_eqb k key then Some v else dict_get key d'
  end.

(** ** Stored documents *)

(** One element of a user's memory file: a JSON object whose keys may be
    missing; a key that is there holds a value of the type
    [save_memory_npy] writes. *)
Record mem_item := {
  it_ts : option Z;
  it_role : option str;
  it_text : option str;
  it_vector : option vec
}.

(** A memory file: text that [json.load] rejects, or an array of objects. *)
Inductive mem_file :=
| MemCorrupt
| MemDoc (data : list mem_item).

(** The memory directory: path to content. *)
Abbreviation mem_fs := (gmap str mem_file).

(** One chat turn of a saved session; only the keys the analyzer reads. *)
Record chat_msg := {
  m_role : option str;
  m_emotion : option str
}.

(** A saved session: the keys [updated] and [chat], each possibly missing. *)
Record transcript := {
  s_updated : option Z;
  s_chat : option (list chat_msg)
}.

(** A file of a session directory: one whose loading or whose [updated]
    comparison raises (swallowed by the [try]), or a session object. *)
Inductive sess_file :=
| SessCorrupt
| SessDoc (o : transcript).

(** The session directories: path of the directory to its [*.json] files in
    the order [glob] yields them. *)
Abbreviation sess_fs := (gmap str (list sess_file)).

(** What a write of a memory file can do: [json.dump] completes; [open]
    raises and the file is untouched; or the file was truncated by [open] and
    the dump stopped short, which leaves text that does not parse.  The
    exception is swallowed in both failing cases. *)
Inductive write_outcome :=
| Written
| OpenFailed
| DumpFailed.

(** What [ollama_chat], lines 191-198, returns under [text]: the content
    of the message of the body, a string ([GenText], empty when the body has
    no message or the message no content) or whatever other JSON value the
    body holds there ([GenValue]); or the empty text with an [error] when
    anything inside its [try] raised (backend unreachable, timeout,
    undecodable body, a body or a message that is not an object). *)
Inductive gen_outcome :=
| GenText (text : str)
| GenValue (content : json)
| GenError (error : str).

(** A history entry of the request. *)
Record hist_item := {
  h_role : str;
  h_text : str
}.

(** A message sent to the generation backend. *)
Record message := {
  msg_role : str;
  msg_content : str
}.

(** The HTTP answer of [/api/chat]. *)
Inductive response :=
| Reply (emotion reply : str)
| ErrorResponse (status : Z) (error : str)
| Unhandled (e : exn).

(** The environment of one chat turn: what each external call answers. *)
Record turn_env := {
  (** [now_ts()], by reading: 0 in the trend analysis, 1 and 2 in the two
      memory appends *)
  e_clock : nat -> Z;
  (** [get_embedding], by call site: 0 the query, 1 the user's message,
      2 the reply; [None] when the backend call failed *)
  e_embed : nat -> str -> option vec;
  (** [get_system_prompt()] *)
  e_prompt : str;
  (** [ollama_chat] *)
  e_generate : list message -> gen_outcome;
  (** the two writes of the memory file *)
  e_write : nat -> write_outcome
}.

(** The request of [/api/chat]: the logged-in user of the session cookie, and
    the keys [message] and [history] of the body. *)
Record request := {
  r_user : option str;
  r_message : option str;
  r_history : list hist_item
}.

(** ** A sample deployment and sample data *)

(** An instance of the library tables: no word character outside ASCII, case
    mappings that leave other strings alone, a decoder that knows two
    texts. *)
Definition sample_word (c : char) : bool := false.
Definition sample_case (s : str) : str := s.
(** The text of an object with the single key [emotion]. *)
Definition joy_text : str :=
  py "{" ++ [34%N] ++ py "emotion" ++ [34%N] ++ py ": "
  ++ [34%N] ++ py "joy" ++ [34%N] ++ py "}".
Definition sample_loads (s : str) : option (list (str * json)) :=
  if str_eqb s (py "{}") then Some []
  else if str_eqb s joy_text then Some [(py "emotion", JStr (py "joy"))]
  else None.
Definition sample_base : str := py "/srv/aseed".

(** The files of the user [alice] under [sample_base]. *)
Definition alice_mem : str := py "/srv/aseed/data/memories/alice.json".
Definition alice_dir : str := py "/srv/aseed/data/sessions/alice".

Definition mk_item (ts : Z) (role text : string) (v : vec) : mem_item :=
  {| it_ts := Some ts; it_role := Some (py role);
     it_text := Some (py text); it_vector := Some v |}.

(** Three records, the first and the third with the same vector. *)
Definition pets_data : list mem_item :=
  [ mk_item 100 "user" "cats purr" [1%float; 0%float];
    mk_item 101 "assistant" "dogs bark" [0%float; 1%float];
    mk_item 102 "user" "cats nap" [1%float; 0%float] ].
Definition pets_fs : mem_fs := {[ alice_mem := MemDoc pets_data ]}.
Definition pets_query : vec := [1%float; 0%float].

(** Three records of one dimension; the second has an entry, 2^600, whose
    square is beyond the largest binary64. *)
Definition huge_data : list mem_item :=
  [ mk_item 100 "user" "opposite" [(-1)%float];
    mk_item 101 "user" "huge" [0x1p600%float];
    mk_item 102 "user" "same" [1%float] ].
Definition huge_fs : mem_fs := {[ alice_mem := MemDoc huge_data ]}.
Definition huge_query : vec := [0x1p500%float].

(** A session of three assistant turns tagged [sadness]. *)
Definition sad_turn : chat_msg :=
  {| m_role := Some (py "assistant"); m_emotion := Some (py "sadness") |}.
Definition sad_session (updated : Z) : sess_file :=
  SessDoc {| s_updated := Some updated; s_chat := Some [sad_turn; sad_turn; sad_turn] |}.

Definition sample_now : Z := 1700000000.

(** One session stamped exactly five days before [sample_now]; one session
    stamped one second after it. *)
Definition sess_at_cutoff : sess_fs := {[ alice_dir := [sad_session 1699568000] ]}.
Definition sess_future : sess_fs := {[ alice_dir := [sad_session 1700000001] ]}.

(** A turn of [alice], and an environment whose backends answer the same
    thing at every call. *)
Definition alice_request : request :=
  {| r_user := Some (py "alice"); r_message := Some (py " are cats ok? ");
     r_history := [] |}.

Definition env_with (gen : gen_outcome) : turn_env :=
  {| e_clock := fun _ => sample_now;
     e_embed := fun _ _ => Some pets_query;
     e_prompt := py "You are A SEED.";
     e_generate := fun _ => gen;
     e_write := fun _ => Written |}.

(** ** Saved sessions, accounts and the session cookie *)

(** A chat turn as the client posts it to [/api/save]: an object whose
    keys may be missing. *)
Record turn := {
  t_role : option str;
  t_text : option str;
  t_emotion : option str
}.

(** The value under [chat] in a session file: [api_save] writes what
    [d.get("chat")] gave, [null] when the body had no chat. *)
Inductive chat_field :=
| ChatMissing
| ChatNull
| ChatList (l : list turn).

(** A session file that parses: the object [api_save] writes, line 287,
    each key possibly missing. *)
Record saved_session := {
  ss_sid : option str;
  ss_title : option str;
  ss_chat : chat_field;
  ss_updated : option Z
}.

(** A [*.json] file of a session directory. *)
Inductive saved_file :=
| SavedCorrupt
| SavedDoc (o : saved_session).

(** The session directories, each with its [*.json] files by name. *)
Abbreviation session_store := (gmap str (gmap str saved_file)).

(** The exceptions that escape [api_load]. *)
Inductive load_exn :=
| TypeError
| JSONDecodeError.

(** The answers of [/api/save], [/api/load] and [/api/sessions]; [Denied]
    is the 401 of a request without [user_id]. *)
Inductive save_response :=
| SaveOk (sid : str)
| SaveDenied
| SaveRaised (e : exn).

Inductive load_response :=
| LoadOk (o : option saved_session)
| LoadDenied
| LoadRaised (e : load_exn).

Inductive list_response :=
| ListOk (l : list saved_session)
| ListDenied.

(** An entry of [users.json], each key possibly missing. *)
Record account := {
  a_hash : option str;
  a_display_name : option str;
  a_created_at : option Z
}.

(** [users.json] when it exists: text that [json.load] rejects, or the
    dict of the accounts in insertion order. *)
Inductive users_file :=
| UsersCorrupt
| UsersDoc (users : list (str * account)).

(** The keys of the Flask session: [user_id], and [admin], which the
    administrator's login sets to [True]. *)
Record cookie := {
  c_user : option str;
  c_admin : bool
}.

(** The answers of the account endpoints: [ok], a refusal with its
    status, or an exception that escapes. *)
Inductive auth_response :=
| AuthOk
| AuthRefused (status : Z)
| AuthRaised.

(** The answers of [/api/tts]. *)
Inductive tts_response :=
| Audio (bytes : list N)
| TtsError (status : Z) (error : str).

(** A saved session of [alice] and the store that holds it. *)
Definition hello_turn : turn :=
  {| t_role := Some (py "user"); t_text := Some (py "hello there");
     t_emotion := None |}.
Definition sad_reply : turn :=
  {| t_role := Some (py "assistant"); t_text := Some (py "I am sorry.");
     t_emotion := Some (py "sadness") |}.
Definition alice_session : saved_session :=
  {| ss_sid := Some (py "s1"); ss_title := Some (py "hello there");
     ss_chat := ChatList [hello_turn; sad_reply];
     ss_updated := Some 1699999000 |}.
Definition alice_store : session_store :=
  {[ alice_dir := {[ py "s1.json" := SavedDoc alice_session ]} ]}.

(** A password scheme for the examples: the hash is the password after
    a fixed prefix. *)
Definition sample_hash (p : str) : str := py "plain$" ++ p.
Definition sample_check (h : str) (p : option str) : option bool :=
  match p with
  | Some p => Some (str_eqb h (sample_hash p))
  | None => None
  end.

Section Backend.
#[local] Set Default Proof Using "Type".

(** What the source takes from its libraries and its deployment. *)

(** [\w] on a character outside ASCII (the Unicode alphanumerics). *)
Variable uni_word : char -> bool.
(** [str.upper] and [str.lower] on a string with characters outside ASCII. *)
Variable uni_upper : str -> str.
Variable uni_lower : str -> str.
(** [json.loads] on a text that starts with an opening brace: the decoded
    object, or [None] when it raises. *)
Variable json_loads_obj : str -> option (list (str * json)).
(** The directory of [main.py]. *)
Variable BASE_DIR : str.

Definition upper (s : str) : str :=
  if forallb is_ascii s then List.map ascii_upper s else uni_upper s.

Definition lower (s : str) : str :=
  if forallb is_ascii s then List.map ascii_lower s else uni_lower s.

(** A character of the class [[\w-]]. *)
Definition is_safe (c : char) : bool :=
  (if is_ascii c
   then is_ascii_lower c || is_ascii_upper c || is_ascii_digit c || (c =? 95)%N
   else uni_word c)
  || (c =? 45)%N.

(** [re.sub(r'[^\w-]', '', s)] *)
Definition sanitize (s : str) : str := List.filter is_safe s.

(** [d / name] *)
Definition path_join (d name : str) : str := d ++ py "/" ++ name.

Definition DATA_DIR : str := path_join BASE_DIR (py "data").
Definition SESS_DIR : str := path_join DATA_DIR (py "sessions").
Definition MEM_DIR : str := path_join DATA_DIR (py "memories").

(** ** The memory store (RAG) *)

(** [get_mem_path], lines 98-100. *)
Definition get_mem_path (user_id : str) : str :=
  let safe_uid := sanitize user_id in
  path_join MEM_DIR (safe_uid ++ py ".json").

(** The session directory of a user, [SESS_DIR / re.sub(...)], as
    [get_user_session_dir] (line 82) and [analyze_user_trends] (lines 150-151)
    compute it. *)
Definition user_session_dir (user_id : str) : str :=
  path_join SESS_DIR (sanitize user_id).

(** [get_user_session_dir], lines 79-84, for the user of the session cookie:
    the directory, created when it is missing. *)
Definition get_user_session_dir (sess : sess_fs) (session_user : option str)
    : option str * sess_fs :=
  match session_user with
  | None | Some [] => (None, sess)
  | Some uid =>
      let d := user_session_dir uid in
      (Some d, match sess !! d with
               | Some _ => sess
               | None => <[d := []]> sess
               end)
  end.

(** The load step of [save_memory_npy], lines 125-128: the decoded array,
    or the empty list when the file is missing or does not parse. *)
Definition load_memory (path : str) (fs : mem_fs) : list mem_item :=
  match fs !! path with
  | Some (MemDoc data) => data
  | _ => []
  end.

(** The write step, lines 130-131. *)
Definition write_memory (wr : write_outcome) (path : str)
    (data : list mem_item) (fs : mem_fs) : mem_fs :=
  match wr with
  | Written => <[path := MemDoc data]> fs
  | OpenFailed => fs
  | DumpFailed => <[path := MemCorrupt]> fs
  end.

(** [save_memory_npy], lines 120-131. *)
Definition save_memory_npy (fs : mem_fs) (get_embedding : str -> option vec)
    (now_ts : Z) (wr : write_outcome) (user_id text role : str) : mem_fs :=
  if is_empty (strip text) then fs
  else
    match get_embedding text with
    | None | Some [] => fs
    | Some vec =>
        let path := get_mem_path user_id in
        let data := load_memory path fs in
        let data := data ++ [ {| it_ts := Some now_ts; it_role := Some role;
                                 it_text := Some text; it_vector := Some vec |} ] in
        write_memory wr path data fs
    end.

(** [item[key]] on a stored object. *)
Definition item_vector (item : mem_item) : result vec :=
  match it_vector item with
  | Some v => Ok v
  | None => Raise (KeyError (py "vector"))
  end.

Definition item_text (item : mem_item) : result str :=
  match it_text item with
  | Some t => Ok t
  | None => Raise (KeyError (py "text"))
  end.

(** The loop of lines 141-143. *)
Definition score_items (q_vec : vec) (data : list mem_item) : result (list (float * str)) :=
  map_result (fun item =>
                v ← item_vector item;
                t ← item_text item;
                Ok (cosine_sim q_vec v, t)) data.

(** The labelled block of line 146. *)
Definition context_block (res : list str) : str :=
  if is_empty res then []
  else nl ++ nl ++ py "[Relevant Context]:" ++ nl
       ++ join nl (List.map (fun t => py "- " ++ t) res).

(** [find_relevant_npy], lines 133-146. *)
Definition find_relevant_npy (fs : mem_fs) (get_embedding : str -> option vec)
    (user_id query : str) (top_k : Z) : result str :=
  let path := get_mem_path user_id in
  match fs !! path with
  | None => Ok []
  | Some file =>
      match get_embedding query with
      | None | Some [] => Ok []
      | Some q_vec =>
          match file with
          | MemCorrupt => Ok []
          | MemDoc [] => Ok []
          | MemDoc data =>
              scores ← score_items q_vec data;
              let scores := sort_desc scores in
              let res := List.map snd (slice_to top_k scores) in
              Ok (context_block res)
          end
      end
  end.

(** ** Trend analysis *)

(** [cnt[e] = cnt.get(e, 0) + 1] on a dict in insertion order. *)
Fixpoint bump (e : str) (cnt : list (str * Z)) : list (str * Z) :=
  match cnt with
  | [] => [(e, 1)]
  | (k, v) :: cnt' =>
      if str_eqb k e then (k, v + 1) :: cnt' else (k, v) :: bump e cnt'
  end.

(** The body of the inner loop, lines 171-174. *)
Definition count_msg (cnt : list (str * Z)) (m : chat_msg) : list (str * Z) :=
  match m_role m with
  | Some r =>
      if str_eqb r (py "assistant") then
        let e := default (py "neutral") (m_emotion m) in
        if str_eqb e (py "neutral") then cnt else bump e cnt
      else cnt
  | None => cnt
  end.

(** The two loops, lines 168-174. *)
Definition tally (files : list transcript) : list (str * Z) :=
  fold_left (fun cnt f => fold_left count_msg (default [] (s_chat f)) cnt) files [].

(** [cnt.get(k)] as the key function of [max]; [k] is a key of [cnt]. *)
Definition count_of (cnt : list (str * Z)) (k : str) : Z :=
  default 0 (dict_get k cnt).

(** [max(cnt, key=cnt.get)] on a non-empty dict: the first key, in
    iteration order, whose count no other key exceeds. *)
Definition dominant (cnt : list (str * Z)) : str :=
  match cnt with
  | [] => []
  | (k0, _) :: rest =>
      fold_left (fun best k => if count_of cnt best <? count_of cnt k then k else best)
                (List.map fst rest) k0
  end.

(** [sum(cnt.values())] *)
Definition total (cnt : list (str * Z)) : Z :=
  fold_left Z.add (List.map snd cnt) 0.

Definition bad : list str :=
  [py "sadness"; py "anger"; py "fear"; py "anxiety"].

(** [x in l] on strings. *)
Definition str_in (x : str) (l : list str) : bool := existsb (str_eqb x) l.

(** The constant 0.4 of line 183, the binary64 nearest to 4/10. *)
Definition threshold : float := 0x1.999999999999ap-2%float.

(** The first line of the note, line 184. *)
Definition trend_header (days : Z) (dom : str) (c tot : Z) : str :=
  nl ++ py "[PSYCHOLOGICAL TREND ANALYSIS]:" ++ nl
  ++ py "- Last " ++ str_of_int days ++ py " days mood: '" ++ upper dom
  ++ py "' (" ++ str_of_int c ++ py "/" ++ str_of_int tot ++ py ")." ++ nl.

(** The line added for a negative mood, line 187. *)
Definition negative_note : str :=
  py "- Lingering negative mood detected. Suggest behavioral intervention (rest, brain dump) instead of just comfort."
  ++ nl.

(** Lines 176-189: from the tally to the note. *)
Definition trend_note (days : Z) (cnt : list (str * Z)) : str :=
  if is_empty cnt then []
  else
    let dom := dominant cnt in
    let c := count_of cnt dom in
    let tot := total cnt in
    if (3 <=? tot) && PrimFloat.ltb threshold (int_truediv c tot) then
      let msg := trend_header days dom c tot in
      if str_in dom bad then msg ++ negative_note else msg
    else [].

(** The scan of lines 158-163: the sessions that load and whose [updated]
    (0 when the key is missing) is after the cutoff. *)
Definition recent (cutoff : Z) (dir : list sess_file) : list transcript :=
  omap (fun p =>
          match p with
          | SessDoc o => if cutoff <? default 0 (s_updated o) then Some o else None
          | SessCorrupt => None
          end) dir.

(** [analyze_user_trends], lines 149-189. *)
Definition analyze_user_trends (sess : sess_fs) (now_ts : Z)
    (user_id : str) (days : Z) : str :=
  let d := user_session_dir user_id in
  match sess !! d with
  | None => []
  | Some dir =>
      let cutoff := now_ts - days * 86400 in
      let files := recent cutoff dir in
      if is_empty files then []
      else trend_note days (tally files)
  end.

(** ** The chat endpoint *)

(** [re.search(r"\{.*\}", s, re.DOTALL)]: from the first opening brace to the
    last closing brace after it. *)
Definition search_braces (s : str) : option str :=
  match find_index (N.eqb 123) s with
  | None => None
  | Some i =>
      let after := drop (S i) s in
      match find_index (N.eqb 125) (rev after) with
      | None => None
      | Some j => Some (take (length s - i - j) (drop i s))
      end
  end.

(** [safe_json], lines 74-76: the decoded object, or the empty dict when
    nothing matches or [json.loads] raises. *)
Definition safe_json (s : str) : list (str * json) :=
  match search_braces s with
  | None => []
  | Some m => default [] (json_loads_obj m)
  end.

(** [(obj.get(key) or fallback)] followed by a [str] method: the string the
    method is called on, or the [AttributeError] of calling it on a value
    that is not a string. *)
Definition get_or (obj : list (str * json)) (key fallback method : str) : result str :=
  match dict_get key obj with
  | None => Ok fallback
  | Some v =>
      if truthy v then
        match v with
        | JStr s => Ok s
        | _ => Raise (AttributeError method)
        end
      else Ok fallback
  end.

(** The messages of lines 261-267. *)
Definition build_messages (prompt trend_ctx ctx msg : str)
    (hist : list hist_item) : list message :=
  let sys_p := prompt in
  let sys_p := if is_empty trend_ctx then sys_p else sys_p ++ trend_ctx in
  let sys_p := if is_empty ctx then sys_p else sys_p ++ nl ++ nl ++ ctx in
  [ {| msg_role := py "system"; msg_content := sys_p |} ]
  ++ List.map (fun h => {| msg_role := h_role h; msg_content := h_text h |}) hist
  ++ [ {| msg_role := py "user"; msg_content := msg |} ].

(** The answer built in lines 276-280. *)
Definition extract_reply (txt : str) : response :=
  let obj := safe_json txt in
  match get_or obj (py "emotion") (py "neutral") (py "lower") with
  | Raise e => Unhandled e
  | Ok emo =>
      match get_or obj (py "reply") txt (py "strip") with
      | Raise e => Unhandled e
      | Ok rep => Reply (strip (lower emo)) (strip rep)
      end
  end.

(** [out.get("text", "")], line 270: the value under [text]. *)
Definition content_of (out : gen_outcome) : json :=
  match out with
  | GenText t => JStr t
  | GenValue v => v
  | GenError _ => JStr []
  end.

(** [api_chat], lines 246-280: the answer and the memory directory after
    the turn.  A content that passes the test of line 271 and is not a
    string reaches [text.strip()] in the second append, line 121, after the
    first append has been made.  The session directories are the typed ones
    of the analyzer and the history entries have their two keys. *)
Definition api_chat (mem : mem_fs) (sess : sess_fs) (env : turn_env)
    (req : request) : response * mem_fs :=
  match r_user req with
  | None => (ErrorResponse 401 (py "unauthorized"), mem)
  | Some uid =>
      let msg := strip (default [] (r_message req)) in
      if is_empty msg then (ErrorResponse 400 (py "empty"), mem)
      else
        let trend_ctx := analyze_user_trends sess (e_clock env 0%nat) uid 5 in
        match find_relevant_npy mem (e_embed env 0%nat) uid msg 3 with
        | Raise e => (Unhandled e, mem)
        | Ok ctx =>
            let msgs := build_messages (e_prompt env) trend_ctx ctx msg (r_history req) in
            let txt := content_of (e_generate env msgs) in
            if negb (truthy txt) then (ErrorResponse 500 (py "backend-failed"), mem)
            else
              let mem := save_memory_npy mem (e_embed env 1%nat) (e_clock env 1%nat)
                           (e_write env 0%nat) uid msg (py "user") in
              match txt with
              | JStr txt =>
                  let mem := save_memory_npy mem (e_embed env 2%nat) (e_clock env 2%nat)
                               (e_write env 1%nat) uid txt (py "assistant") in
                  (extract_reply txt, mem)
              | _ => (Unhandled (AttributeError (py "strip")), mem)
              end
        end
  end.

(** ** Vocabulary of the properties *)

(** The fields of a stored object that retrieval reads. *)
Definition vector_of (item : mem_item) : vec := default [] (it_vector item).
Definition text_of (item : mem_item) : str := default [] (it_text item).

(** The score retrieval gives an object for the query vector [q]. *)
Definition similarity (q : vec) (item : mem_item) : float :=
  cosine_sim q (vector_of item).

(** The stored objects with their scores in front. *)
Definition tag (q : vec) (l : list mem_item) : list (float * mem_item) :=
  List.map (fun item => (similarity q item, item)) l.

(** The object has the two keys retrieval reads. *)
Definition readable (item : mem_item) : Prop :=
  is_Some (it_vector item) /\ is_Some (it_text item).

(** The object is a memory record: all four keys, a text that is not blank
    and a vector that is not empty. *)
Definition complete (item : mem_item) : Prop :=
  is_Some (it_ts item) /\ is_Some (it_role item)
  /\ (exists t, it_text item = Some t /\ strip t <> [])
  /\ (exists v, it_vector item = Some v /\ v <> []).

(** Every memory file that parses holds memory records only. *)
Definition well_formed (fs : mem_fs) : Prop :=
  forall path data, fs !! path = Some (MemDoc data) -> Forall complete data.

(** The memory directories this subsystem alone has written: it starts
    empty and changes by [save_memory_npy] only. *)
Inductive written : mem_fs -> Prop :=
| written_empty : written ∅
| written_save fs get_embedding now_ts wr user_id text role :
    written fs ->
    written (save_memory_npy fs get_embedding now_ts wr user_id text role).

(** The tally the analyzer builds: over the sessions of the user's
    directory (none when the directory is missing) that the scan keeps. *)
Definition window_tally (sess : sess_fs) (now_ts : Z) (user_id : str)
    (days : Z) : list (str * Z) :=
  tally (recent (now_ts - days * 86400)
           (default [] (sess !! user_session_dir user_id))).

(** The messages a turn sends to the generation backend, once retrieval
    has returned [ctx]. *)
Definition turn_messages (sess : sess_fs) (env : turn_env) (req : request)
    (uid ctx : str) : list message :=
  build_messages (e_prompt env)
    (analyze_user_trends sess (e_clock env 0%nat) uid 5) ctx
    (strip (default [] (r_message req))) (r_history req).




(** The generation call gave nothing the endpoint takes for a reply: it
    raised inside [ollama_chat], or the content is false in a test (the
    empty string, [null], zero, [false], an empty array or object). *)
Definition gen_failed (out : gen_outcome) : Prop :=
  truthy (content_of out) = false.

(** The object has no usable value under [key]: the key is missing or its
    value is false in a test. *)
Definition field_absent (obj : list (str * json)) (key : str) : Prop :=
  match dict_get key obj with
  | None => True
  | Some v => truthy v = false
  end.

(** The value of [key] passes the test of [or] and is not a string: the
    [str] method called on it is missing. *)
Definition holds_non_string (obj : list (str * json)) (key : str) : bool :=
  match dict_get key obj with
  | Some (JStr _) => false
  | Some v => truthy v
  | None => false
  end.

(** [obj.get(key) or fallback] where the value, if there is one that
    passes the test, is a string. *)
Definition field_or (obj : list (str * json)) (key fallback : str) : str :=
  match dict_get key obj with
  | Some (JStr s) => if is_empty s then fallback else s
  | _ => fallback
  end.

(** ** Vocabulary of the further properties *)

(** The key whose lookup raises first in the loop of lines 141-143: the
    first stored object without [vector] or, when it has one, without
    [text]. *)
Fixpoint first_missing_key (data : list mem_item) : option str :=
  match data with
  | [] => None
  | item :: data' =>
      match it_vector item, it_text item with
      | None, _ => Some (py "vector")
      | Some _, None => Some (py "text")
      | Some _, Some _ => first_missing_key data'
      end
  end.

(** The label a chat turn adds to the tally, if any: the emotion of an
    assistant turn when it is not [neutral]. *)
Definition counted_label (m : chat_msg) : option str :=
  match m_role m with
  | Some r =>
      if str_eqb r (py "assistant") then
        let e := default (py "neutral") (m_emotion m) in
        if str_eqb e (py "neutral") then None else Some e
      else None
  | None => None
  end.

(** The labels the two loops count, in the order they meet them. *)
Definition counted (files : list transcript) : list str :=
  flat_map (fun f => omap counted_label (default [] (s_chat f))) files.

(** How many times [e] occurs in [l]. *)
Definition occurrences (e : str) (l : list str) : Z :=
  Z.of_nat (length (List.filter (str_eqb e) l)).

(** The distinct elements of [l] in the order of their first occurrence:
    the keys of a dict filled by going through [l]. *)
Definition first_seen (l : list str) : list str :=
  fold_left (fun seen e => if bool_decide (e ∈ seen) then seen else seen ++ [e]) l [].

(** The memory record an append writes. *)
Definition record (now_ts : Z) (role text : str) (v : vec) : mem_item :=
  {| it_ts := Some now_ts; it_role := Some role;
     it_text := Some text; it_vector := Some v |}.

(** ** Saved sessions *)

(** [ensure_sid], line 77; [fresh] is [str(uuid.uuid4())]. *)
Definition ensure_sid (sid : option str) (fresh : str) : str :=
  match sid with
  | Some (c :: s) => c :: s
  | _ => fresh
  end.

(** [get_user_session_dir], lines 79-84, on the directories with their
    named files. *)
Definition session_dir (st : session_store) (session_user : option str)
    : option str * session_store :=
  match session_user with
  | None | Some [] => (None, st)
  | Some uid =>
      let d := user_session_dir uid in
      (Some d, match st !! d with
               | Some _ => st
               | None => <[d := ∅]> st
               end)
  end.

(** [session_path], lines 86-88: the directory and the name of the file. *)
Definition session_path (st : session_store) (session_user : option str)
    (sid : str) : option (str * str) * session_store :=
  let '(d, st) := session_dir st session_user in
  (option_map (fun d => (d, sanitize sid ++ py ".json")) d, st).

(** [write_json], lines 90-93, when the dump and the rename complete: the
    temporary file has gone and the target holds the object.  A dump that
    raises (a full disk, a text that cannot be encoded) ends the request
    with the target as it was; that outcome is not part of this function. *)
Definition write_json (p : option (str * str)) (o : saved_session)
    (st : session_store) : session_store :=
  match p with
  | Some (d, name) => <[d := <[name := SavedDoc o]> (default ∅ (st !! d))]> st
  | None => st
  end.

(** [read_json], line 95: the file at [p], if there is one; the caller
    gets [None] without a file and an exception from a file that does not
    parse. *)
Definition read_json (p : option (str * str)) (st : session_store)
    : option saved_file :=
  match p with
  | Some (d, name) => files ← st !! d; files !! name
  | None => None
  end.

(** The title of line 287:
    [(d.get("chat", [])[0]['text'] if d.get("chat") else "New Chat")[:60]]. *)
Definition title_of (chat : option (list turn)) : result str :=
  match chat with
  | Some (t :: _) =>
      match t_text t with
      | Some s => Ok (take 60 s)
      | None => Raise (KeyError (py "text"))
      end
  | _ => Ok (take 60 (py "New Chat"))
  end.

(** [api_save], lines 282-288: the body's [sid] and [chat], the identifier
    [uuid4] would give and the clock; [SaveOk] is the answer of a request
    whose write completes. *)
Definition api_save (st : session_store) (session_user : option str)
    (sid : option str) (chat : option (list turn)) (fresh : str) (now_ts : Z)
    : save_response * session_store :=
  match session_user with
  | None => (SaveDenied, st)
  | Some _ =>
      let sid := ensure_sid sid fresh in
      let '(p, st) := session_path st session_user sid in
      match title_of chat with
      | Raise e => (SaveRaised e, st)
      | Ok title =>
          (SaveOk sid,
           write_json p
             {| ss_sid := Some sid; ss_title := Some title;
                ss_chat := match chat with
                           | Some l => ChatList l
                           | None => ChatNull
                           end;
                ss_updated := Some now_ts |} st)
      end
  end.

(** The object has no key at all: the dict [{}], false in a test. *)
Definition empty_object (o : saved_session) : bool :=
  match ss_sid o, ss_title o, ss_chat o, ss_updated o with
  | None, None, ChatMissing, None => true
  | _, _, _, _ => false
  end.

(** The answer [jsonify(read_json(p) or {})] of line 305; [LoadOk None]
    is the answer [{}]. *)
Definition load_answer (f : option saved_file) : load_response :=
  match f with
  | None => LoadOk None
  | Some SavedCorrupt => LoadRaised JSONDecodeError
  | Some (SavedDoc o) => if empty_object o then LoadOk None else LoadOk (Some o)
  end.

(** [api_load], lines 302-305; [sid] is [request.args.get("sid")].  The
    directory is made before [re.sub] meets a missing [sid]. *)
Definition api_load (st : session_store) (session_user : option str)
    (sid : option str) : load_response * session_store :=
  match session_user with
  | None => (LoadDenied, st)
  | Some _ =>
      match sid with
      | None =>
          let '(d, st) := session_dir st session_user in
          (match d with
           | Some _ => LoadRaised TypeError
           | None => LoadOk None
           end, st)
      | Some sid =>
          let '(p, st) := session_path st session_user sid in
          (load_answer (read_json p st), st)
      end
  end.

(** [res.sort(key=lambda x: x.get("updated", 0), reverse=True)]: the
    stable sort by decreasing stamp. *)
Definition updated_of (o : saved_session) : Z := default 0 (ss_updated o).

Fixpoint insert_updated (x : saved_session) (l : list saved_session)
    : list saved_session :=
  match l with
  | [] => [x]
  | y :: l' =>
      if updated_of x <? updated_of y then y :: insert_updated x l' else x :: y :: l'
  end.

Definition sort_updated (l : list saved_session) : list saved_session :=
  fold_right insert_updated [] l.

(** The files of a listing that load, lines 295-297. *)
Definition loaded (listing : list (str * saved_file)) : list saved_session :=
  omap (fun nf => match snd nf with
                  | SavedDoc o => Some o
                  | SavedCorrupt => None
                  end) listing.

(** [api_sessions], lines 290-300; [glob] lists the [*.json] files of a
    directory in the order the file system gives them. *)
Definition api_sessions (glob : gmap str saved_file -> list (str * saved_file))
    (st : session_store) (session_user : option str)
    : list_response * session_store :=
  match session_user with
  | None => (ListDenied, st)
  | Some _ =>
      let '(d, st) := session_dir st session_user in
      let res := match d with
                 | Some d => loaded (glob (default ∅ (st !! d)))
                 | None => []
                 end in
      (ListOk (sort_updated res), st)
  end.

(** The counting loops of [analyze_user_trends], lines 168-174, over
    session objects as they are on disk: iterating a [chat] that is [null]
    raises. *)
Definition as_chat_msg (t : turn) : chat_msg :=
  {| m_role := t_role t; m_emotion := t_emotion t |}.

Fixpoint tally_saved (files : list saved_session) (cnt : list (str * Z))
    : option (list (str * Z)) :=
  match files with
  | [] => Some cnt
  | f :: files' =>
      match ss_chat f with
      | ChatNull => None
      | ChatMissing => tally_saved files' cnt
      | ChatList l =>
          tally_saved files' (fold_left count_msg (List.map as_chat_msg l) cnt)
      end
  end.

(** The scan of lines 158-163 over the files of a listing. *)
Definition recent_saved (cutoff : Z) (listing : list (str * saved_file))
    : list saved_session :=
  List.filter (fun o => cutoff <? updated_of o) (loaded listing).

(** [analyze_user_trends], lines 149-189, over the session directories as
    [api_save] leaves them; [None] is the [TypeError] of a [null] chat. *)
Definition analyze_saved_sessions
    (glob : gmap str saved_file -> list (str * saved_file))
    (st : session_store) (now_ts : Z) (user_id : str) (days : Z) : option str :=
  let d := user_session_dir user_id in
  match st !! d with
  | None => Some []
  | Some dir =>
      let cutoff := now_ts - days * 86400 in
      let files := recent_saved cutoff (glob dir) in
      if is_empty files then Some []
      else cnt ← tally_saved files []; Some (trend_note days cnt)
  end.

(** The order of a listing of sessions: no stamp below a later one. *)
Definition newest_first (l : list saved_session) : Prop :=
  StronglySorted (fun a b => updated_of b <= updated_of a) l.

(** The sessions of [l] with the stamp [k], in their order. *)
Definition stamped (k : Z) (l : list saved_session) : list saved_session :=
  List.filter (fun o => updated_of o =? k) l.

(** The files of a directory, none when it does not exist. *)
Definition files_of (st : session_store) (d : str) : gmap str saved_file :=
  default ∅ (st !! d).

(** The name of the file of a session identifier. *)
Definition session_file_name (sid : str) : str := sanitize sid ++ py ".json".

(** The object [api_save] writes. *)
Definition saved_object (sid : str) (title : str) (chat : option (list turn))
    (now_ts : Z) : saved_session :=
  {| ss_sid := Some sid; ss_title := Some title;
     ss_chat := match chat with Some l => ChatList l | None => ChatNull end;
     ss_updated := Some now_ts |}.

(** The listing of every directory is an enumeration of its files. *)
Definition enumerates (glob : gmap str saved_file -> list (str * saved_file)) : Prop :=
  forall files, Permutation (glob files) (map_to_list files).

(** ** Accounts *)

(** [check_password_hash] of werkzeug, [None] when it raises. *)
Variable check_password_hash : str -> option str -> option bool.

(** [read_users], line 72: [None] is the exception of a file that does
    not parse. *)
Definition read_users (us : option users_file) : option (list (str * account)) :=
  match us with
  | None => Some []
  | Some UsersCorrupt => None
  | Some (UsersDoc users) => Some users
  end.

(** [write_users], line 73, with what happens on disk. *)
Definition write_users (wr : write_outcome) (users : list (str * account))
    (us : option users_file) : option users_file :=
  match wr with
  | Written => Some (UsersDoc users)
  | OpenFailed => us
  | DumpFailed => Some UsersCorrupt
  end.

(** [users[u] = v] on a dict in insertion order. *)
Fixpoint dict_set {V} (key : str) (v : V) (d : list (str * V)) : list (str * V) :=
  match d with
  | [] => [(key, v)]
  | (k, v') :: d' =>
      if str_eqb k key then (k, v) :: d' else (k, v') :: dict_set key v d'
  end.

(** A string of the body that has a value and is not empty. *)
Definition given (x : option str) : bool :=
  match x with
  | Some (_ :: _) => true
  | _ => false
  end.

(** [api_register], lines 217-226; [hash] is what
    [generate_password_hash] returns for the password. *)
Definition api_register (us : option users_file)
    (username display_name password : option str) (hash : str) (now_ts : Z)
    (wr : write_outcome) : auth_response * option users_file :=
  if negb (given username && given display_name && given password)
  then (AuthRefused 400, us)
  else
    match read_users us with
    | None => (AuthRaised, us)
    | Some users =>
        let u := default [] username in
        if bool_decide (is_Some (dict_get u users)) then (AuthRefused 409, us)
        else
          let users := dict_set u {| a_hash := Some hash;
                                     a_display_name := display_name;
                                     a_created_at := Some now_ts |} users in
          (match wr with Written => AuthOk | _ => AuthRaised end,
           write_users wr users us)
    end.

(** An account object that is not the empty dict. *)
Definition account_truthy (a : account) : bool :=
  bool_decide (is_Some (a_hash a)) || bool_decide (is_Some (a_display_name a))
  || bool_decide (is_Some (a_created_at a)).

(** [api_login], lines 228-236. *)
Definition api_login (us : option users_file) (c : cookie)
    (username password : option str) : auth_response * cookie :=
  match read_users us with
  | None => (AuthRaised, c)
  | Some users =>
      match username ≫= (fun u => dict_get u users) with
      | None => (AuthRefused 401, c)
      | Some acc =>
          if account_truthy acc then
            match a_hash acc with
            | None => (AuthRaised, c)
            | Some h =>
                match check_password_hash h password with
                | None => (AuthRaised, c)
                | Some true => (AuthOk, {| c_user := username; c_admin := c_admin c |})
                | Some false => (AuthRefused 401, c)
                end
            end
          else (AuthRefused 401, c)
      end
  end.

(** ** Speech *)

(** The lower-case Vietnamese letters with diacritics of line 316. *)
Definition vn_chars : str :=
  [224; 225; 7841; 7843; 227; 226; 7847; 7845; 7853; 7849; 7851; 259; 7857;
   7855; 7863; 7859; 7861; 232; 233; 7865; 7867; 7869; 234; 7873; 7871; 7879;
   7875; 7877; 236; 237; 7883; 7881; 297; 242; 243; 7885; 7887; 245; 244;
   7891; 7889; 7897; 7893; 7895; 417; 7901; 7899; 7907; 7903; 7905; 249; 250;
   7909; 7911; 361; 432; 7915; 7913; 7921; 7917; 7919; 7923; 253; 7925; 7927;
   7929; 273]%N.

(** The voice of line 317. *)
Definition voice_of (text : str) : str :=
  if existsb (fun c => bool_decide (c ∈ lower text)) vn_chars
  then py "vi-VN-HoaiMyNeural"
  else py "en-US-AriaNeural".

(** [api_tts], lines 307-331; [synthesize] is the call of the speech
    service for a text and a voice, with the reading of the file it
    leaves: the audio, or the text of the exception. *)
Definition api_tts (EDGE_TTS_AVAILABLE : bool)
    (synthesize : str -> str -> str + list N)
    (session_user : option str) (text : option str) : tts_response :=
  match session_user with
  | None => TtsError 401 (py "unauthorized")
  | Some _ =>
      if negb EDGE_TTS_AVAILABLE then TtsError 500 (py "edge-tts missing")
      else
        let text := strip (default [] text) in
        if is_empty text then TtsError 400 (py "empty")
        else
          match synthesize text (voice_of text) with
          | inr audio => Audio audio
          | inl e => TtsError 500 e
          end
  end.

(** The accounts [api_register] makes: a name that is not empty, a hash
    and a display name; no name twice. *)
Definition registered (users : list (str * account)) : Prop :=
  NoDup (List.map fst users)
  /\ Forall (fun ka => fst ka <> [] /\ is_Some (a_hash (snd ka))
                       /\ is_Some (a_display_name (snd ka))) users.


(** * Properties *)

(** ** Order of binary64 values *)

Ltac cmp_cases :=
  repeat match goal with
  | |- context [Z.compare ?a ?b] => destruct (Z.compare_spec a b)
  | |- context [Pos.compare_cont Eq ?a ?b] =>
      change (Pos.compare_cont Eq a b) with (Pos.compare a b);
      destruct (Pos.compare_spec a b)
  end.

Lemma SFcompare_antisym x y :
  SFcompare y x = option_map CompOpp (SFcompare x y).
Proof.
  destruct x as [[]|[]| |[] m1 e1], y as [[]|[]| |[] m2 e2]; simpl; try reflexivity;
    cmp_cases; simpl; try reflexivity; try lia.
Qed.

Lemma SFcompare_eq_congr x y z :
  SFcompare x y = Some Eq -> SFcompare x z = SFcompare y z.
Proof.
  destruct x as [[]|[]| |[] m1 e1], y as [[]|[]| |[] m2 e2]; simpl; try discriminate;
    try reflexivity; cmp_cases; try discriminate; intros _; subst; reflexivity.
Qed.

Lemma SFle_trans x y z : SFle x y -> SFle y z -> SFle x z.
Proof.
  unfold SFle.
  destruct x as [[]|[]| |[] m1 e1], y as [[]|[]| |[] m2 e2], z as [[]|[]| |[] m3 e3];
    simpl; cmp_cases; subst; intros [Hxy|Hxy] [Hyz|Hyz]; try discriminate;
    try (left; reflexivity); try (right; reflexivity); try lia.
Qed.

Lemma SFcompare_None x y :
  SFcompare x y = None -> SFcompare x x = None \/ SFcompare y y = None.
Proof.
  destruct x as [[]|[]| |[] m1 e1], y as [[]|[]| |[] m2 e2]; simpl; try discriminate; auto.
Qed.

Lemma float_ltb_leb a b : PrimFloat.ltb a b = true -> PrimFloat.leb a b = true.
Proof.
  rewrite FloatAxioms.ltb_spec, FloatAxioms.leb_spec. unfold SFltb, SFleb.
  destruct (SFcompare (Prim2SF a) (Prim2SF b)) as [[]|]; congruence.
Qed.

Lemma float_leb_SFle a b : PrimFloat.leb a b = true <-> SFle (Prim2SF a) (Prim2SF b).
Proof.
  rewrite FloatAxioms.leb_spec. unfold SFleb, SFle.
  destruct (SFcompare (Prim2SF a) (Prim2SF b)) as [[]|];
    (split; [intros ?|intros [?|?]]); try discriminate; auto.
Qed.

Lemma float_leb_trans a b c :
  PrimFloat.leb a b = true -> PrimFloat.leb b c = true -> PrimFloat.leb a c = true.
Proof. rewrite !float_leb_SFle. apply SFle_trans. Qed.

Lemma not_nan_compare a :
  PrimFloat.is_nan a = false -> SFcompare (Prim2SF a) (Prim2SF a) = Some Eq.
Proof.
  unfold PrimFloat.is_nan. rewrite FloatAxioms.eqb_spec. unfold SFeqb.
  destruct (SFcompare (Prim2SF a) (Prim2SF a)) as [[]|]; simpl; congruence.
Qed.

(** On numbers, [not (a < b)] is [b <= a]. *)
Lemma float_ltb_false_leb a b :
  PrimFloat.is_nan a = false -> PrimFloat.is_nan b = false ->
  PrimFloat.ltb a b = false -> PrimFloat.leb b a = true.
Proof.
  intros Ha Hb. apply not_nan_compare in Ha, Hb.
  rewrite FloatAxioms.ltb_spec, FloatAxioms.leb_spec. unfold SFltb, SFleb.
  rewrite (SFcompare_antisym (Prim2SF a) (Prim2SF b)).
  destruct (SFcompare (Prim2SF a) (Prim2SF b)) as [[]|] eqn:E; simpl; try congruence.
  apply SFcompare_None in E. destruct E; congruence.
Qed.

(** Two values equal to a third are not ordered by [<]. *)
Lemma float_eqb_class_not_ltb x y s :
  PrimFloat.eqb x s = true -> PrimFloat.eqb y s = true -> PrimFloat.ltb x y = false.
Proof.
  rewrite !FloatAxioms.eqb_spec, FloatAxioms.ltb_spec. unfold SFeqb, SFltb. intros Hx Hy.
  assert (Ex : SFcompare (Prim2SF x) (Prim2SF s) = Some Eq)
    by (destruct (SFcompare (Prim2SF x) (Prim2SF s)) as [[]|]; congruence).
  assert (Ey : SFcompare (Prim2SF y) (Prim2SF s) = Some Eq)
    by (destruct (SFcompare (Prim2SF y) (Prim2SF s)) as [[]|]; congruence).
  rewrite (SFcompare_eq_congr _ _ _ Ex), (SFcompare_antisym (Prim2SF y) (Prim2SF s)), Ey.
  reflexivity.
Qed.

(** [x == 0] holds of the two zeros only. *)
Lemma float_eqb_zero x :
  PrimFloat.eqb x 0%float = true -> x = 0%float \/ x = (-0)%float.
Proof.
  rewrite FloatAxioms.eqb_spec. unfold SFeqb. intros H.
  assert (Hz : exists s, Prim2SF x = S754_zero s).
  { change (Prim2SF 0%float) with (S754_zero false) in H.
    destruct (Prim2SF x) as [s|[]| |[] m e]; simpl in H; try discriminate. eauto. }
  destruct Hz as [s Hs]. rewrite <- (SF2Prim_Prim2SF x), Hs.
  destruct s; [right|left]; reflexivity.
Qed.

(** ** The descending stable sort *)

Section SortDesc.
Context {A : Type}.
Implicit Types (x y z : float * A) (l : list (float * A)).

Lemma insert_desc_perm x l : Permutation (insert_desc x l) (x :: l).
Proof.
  induction l as [|y l IH]; simpl; [reflexivity|].
  destruct (PrimFloat.ltb (fst x) (fst y)); [|reflexivity].
  rewrite IH. apply perm_swap.
Qed.

Lemma sort_desc_perm l : Permutation (sort_desc l) l.
Proof.
  induction l as [|x l IH]; simpl; [reflexivity|].
  rewrite insert_desc_perm. by constructor.
Qed.

Lemma insert_desc_sorted x l :
  PrimFloat.is_nan (fst x) = false -> numeric_keys l ->
  StronglySorted ge_key l -> StronglySorted ge_key (insert_desc x l).
Proof.
  intros Hx Hl Hs. induction Hs as [|y l Hs IH Hy]; simpl.
  - repeat constructor.
  - inversion Hl as [|? ? Hny Hl']; subst.
    destruct (PrimFloat.ltb (fst x) (fst y)) eqn:E.
    + constructor; [by apply IH|].
      rewrite (insert_desc_perm x l).
      constructor; [|done]. by apply float_ltb_leb.
    + assert (Hxy : ge_key x y) by (by apply float_ltb_false_leb).
      constructor; [by constructor|].
      constructor; [done|].
      eapply Forall_impl; [exact Hy|]. intros z Hz. unfold ge_key in *.
      by eapply float_leb_trans.
Qed.

Lemma sort_desc_numeric l : numeric_keys l -> numeric_keys (sort_desc l).
Proof. intros H. unfold numeric_keys. by rewrite (sort_desc_perm l). Qed.

Lemma sort_desc_sorted l :
  numeric_keys l -> StronglySorted ge_key (sort_desc l).
Proof.
  induction 1 as [|x l Hx Hl IH]; simpl; [constructor|].
  apply insert_desc_sorted; [done| |done]. by apply sort_desc_numeric.
Qed.

Lemma insert_desc_with_key s x l :
  with_key s (insert_desc x l) = with_key s (x :: l).
Proof.
  induction l as [|y l IH]; [reflexivity|].
  cbn [insert_desc]. destruct (PrimFloat.ltb (fst x) (fst y)) eqn:E; [|reflexivity].
  unfold with_key in *. cbn [List.filter] in *. rewrite IH.
  destruct (PrimFloat.eqb (fst x) s) eqn:Ex, (PrimFloat.eqb (fst y) s) eqn:Ey;
    try reflexivity.
  rewrite (float_eqb_class_not_ltb _ _ _ Ex Ey) in E. discriminate.
Qed.

Lemma sort_desc_stable s l : with_key s (sort_desc l) = with_key s l.
Proof.
  induction l as [|x l IH]; [reflexivity|].
  cbn [sort_desc fold_right]. rewrite insert_desc_with_key.
  unfold with_key in *. cbn [List.filter]. fold (sort_desc l). by rewrite IH.
Qed.

End SortDesc.

Lemma float_eqb_refl a : PrimFloat.is_nan a = false -> PrimFloat.eqb a a = true.
Proof. unfold PrimFloat.is_nan. by destruct (PrimFloat.eqb a a). Qed.

(** [a <= b] and [b <= a] make [a == b]. *)
Lemma float_leb_antisym a b :
  PrimFloat.leb a b = true -> PrimFloat.leb b a = true -> PrimFloat.eqb a b = true.
Proof.
  rewrite !FloatAxioms.leb_spec, FloatAxioms.eqb_spec. unfold SFleb, SFeqb.
  rewrite (SFcompare_antisym (Prim2SF a) (Prim2SF b)).
  destruct (SFcompare (Prim2SF a) (Prim2SF b)) as [[]|]; cbn; congruence.
Qed.

Section Unique.
Context {A : Type}.
Implicit Types (x y : float * A) (l : list (float * A)).

(** A list has one arrangement only that is in non-increasing key order and
    keeps the elements of each key in a given order: whatever stable sort the
    interpreter runs, on numeric keys its result is that of [sort_desc]. *)
Lemma stable_sorted_unique l1 l2 :
  numeric_keys l1 ->
  Permutation l1 l2 ->
  StronglySorted ge_key l1 -> StronglySorted ge_key l2 ->
  (forall s, with_key s l1 = with_key s l2) ->
  l1 = l2.
Proof.
  revert l2. induction l1 as [|x l1 IH]; intros l2 Hnum Hperm Hs1 Hs2 Hst.
  - by apply Permutation_nil in Hperm.
  - destruct l2 as [|y l2]; [by apply Permutation_sym, Permutation_nil in Hperm|].
    unfold numeric_keys in Hnum. apply Forall_cons in Hnum as [Hx Hnum1].
    apply StronglySorted_inv in Hs1 as [Hs1' Hx1].
    apply StronglySorted_inv in Hs2 as [Hs2' Hy2].
    assert (Hxx : PrimFloat.eqb (fst x) (fst x) = true) by by apply float_eqb_refl.
    assert (Hkey : PrimFloat.eqb (fst y) (fst x) = true).
    { assert (Hx2 : x ∈ y :: l2) by (rewrite <- Hperm; by left).
      assert (Hy1 : y ∈ x :: l1) by (rewrite Hperm; by left).
      apply elem_of_cons in Hx2 as [<-|Hx2]; [done|].
      apply elem_of_cons in Hy1 as [->|Hy1]; [done|].
      rewrite List.Forall_forall in Hx1, Hy2.
      apply float_leb_antisym.
      - apply (Hx1 y). by apply list_elem_of_In.
      - apply (Hy2 x). by apply list_elem_of_In. }
    pose proof (Hst (fst x)) as Hhead. unfold with_key in Hhead.
    cbn [List.filter] in Hhead. rewrite Hxx, Hkey in Hhead.
    injection Hhead as Hxy Htail. subst y. f_equal.
    apply IH; try done.
    + by apply Permutation_cons_inv in Hperm.
    + intros s. specialize (Hst s). unfold with_key in *. cbn [List.filter] in Hst.
      destruct (PrimFloat.eqb (fst x) s); [by injection Hst|done].
Qed.

End Unique.

(** Sorting does not look at what the keys are attached to. *)
Lemma sort_desc_map {A B} (f : A -> B) (l : list (float * A)) :
  sort_desc (List.map (fun x => (fst x, f (snd x))) l)
  = List.map (fun x => (fst x, f (snd x))) (sort_desc l).
Proof.
  induction l as [|x l IH]; [reflexivity|].
  cbn [List.map sort_desc fold_right]. fold (sort_desc l).
  fold (sort_desc (List.map (fun x => (fst x, f (snd x))) l)). rewrite IH.
  generalize (sort_desc l). intros s. induction s as [|y s IHs]; [reflexivity|].
  cbn [insert_desc List.map fst]. destruct (PrimFloat.ltb (fst x) (fst y)); cbn [List.map];
    [by rewrite IHs|reflexivity].
Qed.

Lemma slice_to_nat {A} (k : nat) (l : list A) : slice_to (Z.of_nat k) l = take k l.
Proof.
  unfold slice_to. destruct (Z.ltb_spec (Z.of_nat k) 0); [lia|]. by rewrite Nat2Z.id.
Qed.

(** ** Cosine similarity *)

Lemma dot_self (v : vec) :
  List.map (fun ab => PrimFloat.mul (fst ab) (snd ab)) (combine v v)
  = List.map (fun a => PrimFloat.mul a a) v.
Proof. induction v as [|a v IH]; simpl; congruence. Qed.

Lemma sum_step_zeros (v : vec) :
  Forall (fun a => PrimFloat.eqb a 0%float = true) v ->
  fold_left sum_step (List.map (fun a => PrimFloat.mul a a) v) (0%float, 0%float)
  = (0%float, 0%float).
Proof.
  induction 1 as [|a v Ha _ IH]; [reflexivity|].
  cbn [List.map fold_left]. destruct (float_eqb_zero a Ha) as [-> | ->]; exact IH.
Qed.

Lemma sumsq_zeros (v : vec) :
  Forall (fun a => PrimFloat.eqb a 0%float = true) v -> sumsq v = 0%float.
Proof.
  unfold sumsq, py_sum. intros [|a w Ha Hv]; [reflexivity|].
  cbn [List.map].
  assert (H0 : PrimFloat.add 0%float (PrimFloat.mul a a) = 0%float).
  { by destruct (float_eqb_zero a Ha) as [-> | ->]. }
  by rewrite H0, (sum_step_zeros w Hv).
Qed.

Lemma cosine_sim_zero_magnitude (v1 v2 : vec) :
  PrimFloat.eqb (magnitude v1) 0%float = true
  \/ PrimFloat.eqb (magnitude v2) 0%float = true ->
  cosine_sim v1 v2 = 0%float.
Proof.
  intros H. unfold cosine_sim.
  destruct (is_empty v1 || is_empty v2 || negb (length v1 =? length v2)%nat);
    [reflexivity|].
  fold (sumsq v1) (sumsq v2). fold (magnitude v1) (magnitude v2).
  destruct H as [-> | ->]; [reflexivity|]. by rewrite orb_true_r.
Qed.

(** A finite binary64 other than zero divided by itself is exactly [1.0]. *)
Lemma SFdiv_self s m e :
  SF64div (S754_finite s m e) (S754_finite s m e) = Prim2SF 1%float.
Proof.
  unfold SF64div, SFdiv, SFdiv_core_binary.
  rewrite !Z.sub_diag.
  change (Z.min (fexp prec emax 0) 0) with (-53).
  change (0 - -53) with 53.
  cbv iota beta.
  destruct (Z.div_eucl (Z.shiftl (Z.pos m) 53) (Z.pos m)) as [q r] eqn:E.
  assert (Hq : q = 2 ^ 53).
  { change q with (fst (q, r)). rewrite <- E.
    change (fst (Z.div_eucl ?a ?b)) with (a / b).
    rewrite Z.shiftl_mul_pow2 by lia. rewrite Z.mul_comm. apply Z.div_mul. lia. }
  assert (Hr : r = 0).
  { change r with (snd (q, r)). rewrite <- E.
    change (snd (Z.div_eucl ?a ?b)) with (a mod b).
    rewrite Z.shiftl_mul_pow2 by lia. rewrite Z.mul_comm. apply Z.mod_mul. lia. }
  subst q r. rewrite xorb_nilpotent.
  assert (Hloc : new_location (Z.pos m) 0 = loc_Exact).
  { unfold new_location, new_location_even, new_location_odd.
    destruct (Z.even (Z.pos m)); reflexivity. }
  rewrite Hloc. vm_compute. reflexivity.
Qed.

Lemma float_div_self x s m e :
  Prim2SF x = S754_finite s m e -> PrimFloat.div x x = 1%float.
Proof.
  intros H. apply Prim2SF_inj. rewrite FloatAxioms.div_spec, H. apply SFdiv_self.
Qed.

Lemma SFcompare_finite_eq x s m e :
  SFcompare x (S754_finite s m e) = Some Eq -> x = S754_finite s m e.
Proof.
  destruct x as [[]|[]| |[] m1 e1], s; simpl; try discriminate;
    cmp_cases; try discriminate; intros _; by subst.
Qed.

(** A sum of squares that is finite and whose root is not zero is a finite
    number other than zero. *)
Lemma sumsq_finite (s : float) :
  PrimFloat.eqb (PrimFloat.sqrt s) 0%float = false ->
  PrimFloat.eqb s s = true ->
  PrimFloat.is_infinity s = false ->
  exists sg m e, Prim2SF s = S754_finite sg m e.
Proof.
  intros Hroot Hnum Hinf.
  destruct (Prim2SF s) as [sg|sg| |sg m e] eqn:E.
  - exfalso. rewrite <- (SF2Prim_Prim2SF s), E in Hroot.
    destruct sg; vm_compute in Hroot; discriminate.
  - exfalso. rewrite <- (SF2Prim_Prim2SF s), E in Hinf.
    destruct sg; vm_compute in Hinf; discriminate.
  - exfalso. rewrite FloatAxioms.eqb_spec, E in Hnum. discriminate.
  - eauto.
Qed.

Lemma cosine_sim_self_exact (v : vec) :
  v <> [] ->
  PrimFloat.eqb (magnitude v) 0%float = false ->
  PrimFloat.eqb (PrimFloat.mul (magnitude v) (magnitude v)) (sumsq v) = true ->
  PrimFloat.is_infinity (sumsq v) = false ->
  cosine_sim v v = 1%float.
Proof.
  intros Hne Hmag Hsq Hinf.
  assert (Hnum : PrimFloat.eqb (sumsq v) (sumsq v) = true).
  { rewrite FloatAxioms.eqb_spec in Hsq |- *. unfold SFeqb in *.
    destruct (SFcompare (Prim2SF (PrimFloat.mul (magnitude v) (magnitude v)))
                (Prim2SF (sumsq v))) as [[]|] eqn:E; try discriminate.
    rewrite <- (SFcompare_eq_congr _ _ _ E), E. reflexivity. }
  destruct (sumsq_finite (sumsq v) Hmag Hnum Hinf) as (sg & m & e & Hs).
  assert (Heq : PrimFloat.mul (magnitude v) (magnitude v) = sumsq v).
  { apply Prim2SF_inj. rewrite Hs. apply SFcompare_finite_eq.
    rewrite FloatAxioms.eqb_spec, Hs in Hsq. unfold SFeqb in Hsq.
    by destruct (SFcompare _ _) as [[]|]. }
  unfold cosine_sim. destruct v as [|a v]; [done|]. cbn [is_empty orb].
  rewrite Nat.eqb_refl. cbn [negb]. rewrite dot_self.
  fold (sumsq (a :: v)). fold (magnitude (a :: v)).
  rewrite Hmag. cbn [orb]. rewrite Heq. by eapply float_div_self.
Qed.

(** C3, as the code has it: the result is exactly [0.0] when the lengths
    differ, when a vector is empty, when a computed magnitude is zero, and so
    when a vector holds zeros only; a vector with a non-zero magnitude [m]
    and sum of squares [s] has the similarity [s / (m * m)] to itself, which
    is exactly [1.0] whenever [s] is finite and [m * m] gives [s] back, as
    for [[3.0, 4.0]]. *)
Theorem cosine_sim_degenerate (v1 v2 : vec) :
  (length v1 <> length v2 -> cosine_sim v1 v2 = 0%float)
  /\ (v1 = [] \/ v2 = [] -> cosine_sim v1 v2 = 0%float)
  /\ (PrimFloat.eqb (magnitude v1) 0%float = true
      \/ PrimFloat.eqb (magnitude v2) 0%float = true ->
      cosine_sim v1 v2 = 0%float)
  /\ (Forall (fun a => PrimFloat.eqb a 0%float = true) v1
      \/ Forall (fun a => PrimFloat.eqb a 0%float = true) v2 ->
      cosine_sim v1 v2 = 0%float)
  /\ (v1 <> [] -> PrimFloat.eqb (magnitude v1) 0%float = false ->
      cosine_sim v1 v1
      = PrimFloat.div (sumsq v1) (PrimFloat.mul (magnitude v1) (magnitude v1)))
  /\ (v1 <> [] -> PrimFloat.eqb (magnitude v1) 0%float = false ->
      PrimFloat.eqb (PrimFloat.mul (magnitude v1) (magnitude v1)) (sumsq v1) = true ->
      PrimFloat.is_infinity (sumsq v1) = false ->
      cosine_sim v1 v1 = 1%float)
  /\ cosine_sim [3%float; 4%float] [3%float; 4%float] = 1%float.
Proof.
  split; [|split; [|split; [|split; [|split; [|split]]]]].
  - intros Hlen. unfold cosine_sim.
    destruct (Nat.eqb_spec (length v1) (length v2)); [done|].
    by rewrite !orb_true_r.
  - intros [-> | ->]; unfold cosine_sim; [reflexivity|].
    by destruct v1.
  - apply cosine_sim_zero_magnitude.
  - intros H. apply cosine_sim_zero_magnitude. unfold magnitude.
    destruct H as [H|H]; [left|right]; by rewrite (sumsq_zeros _ H).
  - intros Hne Hmag. unfold cosine_sim.
    destruct v1 as [|a v]; [done|]. cbn [is_empty orb].
    rewrite Nat.eqb_refl. cbn [negb]. rewrite dot_self.
    fold (sumsq (a :: v)). fold (magnitude (a :: v)).
    by rewrite Hmag.
  - apply cosine_sim_self_exact.
  - reflexivity.
Qed.

(** C3, the claim as stated fails: the vector [[1.0, 1.0]] is not zero and
    its similarity to itself is below [1.0] (the square of the rounded root
    of 2 is above 2); the vector [[2^-600]] is not zero and its similarity
    to itself is [0.0], its square being too small for a binary64; the
    vector [[2^600]] is not zero and its similarity to itself is a NaN, its
    square being too large. *)
Lemma cosine_sim_self_not_one :
  PrimFloat.eqb (cosine_sim [1%float; 1%float] [1%float; 1%float]) 1%float = false
  /\ PrimFloat.ltb (cosine_sim [1%float; 1%float] [1%float; 1%float]) 1%float = true
  /\ cosine_sim [0x1p-600%float] [0x1p-600%float] = 0%float
  /\ PrimFloat.is_nan (cosine_sim [0x1p600%float] [0x1p600%float]) = true.
Proof. repeat split; vm_compute; reflexivity. Qed.

(** ** Retrieval *)

Lemma score_items_readable q data :
  Forall readable data ->
  score_items q data
  = Ok (List.map (fun x => (fst x, text_of (snd x))) (tag q data)).
Proof.
  unfold score_items. induction 1 as [|item data [[v Hv] [t Ht]] _ IH]; [reflexivity|].
  cbn [map_result]. rewrite IH.
  unfold item_vector, item_text, tag, similarity, vector_of, text_of.
  cbn [List.map fst snd]. rewrite Hv, Ht. reflexivity.
Qed.

Lemma tagged_sorted q (l : list (float * mem_item)) :
  Forall (fun x => fst x = similarity q (snd x)) l -> l = tag q (List.map snd l).
Proof.
  induction 1 as [|[s item] l Hx _ IH]; [reflexivity|].
  simpl in *. subst s. by rewrite <- IH.
Qed.

Lemma tag_consistent q data :
  Forall (fun x => fst x = similarity q (snd x)) (tag q data).
Proof. unfold tag. rewrite Forall_map. by apply Forall_true. Qed.

Lemma tag_sorted q l :
  StronglySorted ge_key (tag q l)
  <-> StronglySorted
        (fun a b => PrimFloat.leb (similarity q b) (similarity q a) = true) l.
Proof.
  induction l as [|a l IH]; [split; constructor|].
  cbn [tag List.map]. fold (tag q l). split.
  - intros H. apply StronglySorted_inv in H as [Hs Ha].
    constructor; [by apply IH|].
    unfold tag in Ha. rewrite Forall_map in Ha. exact Ha.
  - intros H. apply StronglySorted_inv in H as [Hs Ha].
    constructor; [by apply IH|].
    unfold tag. rewrite Forall_map. exact Ha.
Qed.

Lemma with_key_tag q s l :
  with_key s (tag q l)
  = tag q (List.filter (fun item => PrimFloat.eqb (similarity q item) s) l).
Proof.
  induction l as [|a l IH]; [reflexivity|].
  unfold with_key in *. cbn [tag List.map List.filter fst]. fold (tag q l).
  destruct (PrimFloat.eqb (similarity q a) s); cbn [tag List.map]; by rewrite IH.
Qed.

Lemma tag_snd q l : List.map snd (tag q l) = l.
Proof. unfold tag. rewrite List.map_map. cbn [snd]. apply List.map_id. Qed.

Lemma tag_with_key q s l :
  List.map snd (with_key s (tag q l))
  = List.filter (fun item => PrimFloat.eqb (similarity q item) s) l.
Proof. by rewrite with_key_tag, tag_snd. Qed.

(** The ranking of a store is determined by its three properties. *)
Lemma ranking_unique q (l1 l2 : list mem_item) :
  Forall (fun item => PrimFloat.is_nan (similarity q item) = false) l1 ->
  Permutation l1 l2 ->
  StronglySorted
    (fun a b => PrimFloat.leb (similarity q b) (similarity q a) = true) l1 ->
  StronglySorted
    (fun a b => PrimFloat.leb (similarity q b) (similarity q a) = true) l2 ->
  (forall s,
     List.filter (fun item => PrimFloat.eqb (similarity q item) s) l1
     = List.filter (fun item => PrimFloat.eqb (similarity q item) s) l2) ->
  l1 = l2.
Proof.
  intros Hnum Hperm Hs1 Hs2 Hst.
  rewrite <- (tag_snd q l1), <- (tag_snd q l2). f_equal.
  apply stable_sorted_unique.
  - unfold numeric_keys, tag. rewrite Forall_map. exact Hnum.
  - unfold tag. by apply Permutation_map.
  - by apply tag_sorted.
  - by apply tag_sorted.
  - intros s. by rewrite !with_key_tag, Hst.
Qed.

(** C1, as the code has it: on a store of records and a query whose
    similarities are all numbers (none is a NaN), retrieval returns the block
    of the [text] fields of the first [k] records of the ranking, where the
    ranking holds the stored records, each once, in non-increasing similarity,
    and the records of one similarity stand in it in the order they were
    appended in; no other arrangement of the records has these properties. *)
Theorem retrieve_ranked (fs : mem_fs) (get_embedding : str -> option vec)
    (user_id query : str) (k : nat) (data : list mem_item) (q : vec) :
  fs !! get_mem_path user_id = Some (MemDoc data) ->
  get_embedding query = Some q -> q <> [] ->
  Forall readable data ->
  Forall (fun item => PrimFloat.is_nan (similarity q item) = false) data ->
  exists ranked : list mem_item,
    find_relevant_npy fs get_embedding user_id query (Z.of_nat k)
    = Ok (context_block (List.map text_of (take k ranked)))
    /\ Permutation ranked data
    /\ StronglySorted
         (fun a b => PrimFloat.leb (similarity q b) (similarity q a) = true) ranked
    /\ (forall s,
          List.filter (fun item => PrimFloat.eqb (similarity q item) s) ranked
          = List.filter (fun item => PrimFloat.eqb (similarity q item) s) data)
    /\ (forall other,
          Permutation other data ->
          StronglySorted
            (fun a b => PrimFloat.leb (similarity q b) (similarity q a) = true) other ->
          (forall s,
             List.filter (fun item => PrimFloat.eqb (similarity q item) s) other
             = List.filter (fun item => PrimFloat.eqb (similarity q item) s) data) ->
          other = ranked).
Proof.
  intros Hfile Hq Hne Hread Hnum.
  set (sorted := sort_desc (tag q data)).
  assert (Hcons : Forall (fun x => fst x = similarity q (snd x)) sorted).
  { unfold sorted. rewrite (sort_desc_perm (tag q data)). apply tag_consistent. }
  assert (Htag : sorted = tag q (List.map snd sorted)) by by apply tagged_sorted.
  assert (Hperm : Permutation (List.map snd sorted) data).
  { unfold sorted. rewrite (sort_desc_perm (tag q data)). by rewrite tag_snd. }
  assert (Hsorted : StronglySorted
            (fun a b => PrimFloat.leb (similarity q b) (similarity q a) = true)
            (List.map snd sorted)).
  { apply tag_sorted. rewrite <- Htag. apply sort_desc_sorted.
    unfold numeric_keys, tag. rewrite Forall_map. exact Hnum. }
  assert (Hstable : forall s,
            List.filter (fun item => PrimFloat.eqb (similarity q item) s) (List.map snd sorted)
            = List.filter (fun item => PrimFloat.eqb (similarity q item) s) data).
  { intros s. rewrite <- !tag_with_key, <- Htag. unfold sorted.
    by rewrite sort_desc_stable. }
  exists (List.map snd sorted).
  split; [|split; [done|split; [done|split; [done|]]]].
  - unfold find_relevant_npy. rewrite Hfile, Hq.
    destruct q as [|q0 q']; [done|].
    destruct data as [|d0 data']; [by destruct k|].
    rewrite (score_items_readable _ _ Hread). cbn [mbind result_bind].
    rewrite sort_desc_map, slice_to_nat. fold sorted.
    do 2 f_equal.
    rewrite <- !fmap_take, <- !list_fmap_compose. reflexivity.
  - intros other Hp Hs Hst. apply ranking_unique with (q := q).
    + by rewrite Hp.
    + by rewrite Hp, Hperm.
    + done.
    + done.
    + intros s. by rewrite Hst, Hstable.
Qed.

(** ** The memory store *)

Lemma get_mem_path_inj a b :
  get_mem_path a = get_mem_path b -> sanitize a = sanitize b.
Proof.
  unfold get_mem_path, path_join. intros H.
  apply app_inv_head in H. apply app_inv_head in H. by apply app_inv_tail in H.
Qed.

Lemma is_safe_not_separator c :
  is_safe c = true -> c <> 47%N /\ c <> 92%N /\ c <> 46%N /\ c <> 0%N.
Proof. intros H. repeat split; intros ->; vm_compute in H; discriminate. Qed.

Lemma sanitize_safe s : Forall (fun c => is_safe c = true) (sanitize s).
Proof.
  unfold sanitize. apply List.Forall_forall. intros c Hc.
  apply List.filter_In in Hc. apply Hc.
Qed.

Lemma save_memory_other fs get_embedding now_ts wr user_id text role path :
  path <> get_mem_path user_id ->
  save_memory_npy fs get_embedding now_ts wr user_id text role !! path = fs !! path.
Proof.
  intros Hne. unfold save_memory_npy.
  destruct (is_empty (strip text)); [done|].
  destruct (get_embedding text) as [[|x v]|]; [done| |done].
  unfold write_memory. destruct wr; [|done|]; by rewrite lookup_insert_ne.
Qed.

Lemma find_relevant_same_file fs fs' get_embedding user_id query top_k :
  fs' !! get_mem_path user_id = fs !! get_mem_path user_id ->
  find_relevant_npy fs' get_embedding user_id query top_k
  = find_relevant_npy fs get_embedding user_id query top_k.
Proof. intros H. unfold find_relevant_npy. by rewrite H. Qed.

(** C5: an append under one identifier leaves what [load] and retrieval
    return under an identifier with another sanitized form as they were, and
    the file of an identifier is named by its sanitized form, which holds no
    path separator, no dot and no NUL, directly in the memory directory (as
    the session directory of the user is in the sessions directory).  Paths
    are compared as they are written, as a case-sensitive file system
    does. *)
Theorem user_isolation (fs : mem_fs) (get_embedding : str -> option vec)
    (now_ts : Z) (wr : write_outcome) (a b text role : str) :
  sanitize a <> sanitize b ->
  load_memory (get_mem_path b)
    (save_memory_npy fs get_embedding now_ts wr a text role)
  = load_memory (get_mem_path b) fs
  /\ (forall emb query top_k,
        find_relevant_npy (save_memory_npy fs get_embedding now_ts wr a text role)
          emb b query top_k
        = find_relevant_npy fs emb b query top_k)
  /\ get_mem_path a = MEM_DIR ++ py "/" ++ sanitize a ++ py ".json"
  /\ (forall sess, a <> [] ->
      fst (get_user_session_dir sess (Some a))
      = Some (SESS_DIR ++ py "/" ++ sanitize a))
  /\ Forall (fun c => c <> 47%N /\ c <> 92%N /\ c <> 46%N /\ c <> 0%N) (sanitize a).
Proof.
  intros Hne.
  assert (Hfile : save_memory_npy fs get_embedding now_ts wr a text role
                    !! get_mem_path b = fs !! get_mem_path b).
  { apply save_memory_other. intros Heq. apply get_mem_path_inj in Heq. congruence. }
  repeat split.
  - unfold load_memory. by rewrite Hfile.
  - intros emb query top_k. by apply find_relevant_same_file.
  - intros sess Ha. by destruct a.
  - eapply Forall_impl; [apply sanitize_safe|]. apply is_safe_not_separator.
Qed.

(** C6: an append whose text is blank, or whose embedding failed or came
    back empty, returns with the memory directory as it was. *)
Theorem append_noop (fs : mem_fs) (get_embedding : str -> option vec)
    (now_ts : Z) (wr : write_outcome) (user_id text role : str) :
  strip text = [] \/ get_embedding text = None \/ get_embedding text = Some [] ->
  save_memory_npy fs get_embedding now_ts wr user_id text role = fs.
Proof.
  unfold save_memory_npy. intros [-> | [-> | ->]]; [reflexivity| |];
    by destruct (is_empty (strip text)).
Qed.

(** C7: retrieval returns the empty result when the user's file is
    missing, holds no record or does not parse, and when the query has no
    embedding; the load step returns the empty list when the file is missing
    or does not parse. *)
Theorem retrieve_empty_result (fs : mem_fs) (get_embedding : str -> option vec)
    (user_id query : str) (top_k : Z) :
  (fs !! get_mem_path user_id = None
   \/ fs !! get_mem_path user_id = Some (MemDoc [])
   \/ fs !! get_mem_path user_id = Some MemCorrupt
   \/ get_embedding query = None ->
   find_relevant_npy fs get_embedding user_id query top_k = Ok [])
  /\ (fs !! get_mem_path user_id = None
      \/ fs !! get_mem_path user_id = Some MemCorrupt ->
      load_memory (get_mem_path user_id) fs = []).
Proof.
  split.
  - unfold find_relevant_npy. intros [-> | [-> | [-> | ->]]]; try reflexivity.
    + by destruct (get_embedding query) as [[|]|].
    + by destruct (get_embedding query) as [[|]|].
    + by destruct (fs !! get_mem_path user_id).
  - unfold load_memory. by intros [-> | ->].
Qed.

Lemma complete_readable item : complete item -> readable item.
Proof.
  intros (_ & _ & (t & Ht & _) & (v & Hv & _)). split; [by exists v|by exists t].
Qed.

Lemma find_relevant_readable fs get_embedding user_id query top_k :
  (forall data, fs !! get_mem_path user_id = Some (MemDoc data) -> Forall readable data) ->
  exists block, find_relevant_npy fs get_embedding user_id query top_k = Ok block.
Proof.
  intros Hwf. unfold find_relevant_npy.
  destruct (fs !! get_mem_path user_id) as [[|data]|] eqn:Hfile; [| |by eauto].
  - destruct (get_embedding query) as [[|]|]; by eauto.
  - destruct (get_embedding query) as [[|q0 q]|]; [by eauto| |by eauto].
    destruct data as [|d data]; [by eauto|].
    rewrite (score_items_readable _ _ (Hwf _ eq_refl)). cbn [mbind result_bind]. by eauto.
Qed.

Lemma save_memory_well_formed fs get_embedding now_ts wr user_id text role :
  well_formed fs ->
  well_formed (save_memory_npy fs get_embedding now_ts wr user_id text role).
Proof.
  intros Hwf. unfold save_memory_npy.
  destruct (is_empty (strip text)) eqn:Htext; [done|].
  destruct (get_embedding text) as [[|x v]|] eqn:Hvec; [done| |done].
  intros path data. unfold write_memory. destruct wr; [|by apply Hwf|].
  - rewrite lookup_insert. case_decide as Hp; [|by apply Hwf].
    intros [= <-]. apply Forall_app. split.
    + unfold load_memory.
      destruct (fs !! get_mem_path user_id) as [[|old]|] eqn:Hold; try constructor.
      by apply (Hwf _ _ Hold).
    + constructor; [|constructor]. unfold complete; cbn.
      split; [by eexists|]. split; [by eexists|]. split.
      * exists text. split; [done|]. by destruct (strip text).
      * by exists (x :: v).
  - rewrite lookup_insert. case_decide as Hp; [done|by apply Hwf].
Qed.

Lemma written_well_formed fs : written fs -> well_formed fs.
Proof.
  induction 1 as [|fs emb now wr uid text role _ IH].
  - intros path data. by rewrite lookup_empty.
  - by apply save_memory_well_formed.
Qed.

(** C10: in a memory directory that only this subsystem has written,
    every stored object is a record with the four keys, a text that is not
    blank and a vector that is not empty; an append whose write completes
    leaves the file as the records it held followed by the one new record;
    and retrieval over such a directory never raises. *)
Theorem append_invariant (fs : mem_fs) :
  written fs ->
  well_formed fs
  /\ (forall get_embedding now_ts user_id text role v,
        strip text <> [] -> get_embedding text = Some v -> v <> [] ->
        let item := {| it_ts := Some now_ts; it_role := Some role;
                       it_text := Some text; it_vector := Some v |} in
        complete item
        /\ load_memory (get_mem_path user_id)
             (save_memory_npy fs get_embedding now_ts Written user_id text role)
           = load_memory (get_mem_path user_id) fs ++ [item])
  /\ (forall get_embedding user_id query top_k,
        exists block,
          find_relevant_npy fs get_embedding user_id query top_k = Ok block).
Proof.
  intros Hw. pose proof (written_well_formed _ Hw) as Hwf.
  split; [exact Hwf|]. split.
  - intros emb now_ts uid text role v Htext Hvec Hv. cbn zeta. split.
    + unfold complete; cbn.
      split; [by eexists|]. split; [by eexists|]. split; by eexists.
    + unfold save_memory_npy. destruct (strip text); [done|]. cbn [is_empty].
      rewrite Hvec. destruct v; [done|]. unfold write_memory, load_memory at 1.
      by rewrite lookup_insert_eq.
  - intros emb uid query top_k. apply find_relevant_readable.
    intros data Hd. eapply Forall_impl; [by apply (Hwf _ _ Hd)|]. apply complete_readable.
Qed.

(** ** Trend analysis *)

Lemma str_eqb_eq a b : str_eqb a b = true <-> a = b.
Proof. unfold str_eqb. by rewrite bool_decide_eq_true. Qed.

Lemma str_eqb_neq a b : str_eqb a b = false <-> a <> b.
Proof. unfold str_eqb. by rewrite bool_decide_eq_false. Qed.

Lemma dict_get_In {V} k (d : list (str * V)) v :
  dict_get k d = Some v -> In (k, v) d.
Proof.
  induction d as [|[k' v'] d IH]; [done|]. cbn [dict_get].
  destruct (str_eqb k' k) eqn:E.
  - apply str_eqb_eq in E. intros [= <-]. subst. by left.
  - intros H. right. by apply IH.
Qed.

Lemma dict_get_key {V} k (d : list (str * V)) :
  In k (List.map fst d) -> is_Some (dict_get k d).
Proof.
  induction d as [|[k' v'] d IH]; [done|]. cbn [dict_get List.map fst].
  destruct (str_eqb k' k) eqn:E; [by eauto|].
  apply str_eqb_neq in E. intros [H|H]; [done|by apply IH].
Qed.


Lemma bump_keys e cnt :
  List.map fst (bump e cnt)
  = if bool_decide (e ∈ List.map fst cnt) then List.map fst cnt
    else List.map fst cnt ++ [e].
Proof.
  induction cnt as [|[k v] cnt IH]; [reflexivity|].
  cbn [bump List.map fst]. destruct (str_eqb k e) eqn:E.
  - apply str_eqb_eq in E. subst. rewrite bool_decide_eq_true_2; [done|by left].
  - apply str_eqb_neq in E. cbn [List.map fst]. rewrite IH.
    destruct (bool_decide (e ∈ List.map fst cnt)) eqn:B.
    + apply bool_decide_eq_true in B. rewrite bool_decide_eq_true_2; [done|by right].
    + apply bool_decide_eq_false in B. rewrite bool_decide_eq_false_2; [done|].
      rewrite elem_of_cons. intros [?|?]; done.
Qed.









Lemma analyze_user_trends_unfold sess now_ts user_id days :
  analyze_user_trends sess now_ts user_id days
  = trend_note days (window_tally sess now_ts user_id days).
Proof.
  unfold analyze_user_trends, window_tally.
  destruct (sess !! user_session_dir user_id) as [dir|]; [|reflexivity].
  change (default [] (Some dir)) with dir. by destruct (recent _ dir).
Qed.

Lemma recent_In cutoff dir o :
  In o (recent cutoff dir)
  <-> In (SessDoc o) dir /\ cutoff < default 0 (s_updated o).
Proof.
  unfold recent. rewrite <- list_elem_of_In, list_elem_of_omap. split.
  - intros ([|o'] & Hin & Ho); [done|]. apply list_elem_of_In in Hin.
    destruct (Z.ltb_spec cutoff (default 0 (s_updated o'))); [|done].
    injection Ho as <-. done.
  - intros [Hin Hlt]. exists (SessDoc o). split; [by apply list_elem_of_In|].
    by destruct (Z.ltb_spec cutoff (default 0 (s_updated o))); [|lia].
Qed.


(** *** The ratio test on small tallies *)








Lemma fold_add_shift l a : fold_left Z.add l a = a + fold_left Z.add l 0.
Proof.
  revert a. induction l as [|x l IH]; intros a; cbn [fold_left]; [lia|].
  rewrite (IH (a + x)), (IH (0 + x)). lia.
Qed.

Lemma total_cons k v cnt : total ((k, v) :: cnt) = v + total cnt.
Proof. unfold total. cbn [List.map snd fold_left]. rewrite fold_add_shift. lia. Qed.





(** C4, as the code has it: the analyzer aggregates exactly the session
    files that load and whose [updated] stamp (0 when the key is missing) is
    strictly after [now - days * 86400]; the stamp has no upper bound. *)
Theorem trend_window (sess : sess_fs) (now_ts : Z) (user_id : str) (days : Z)
    (dir : list sess_file) :
  sess !! user_session_dir user_id = Some dir ->
  analyze_user_trends sess now_ts user_id days
  = trend_note days (tally (recent (now_ts - days * 86400) dir))
  /\ forall o,
       In o (recent (now_ts - days * 86400) dir)
       <-> In (SessDoc o) dir /\ now_ts - days * 86400 < default 0 (s_updated o).
Proof.
  intros Hdir. split; [|intros o; apply recent_In].
  rewrite analyze_user_trends_unfold. unfold window_tally. by rewrite Hdir.
Qed.

(** ** The chat endpoint *)

Lemma safe_json_no_object txt :
  search_braces txt = None
  \/ (exists m, search_braces txt = Some m /\ json_loads_obj m = None) ->
  safe_json txt = [].
Proof.
  unfold safe_json. intros [-> | (m & -> & ->)]; reflexivity.
Qed.

Lemma get_or_absent obj key fallback method :
  field_absent obj key -> get_or obj key fallback method = Ok fallback.
Proof.
  unfold field_absent, get_or. destruct (dict_get key obj) as [v|]; [|done].
  by intros ->.
Qed.

Lemma extract_reply_fallback txt :
  field_absent (safe_json txt) (py "emotion") ->
  field_absent (safe_json txt) (py "reply") ->
  extract_reply txt = Reply (py "neutral") (strip txt).
Proof.
  intros He Hr. unfold extract_reply.
  by rewrite (get_or_absent _ _ _ _ He), (get_or_absent _ _ _ _ Hr).
Qed.

Lemma get_or_raises obj key fallback method :
  get_or obj key fallback method
  = if holds_non_string obj key then Raise (AttributeError method)
    else Ok (field_or obj key fallback).
Proof.
  unfold get_or, holds_non_string, field_or.
  destruct (dict_get key obj) as [v|]; [|done].
  destruct v as [|b|n|f|s|l|kvs]; cbn [truthy].
  - done.
  - by destruct b.
  - by destruct (negb _).
  - by destruct (negb _).
  - by destruct s.
  - by destruct l.
  - by destruct kvs.
Qed.

Lemma field_or_absent obj key fallback :
  field_absent obj key -> field_or obj key fallback = fallback.
Proof.
  unfold field_absent, field_or. destruct (dict_get key obj) as [v|]; [|done].
  destruct v as [| | | |s| |]; try done. by destruct s.
Qed.

Lemma extract_reply_fields txt :
  holds_non_string (safe_json txt) (py "emotion") = false ->
  holds_non_string (safe_json txt) (py "reply") = false ->
  extract_reply txt
  = Reply (strip (lower (field_or (safe_json txt) (py "emotion") (py "neutral"))))
          (strip (field_or (safe_json txt) (py "reply") txt)).
Proof.
  intros He Hr. unfold extract_reply. by rewrite !get_or_raises, He, Hr.
Qed.

(** C8, as the code has it: a turn whose generation call fails in a way
    the endpoint recognises (the call raises inside [ollama_chat], or the
    message has no content or a content that is false in a test) is
    answered with the error [backend-failed], status 500, and leaves the
    memory directory as it was. *)
Theorem generation_failure_visible (mem : mem_fs) (sess : sess_fs)
    (env : turn_env) (req : request) (uid ctx : str) :
  r_user req = Some uid ->
  strip (default [] (r_message req)) <> [] ->
  find_relevant_npy mem (e_embed env 0%nat) uid
    (strip (default [] (r_message req))) 3 = Ok ctx ->
  gen_failed (e_generate env (turn_messages sess env req uid ctx)) ->
  api_chat mem sess env req = (ErrorResponse 500 (py "backend-failed"), mem).
Proof.
  intros Hu Hm Hctx Hgen. unfold api_chat. rewrite Hu.
  destruct (strip (default [] (r_message req))) as [|c msg] eqn:Hmsg; [done|].
  cbn [is_empty]. rewrite Hctx.
  unfold turn_messages, gen_failed in Hgen. rewrite Hmsg in Hgen.
  by rewrite Hgen.
Qed.

(** A content that passes the test of line 271 and is not a string is
    not taken for a failure.  The user's message is appended as in a turn
    that goes through; the append of the content then raises the
    [AttributeError] of [strip], which ends the turn. *)
Theorem generation_content_not_text (mem : mem_fs) (sess : sess_fs)
    (env : turn_env) (req : request) (uid ctx : str) (v : json) :
  r_user req = Some uid ->
  strip (default [] (r_message req)) <> [] ->
  find_relevant_npy mem (e_embed env 0%nat) uid
    (strip (default [] (r_message req))) 3 = Ok ctx ->
  e_generate env (turn_messages sess env req uid ctx) = GenValue v ->
  truthy v = true ->
  (forall s, v <> JStr s) ->
  api_chat mem sess env req
  = (Unhandled (AttributeError (py "strip")),
     save_memory_npy mem (e_embed env 1%nat) (e_clock env 1%nat)
       (e_write env 0%nat) uid (strip (default [] (r_message req))) (py "user")).
Proof.
  intros Hu Hm Hctx Hgen Hv Hns. unfold api_chat. rewrite Hu.
  destruct (strip (default [] (r_message req))) as [|c msg] eqn:Hmsg; [done|].
  cbn [is_empty]. rewrite Hctx.
  unfold turn_messages in Hgen. rewrite Hmsg in Hgen. rewrite Hgen.
  cbn [content_of]. rewrite Hv. cbn [negb].
  destruct v as [|b|n|f|s|l|kvs]; try reflexivity. by destruct (Hns s).
Qed.

(** C9, as the code has it: when the generation call returns a text that
    is not empty, each of the two fields of the answer falls back on its
    own.  The emotion is the [emotion] of the object decoded from the text,
    in lower case and stripped, when that is a string that is not empty, and
    [neutral] when the key is missing or its value false in a test; the
    reply is the [reply] of the object, stripped, when that is a string that
    is not empty, and the whole text, stripped, when the key is missing or
    its value false in a test.  Without a brace-delimited span, or with a
    span [json.loads] rejects, both fall back.  A value that passes the test
    and is not a string is left aside. *)
Theorem reply_extraction_fallback (mem : mem_fs) (sess : sess_fs)
    (env : turn_env) (req : request) (uid ctx txt : str) :
  r_user req = Some uid ->
  strip (default [] (r_message req)) <> [] ->
  find_relevant_npy mem (e_embed env 0%nat) uid
    (strip (default [] (r_message req))) 3 = Ok ctx ->
  e_generate env (turn_messages sess env req uid ctx) = GenText txt ->
  txt <> [] ->
  holds_non_string (safe_json txt) (py "emotion") = false ->
  holds_non_string (safe_json txt) (py "reply") = false ->
  fst (api_chat mem sess env req)
  = Reply (strip (lower (field_or (safe_json txt) (py "emotion") (py "neutral"))))
          (strip (field_or (safe_json txt) (py "reply") txt))
  /\ (forall s, dict_get (py "emotion") (safe_json txt) = Some (JStr s) -> s <> [] ->
      field_or (safe_json txt) (py "emotion") (py "neutral") = s)
  /\ (field_absent (safe_json txt) (py "emotion") ->
      strip (lower (field_or (safe_json txt) (py "emotion") (py "neutral")))
      = py "neutral")
  /\ (forall s, dict_get (py "reply") (safe_json txt) = Some (JStr s) -> s <> [] ->
      field_or (safe_json txt) (py "reply") txt = s)
  /\ (field_absent (safe_json txt) (py "reply") ->
      field_or (safe_json txt) (py "reply") txt = txt)
  /\ (search_braces txt = None
      \/ (exists m, search_braces txt = Some m /\ json_loads_obj m = None) ->
      fst (api_chat mem sess env req) = Reply (py "neutral") (strip txt)).
Proof.
  intros Hu Hm Hctx Hgen Htxt He Hr.
  assert (Hfst : fst (api_chat mem sess env req) = extract_reply txt).
  { unfold api_chat. rewrite Hu.
    destruct (strip (default [] (r_message req))) as [|c msg] eqn:Hmsg; [done|].
    cbn [is_empty]. rewrite Hctx.
    unfold turn_messages in Hgen. rewrite Hmsg in Hgen. rewrite Hgen.
    destruct txt as [|t0 txt']; [done|]. reflexivity. }
  split; [by rewrite Hfst, (extract_reply_fields txt He Hr)|].
  split; [|split; [|split; [|split]]].
  - intros s Hs Hne. unfold field_or. rewrite Hs. by destruct s.
  - intros Ha. by rewrite (field_or_absent _ _ _ Ha).
  - intros s Hs Hne. unfold field_or. rewrite Hs. by destruct s.
  - apply field_or_absent.
  - intros Hno. rewrite Hfst. apply extract_reply_fallback;
      by rewrite (safe_json_no_object txt Hno).
Qed.

(** * Further properties *)

(** ** Cosine similarity is symmetric *)

Lemma SFmul_comm x y : SF64mul x y = SF64mul y x.
Proof.
  unfold SF64mul, SFmul.
  destruct x as [sx|sx| |sx mx ex], y as [sy|sy| |sy my ey];
    rewrite ?(xorb_comm sx sy); try reflexivity.
  by rewrite (Pos.mul_comm mx my), (Z.add_comm ex ey).
Qed.

Lemma float_mul_comm a b : PrimFloat.mul a b = PrimFloat.mul b a.
Proof. apply Prim2SF_inj. rewrite !FloatAxioms.mul_spec. apply SFmul_comm. Qed.

Lemma dot_comm (v1 v2 : vec) :
  List.map (fun ab => PrimFloat.mul (fst ab) (snd ab)) (combine v1 v2)
  = List.map (fun ab => PrimFloat.mul (fst ab) (snd ab)) (combine v2 v1).
Proof.
  revert v2. induction v1 as [|a v1 IH]; intros [|b v2]; try reflexivity.
  cbn [combine List.map fst snd]. by rewrite IH, float_mul_comm.
Qed.

(** X1: the similarity does not depend on the order of its two arguments,
    roundings included. *)
Theorem cosine_sim_sym (v1 v2 : vec) : cosine_sim v1 v2 = cosine_sim v2 v1.
Proof.
  unfold cosine_sim.
  rewrite (orb_comm (is_empty v1) (is_empty v2)), (Nat.eqb_sym (length v1) (length v2)).
  destruct (is_empty v2 || is_empty v1 || negb (length v2 =? length v1)%nat);
    [reflexivity|].
  rewrite (dot_comm v1 v2).
  rewrite (orb_comm (PrimFloat.eqb (PrimFloat.sqrt (py_sum (List.map _ v1))) 0)).
  by rewrite (float_mul_comm (PrimFloat.sqrt (py_sum (List.map _ v1)))).
Qed.

(** ** Retrieval: what comes back, and when it raises *)

Lemma score_items_first_missing q data :
  score_items q data
  = match first_missing_key data with
    | Some k => Raise (KeyError k)
    | None => Ok (List.map (fun x => (fst x, text_of (snd x))) (tag q data))
    end.
Proof.
  unfold score_items. induction data as [|item data IH]; [reflexivity|].
  cbn [map_result first_missing_key]. rewrite IH.
  unfold item_vector, item_text, tag, similarity, vector_of, text_of.
  destruct (it_vector item) as [v|] eqn:Hv; [|reflexivity].
  destruct (it_text item) as [t|] eqn:Ht; [|reflexivity].
  destruct (first_missing_key data); [reflexivity|].
  cbn [List.map fst snd]. by rewrite Hv, Ht.
Qed.

Lemma first_missing_readable data :
  first_missing_key data = None <-> Forall readable data.
Proof.
  induction data as [|item data IH]; [by split; [constructor|]|].
  cbn [first_missing_key]. rewrite Forall_cons. unfold readable at 1.
  destruct (it_vector item), (it_text item); rewrite ?IH; split;
    try discriminate; try (intros [[[? ?] [? ?]] _]; discriminate).
  - intros H. split; [split; by eexists|done].
  - by intros [_ H].
Qed.

Lemma length_slice_to {A} (k : Z) (l : list A) :
  Z.of_nat (length (slice_to k l))
  = if k <? 0 then Z.max 0 (Z.of_nat (length l) + k)
    else Z.min k (Z.of_nat (length l)).
Proof.
  unfold slice_to. destruct (Z.ltb_spec k 0); rewrite length_take; lia.
Qed.

Lemma slice_to_prefix {A} (k : Z) (l : list A) :
  exists rest, l = slice_to k l ++ rest.
Proof.
  unfold slice_to. destruct (k <? 0); eexists; symmetry; apply take_drop.
Qed.

Lemma find_relevant_block fs get_embedding user_id query top_k data q :
  fs !! get_mem_path user_id = Some (MemDoc data) ->
  get_embedding query = Some q -> q <> [] ->
  Forall readable data ->
  find_relevant_npy fs get_embedding user_id query top_k
  = Ok (context_block
          (List.map snd
             (slice_to top_k
                (sort_desc (List.map (fun x => (fst x, text_of (snd x))) (tag q data)))))).
Proof.
  intros Hfile Hq Hne Hread. unfold find_relevant_npy. rewrite Hfile, Hq.
  destruct q as [|q0 q']; [done|]. destruct data as [|d0 data'].
  - unfold slice_to. cbn. by destruct (top_k <? 0); rewrite firstn_nil.
  - rewrite (score_items_readable _ _ Hread). reflexivity.
Qed.

Lemma ranking_texts q data :
  Permutation
    (List.map snd (sort_desc (List.map (fun x => (fst x, text_of (snd x))) (tag q data))))
    (List.map text_of data).
Proof.
  rewrite (sort_desc_perm _), List.map_map. cbn [snd].
  unfold tag. rewrite List.map_map. reflexivity.
Qed.

(** X2: on a store whose objects have the two keys, with the query
    embedded, retrieval answers with the block of some of the stored texts,
    none invented and none twice over: [top_k] of them when there are that
    many, all of them when there are fewer, and for a negative [top_k] all
    but the last [-top_k] of the ranking.  This holds whatever the
    similarities are. *)
Theorem retrieve_returns_stored_texts (fs : mem_fs)
    (get_embedding : str -> option vec) (user_id query : str) (top_k : Z)
    (data : list mem_item) (q : vec) :
  fs !! get_mem_path user_id = Some (MemDoc data) ->
  get_embedding query = Some q -> q <> [] ->
  Forall readable data ->
  exists res rest,
    find_relevant_npy fs get_embedding user_id query top_k = Ok (context_block res)
    /\ Permutation (res ++ rest) (List.map text_of data)
    /\ Z.of_nat (length res)
       = if top_k <? 0 then Z.max 0 (Z.of_nat (length data) + top_k)
         else Z.min top_k (Z.of_nat (length data)).
Proof.
  intros Hfile Hq Hne Hread.
  set (sorted := sort_desc (List.map (fun x => (fst x, text_of (snd x))) (tag q data))).
  destruct (slice_to_prefix top_k sorted) as [rest Hrest].
  exists (List.map snd (slice_to top_k sorted)), (List.map snd rest).
  split; [|split].
  - by apply find_relevant_block.
  - rewrite <- List.map_app, <- Hrest. apply ranking_texts.
  - rewrite List.length_map, length_slice_to. unfold sorted.
    rewrite (Permutation_length (sort_desc_perm _)), !List.length_map.
    unfold tag. by rewrite List.length_map.
Qed.

Lemma find_relevant_missing_key fs get_embedding user_id query top_k data q k :
  fs !! get_mem_path user_id = Some (MemDoc data) ->
  get_embedding query = Some q -> q <> [] ->
  first_missing_key data = Some k ->
  find_relevant_npy fs get_embedding user_id query top_k = Raise (KeyError k).
Proof.
  intros Hfile Hq Hne Hk. unfold find_relevant_npy. rewrite Hfile, Hq.
  destruct q as [|q0 q]; [done|]. destruct data as [|d data]; [discriminate|].
  rewrite score_items_first_missing, Hk. reflexivity.
Qed.

(** X3: retrieval raises exactly when the user's file parses, the query
    is embedded and some stored object lacks [vector] or [text]; the
    exception is the [KeyError] of the first key missing in the order the
    loop reads them. *)
Theorem retrieve_raises_on_missing_key (fs : mem_fs)
    (get_embedding : str -> option vec) (user_id query : str) (top_k : Z)
    (e : exn) :
  find_relevant_npy fs get_embedding user_id query top_k = Raise e
  <-> exists data q k,
        fs !! get_mem_path user_id = Some (MemDoc data)
        /\ get_embedding query = Some q /\ q <> []
        /\ first_missing_key data = Some k /\ e = KeyError k.
Proof.
  unfold find_relevant_npy. split.
  - destruct (fs !! get_mem_path user_id) as [[|data]|] eqn:Hfile; try discriminate.
    + by destruct (get_embedding query) as [[|]|].
    + destruct (get_embedding query) as [[|q0 q]|] eqn:Hq; try discriminate.
      destruct data as [|d data]; [discriminate|].
      rewrite score_items_first_missing.
      destruct (first_missing_key (d :: data)) as [k|] eqn:Hk; [|discriminate].
      intros [= <-]. exists (d :: data), (q0 :: q), k. by repeat split.
  - intros (data & q & k & Hfile & Hq & Hne & Hk & ->).
    fold (find_relevant_npy fs get_embedding user_id query top_k).
    by apply (find_relevant_missing_key _ _ _ _ _ data q).
Qed.

(** ** The memory store: round trip, failed writes, shared stores *)

Lemma save_memory_written fs get_embedding now_ts user_id text role v :
  strip text <> [] -> get_embedding text = Some v -> v <> [] ->
  save_memory_npy fs get_embedding now_ts Written user_id text role
    !! get_mem_path user_id
  = Some (MemDoc (load_memory (get_mem_path user_id) fs
                  ++ [ {| it_ts := Some now_ts; it_role := Some role;
                          it_text := Some text; it_vector := Some v |} ])).
Proof.
  intros Ht Hv Hne. unfold save_memory_npy.
  destruct (strip text) as [|c s]; [done|]. cbn [is_empty]. rewrite Hv.
  destruct v as [|x v]; [done|]. cbn [write_memory]. by rewrite lookup_insert_eq.
Qed.

(** X4: after an append that took place, a retrieval wide enough for the
    whole store ([top_k] above the number of objects that were there)
    answers with the block of the stored texts and the new text, each once,
    in some order; on a store that was empty or missing it is the block of
    the new text alone, whatever the query and the similarities. *)
Theorem append_then_retrieve (fs : mem_fs) (save_emb : str -> option vec)
    (now_ts : Z) (user_id text role : str) (v : vec)
    (get_embedding : str -> option vec) (query : str) (q : vec) (top_k : Z) :
  strip text <> [] -> save_emb text = Some v -> v <> [] ->
  get_embedding query = Some q -> q <> [] ->
  Forall readable (load_memory (get_mem_path user_id) fs) ->
  Z.of_nat (length (load_memory (get_mem_path user_id) fs)) < top_k ->
  exists res,
    find_relevant_npy
      (save_memory_npy fs save_emb now_ts Written user_id text role)
      get_embedding user_id query top_k
    = Ok (context_block res)
    /\ Permutation res
         (List.map text_of (load_memory (get_mem_path user_id) fs) ++ [text])
    /\ (load_memory (get_mem_path user_id) fs = [] -> res = [text]).
Proof.
  intros Ht Hv Hne Hq Hqne Hread Hk.
  set (old := load_memory (get_mem_path user_id) fs) in *.
  set (new := {| it_ts := Some now_ts; it_role := Some role;
                 it_text := Some text; it_vector := Some v |}).
  assert (Hread' : Forall readable (old ++ [new])).
  { apply Forall_app. split; [done|]. constructor; [|constructor].
    split; by eexists. }
  set (sorted := sort_desc (List.map (fun x => (fst x, text_of (snd x)))
                              (tag q (old ++ [new])))).
  assert (Hall : slice_to top_k sorted = sorted).
  { unfold slice_to. destruct (Z.ltb_spec top_k 0) as [Hneg|_]; [lia|].
    apply firstn_all2. unfold sorted.
    rewrite (Permutation_length (sort_desc_perm _)), !List.length_map.
    unfold tag. rewrite List.length_map, List.length_app. cbn [length]. lia. }
  assert (Hperm : Permutation (List.map snd sorted) (List.map text_of old ++ [text])).
  { unfold sorted. rewrite ranking_texts, List.map_app. reflexivity. }
  exists (List.map snd sorted). split; [|split].
  - rewrite (find_relevant_block _ get_embedding user_id query top_k (old ++ [new]) q
               (save_memory_written fs save_emb now_ts user_id text role v Ht Hv Hne)
               Hq Hqne Hread').
    fold sorted. by rewrite Hall.
  - exact Hperm.
  - intros Hold. rewrite Hold in Hperm. cbn in Hperm.
    by apply Permutation_length_1_inv, Permutation_sym.
Qed.

(** X5: when the file cannot be opened for writing the append leaves the
    directory as it was; when the write stops after the file was opened,
    the file no longer parses: the user's records read as none, retrieval
    answers with the empty string, and the next append that takes place
    starts the file over with its one record. *)
Theorem append_write_failure (fs : mem_fs) (get_embedding : str -> option vec)
    (now_ts : Z) (user_id text role : str) (v : vec) :
  strip text <> [] -> get_embedding text = Some v -> v <> [] ->
  save_memory_npy fs get_embedding now_ts OpenFailed user_id text role = fs
  /\ load_memory (get_mem_path user_id)
       (save_memory_npy fs get_embedding now_ts DumpFailed user_id text role) = []
  /\ (forall emb query top_k,
        find_relevant_npy
          (save_memory_npy fs get_embedding now_ts DumpFailed user_id text role)
          emb user_id query top_k = Ok [])
  /\ (forall emb' now' text' role' v',
        strip text' <> [] -> emb' text' = Some v' -> v' <> [] ->
        load_memory (get_mem_path user_id)
          (save_memory_npy
             (save_memory_npy fs get_embedding now_ts DumpFailed user_id text role)
             emb' now' Written user_id text' role')
        = [ {| it_ts := Some now'; it_role := Some role';
               it_text := Some text'; it_vector := Some v' |} ]).
Proof.
  intros Ht Hv Hne.
  assert (Hfail : save_memory_npy fs get_embedding now_ts DumpFailed user_id text role
                    !! get_mem_path user_id = Some MemCorrupt).
  { unfold save_memory_npy. destruct (strip text) as [|c s]; [done|].
    cbn [is_empty]. rewrite Hv. destruct v as [|x v]; [done|].
    cbn [write_memory]. by rewrite lookup_insert_eq. }
  split; [|split; [|split]].
  - unfold save_memory_npy. destruct (strip text) as [|c s]; [done|].
    cbn [is_empty]. rewrite Hv. by destruct v.
  - unfold load_memory. by rewrite Hfail.
  - intros emb query top_k. unfold find_relevant_npy. rewrite Hfail.
    by destruct (emb query) as [[|]|].
  - intros emb' now' text' role' v' Ht' Hv' Hne'.
    unfold load_memory at 1.
    rewrite (save_memory_written _ emb' now' user_id text' role' v' Ht' Hv' Hne').
    unfold load_memory. by rewrite Hfail.
Qed.

Lemma sanitize_idem s : sanitize (sanitize s) = sanitize s.
Proof.
  unfold sanitize. induction s as [|c s IH]; [reflexivity|].
  cbn [List.filter]. destruct (is_safe c) eqn:Hc; [|done].
  cbn [List.filter]. by rewrite Hc, IH.
Qed.

(** X6: two identifiers name the same memory file exactly when their
    sanitized forms are equal, and then every operation keyed by the
    identifier (append, retrieval, trend analysis) gives under one what it
    gives under the other; the sanitized form of an identifier is one of
    these. *)
Theorem shared_store (a b : str) :
  (get_mem_path a = get_mem_path b <-> sanitize a = sanitize b)
  /\ (sanitize a = sanitize b ->
      (forall fs emb now_ts wr text role,
         save_memory_npy fs emb now_ts wr a text role
         = save_memory_npy fs emb now_ts wr b text role)
      /\ (forall fs emb query top_k,
            find_relevant_npy fs emb a query top_k
            = find_relevant_npy fs emb b query top_k)
      /\ (forall sess now_ts days,
            analyze_user_trends sess now_ts a days
            = analyze_user_trends sess now_ts b days))
  /\ sanitize (sanitize a) = sanitize a.
Proof.
  split; [|split].
  - split; [apply get_mem_path_inj|]. unfold get_mem_path. by intros ->.
  - intros Hab. split; [|split].
    + intros. unfold save_memory_npy, get_mem_path. by rewrite Hab.
    + intros. unfold find_relevant_npy, get_mem_path. by rewrite Hab.
    + intros. unfold analyze_user_trends, user_session_dir. by rewrite Hab.
  - apply sanitize_idem.
Qed.

(** ** The brace search of [safe_json] *)

Lemma find_index_Some {A} (p : A -> bool) (l : list A) (i : nat) :
  find_index p l = Some i
  <-> exists pre x post,
        l = pre ++ x :: post /\ length pre = i /\ p x = true
        /\ Forall (fun y => p y = false) pre.
Proof.
  revert i. induction l as [|y l IH]; intros i; cbn [find_index].
  - split; [discriminate|]. intros (pre & x & post & H & _). by destruct pre.
  - destruct (p y) eqn:Hy.
    + split.
      * intros [= <-]. exists [], y, l. by repeat split.
      * intros (pre & x & post & Hl & Hlen & Hx & Hpre).
        destruct pre as [|z pre]; [by subst|].
        injection Hl as -> _. apply Forall_cons in Hpre as [Hz _]. congruence.
    + destruct (find_index p l) as [j|] eqn:Hj; cbn [option_map].
      * split.
        -- intros [= <-]. destruct (proj1 (IH j) eq_refl) as (pre & x & post & -> & <- & Hx & Hpre).
           exists (y :: pre), x, post. repeat split; [done|]. by constructor.
        -- intros (pre & x & post & Hl & Hlen & Hx & Hpre).
           destruct pre as [|z pre]; [injection Hl as -> _; congruence|].
           injection Hl as -> Hl. apply Forall_cons in Hpre as [_ Hpre].
           cbn [length] in Hlen. subst i. f_equal. f_equal.
           assert (Some j = Some (length pre)) as [= ->]; [|done].
           apply IH. by exists pre, x, post.
      * split; [discriminate|].
        intros (pre & x & post & Hl & Hlen & Hx & Hpre).
        destruct pre as [|z pre]; [injection Hl as -> _; congruence|].
        injection Hl as -> Hl. apply Forall_cons in Hpre as [_ Hpre].
        assert (None = Some (length pre)); [|done].
        apply IH. by exists pre, x, post.
Qed.

Lemma drop_S_middle {A} (pre : list A) x post :
  drop (S (length pre)) (pre ++ x :: post) = post.
Proof. induction pre as [|y pre IH]; [reflexivity|]. apply IH. Qed.

Lemma drop_middle {A} (pre : list A) x post :
  drop (length pre) (pre ++ x :: post) = x :: post.
Proof. induction pre as [|y pre IH]; [reflexivity|]. apply IH. Qed.

Lemma Forall_neqb (n : N) (l : list N) :
  Forall (fun y => (n =? y)%N = false) l <-> Forall (fun c => c <> n) l.
Proof.
  apply Forall_proper; [|done]. intros c.
  rewrite N.eqb_neq. split; intros H ?; by apply H.
Qed.

(** X7: the search of [safe_json] finds [m] in [s] exactly when [s] is
    some text without opening brace, then [m], then some text without
    closing brace, and [m] opens with a brace and closes with one: the span
    from the first opening brace to the last closing brace, line feeds
    included. *)
Theorem search_braces_spec (s m : str) :
  search_braces s = Some m
  <-> exists pre body post,
        s = pre ++ m ++ post
        /\ m = [123%N] ++ body ++ [125%N]
        /\ Forall (fun c => c <> 123%N) pre
        /\ Forall (fun c => c <> 125%N) post.
Proof.
  unfold search_braces. split.
  - destruct (find_index (N.eqb 123) s) as [i|] eqn:Hi; [|discriminate].
    apply find_index_Some in Hi as (pre & x & after & -> & <- & Hx & Hpre).
    apply N.eqb_eq in Hx. subst x.
    rewrite drop_S_middle, drop_middle.
    destruct (find_index (N.eqb 125) (rev after)) as [j|] eqn:Hj; [|discriminate].
    apply find_index_Some in Hj as (tl & y & bd & Hrev & <- & Hy & Htl).
    apply N.eqb_eq in Hy. subst y.
    apply (f_equal (@rev N)) in Hrev. rewrite rev_involutive in Hrev.
    rewrite rev_app_distr in Hrev. cbn [rev] in Hrev. rewrite <- app_assoc in Hrev.
    cbn [app] in Hrev. subst after.
    intros [= <-]. exists pre, (rev bd), (rev tl).
    assert (Hlen : (length (pre ++ 123%N :: rev bd ++ 125%N :: rev tl)
                    - length pre - length tl)%nat
                   = length (123%N :: rev bd ++ [125%N])).
    { cbn [length]. rewrite !length_app. cbn [length]. rewrite !length_app.
      cbn [length]. rewrite (length_rev tl). lia. }
    rewrite Hlen.
    replace (123%N :: rev bd ++ 125%N :: rev tl)
      with ((123%N :: rev bd ++ [125%N]) ++ rev tl)
      by (cbn [app]; by rewrite <- app_assoc).
    rewrite take_app_length. repeat split.
    + by apply Forall_neqb.
    + apply Forall_neqb. by apply Forall_rev.
  - intros (pre & body & post & -> & -> & Hpre & Hpost).
    assert (Hi : find_index (N.eqb 123) (pre ++ ([123%N] ++ body ++ [125%N]) ++ post)
                 = Some (length pre)).
    { apply find_index_Some. exists pre, 123%N, ((body ++ [125%N]) ++ post).
      repeat split. by apply Forall_neqb. }
    rewrite Hi.
    change (pre ++ ([123%N] ++ body ++ [125%N]) ++ post)
      with (pre ++ 123%N :: (body ++ [125%N]) ++ post).
    rewrite drop_S_middle, drop_middle.
    assert (Hj : find_index (N.eqb 125) (rev ((body ++ [125%N]) ++ post))
                 = Some (length post)).
    { apply find_index_Some. exists (rev post), 125%N, (rev body).
      rewrite !rev_app_distr. cbn [rev app].
      repeat split; [apply length_rev|]. apply Forall_neqb. by apply Forall_rev. }
    rewrite Hj. f_equal.
    assert (Hlen : (length (pre ++ 123%N :: (body ++ [125%N]) ++ post)
                    - length pre - length post)%nat
                   = length (123%N :: body ++ [125%N])).
    { cbn [length]. rewrite !length_app. cbn [length]. rewrite !length_app.
      cbn [length]. lia. }
    rewrite Hlen.
    change (123%N :: (body ++ [125%N]) ++ post)
      with ((123%N :: body ++ [125%N]) ++ post).
    by rewrite take_app_length.
Qed.

(** ** The tally counts the assistant's labelled turns *)

Lemma count_msg_label cnt m :
  count_msg cnt m
  = match counted_label m with Some e => bump e cnt | None => cnt end.
Proof.
  unfold count_msg, counted_label. destruct (m_role m); [|done].
  destruct (str_eqb _ _); [|done]. cbn zeta. by destruct (str_eqb _ _).
Qed.

Lemma fold_count_msg msgs cnt :
  fold_left count_msg msgs cnt
  = fold_left (fun cnt e => bump e cnt) (omap counted_label msgs) cnt.
Proof.
  revert cnt. induction msgs as [|m msgs IH]; intros cnt; [reflexivity|].
  cbn [fold_left omap list_omap]. rewrite count_msg_label, IH.
  change (omap counted_label (m :: msgs))
    with (match counted_label m with
          | Some e => e :: omap counted_label msgs
          | None => omap counted_label msgs
          end).
  by destruct (counted_label m).
Qed.

Lemma tally_counted files :
  tally files = fold_left (fun cnt e => bump e cnt) (counted files) [].
Proof.
  unfold tally, counted. generalize (@nil (str * Z)).
  induction files as [|f files IH]; intros cnt; [reflexivity|].
  cbn [fold_left flat_map]. by rewrite fold_left_app, IH, fold_count_msg.
Qed.

Lemma dict_get_bump k e cnt :
  dict_get k (bump e cnt)
  = if str_eqb k e then Some (count_of cnt e + 1) else dict_get k cnt.
Proof.
  unfold count_of, str_eqb. induction cnt as [|[k' v] cnt IH].
  - cbn [bump dict_get default]. unfold str_eqb.
    repeat case_bool_decide; subst; done.
  - cbn [bump dict_get]. unfold str_eqb in *.
    destruct (bool_decide (k' = e)) eqn:He.
    + apply bool_decide_eq_true in He. subst k'. cbn [dict_get default]. unfold str_eqb.
      repeat case_bool_decide; subst; done.
    + apply bool_decide_eq_false in He. cbn [dict_get]. unfold str_eqb.
      rewrite IH. repeat case_bool_decide; subst; done.
Qed.

Lemma count_of_bump k e cnt :
  count_of (bump e cnt) k = count_of cnt k + (if str_eqb k e then 1 else 0).
Proof.
  unfold count_of at 1. rewrite dict_get_bump.
  destruct (str_eqb k e) eqn:E.
  - apply str_eqb_eq in E. by subst.
  - unfold count_of. cbn [default]. lia.
Qed.

Lemma total_bump e cnt : total (bump e cnt) = total cnt + 1.
Proof.
  induction cnt as [|[k v] cnt IH]; [reflexivity|]. cbn [bump].
  destruct (str_eqb k e); rewrite !total_cons; [lia|]. rewrite IH. lia.
Qed.

Lemma occurrences_cons e x l :
  occurrences e (x :: l) = (if str_eqb e x then 1 else 0) + occurrences e l.
Proof.
  unfold occurrences. cbn [List.filter]. destruct (str_eqb e x); cbn [length]; lia.
Qed.

Lemma fold_bump_count l cnt k :
  count_of (fold_left (fun cnt e => bump e cnt) l cnt) k
  = count_of cnt k + occurrences k l.
Proof.
  revert cnt. induction l as [|e l IH]; intros cnt; cbn [fold_left].
  - unfold occurrences. cbn. lia.
  - rewrite IH, count_of_bump, occurrences_cons. lia.
Qed.

Lemma fold_bump_total l cnt :
  total (fold_left (fun cnt e => bump e cnt) l cnt)
  = total cnt + Z.of_nat (length l).
Proof.
  revert cnt. induction l as [|e l IH]; intros cnt; cbn [fold_left length].
  - lia.
  - rewrite IH, total_bump. lia.
Qed.

Lemma fold_bump_keys l cnt :
  List.map fst (fold_left (fun cnt e => bump e cnt) l cnt)
  = fold_left (fun seen e => if bool_decide (e ∈ seen) then seen else seen ++ [e])
      l (List.map fst cnt).
Proof.
  revert cnt. induction l as [|e l IH]; intros cnt; cbn [fold_left]; [done|].
  by rewrite IH, bump_keys.
Qed.

(** X8: the tally holds, for each label, the number of assistant turns of
    the retained sessions that carry it, the label [neutral] (also taken
    for a turn without [emotion]) and the turns of other roles left out; its
    total is the number of those turns, and its labels come in the order in
    which the scan first meets them. *)
Theorem tally_counts (files : list transcript) (e : str) :
  count_of (tally files) e = occurrences e (counted files)
  /\ total (tally files) = Z.of_nat (length (counted files))
  /\ List.map fst (tally files) = first_seen (counted files)
  /\ ~ In (py "neutral") (counted files).
Proof.
  rewrite tally_counted. split; [|split; [|split]].
  - rewrite fold_bump_count. reflexivity.
  - rewrite fold_bump_total. reflexivity.
  - by rewrite fold_bump_keys.
  - unfold counted. rewrite in_flat_map. intros (f & _ & Hin).
    apply list_elem_of_In, list_elem_of_omap in Hin as (m & _ & Hm).
    unfold counted_label in Hm. destruct (m_role m); [|done].
    destruct (str_eqb _ _); [|done]. cbn zeta in Hm.
    destruct (str_eqb _ (py "neutral")) eqn:E; [done|].
    injection Hm as Hm. rewrite Hm in E. by apply str_eqb_neq in E.
Qed.

(** ** Ties in the dominant label *)

Lemma scan_first_max (count : str -> Z) ks k0 :
  let r := fold_left (fun best k => if count best <? count k then k else best) ks k0 in
  exists pre post,
    k0 :: ks = pre ++ r :: post
    /\ Forall (fun k => count k < count r) pre
    /\ Forall (fun k => count k <= count r) post.
Proof.
  revert k0. induction ks as [|k ks IH]; intros k0; cbn [fold_left].
  - exists [], []. by repeat split.
  - cbn zeta in IH. destruct (Z.ltb_spec (count k0) (count k)) as [Hlt|Hle].
    + destruct (IH k) as (pre & post & Heq & Hpre & Hpost).
      exists (k0 :: pre), post. split; [cbn [app]; by rewrite <- Heq|].
      split; [|done]. constructor; [|done].
      destruct pre as [|x pre]; injection Heq as Hx Hks.
      * rewrite <- Hx. done.
      * subst x. apply Forall_cons in Hpre as [Hk _]. lia.
    + destruct (IH k0) as (pre & post & Heq & Hpre & Hpost).
      destruct pre as [|x pre]; injection Heq as Hx Hks.
      * exists [], (k :: ks). rewrite <- Hx. split; [done|]. split; [done|].
        constructor; [done|]. by rewrite Hks, Hx.
      * subst x. apply Forall_cons in Hpre as [Hk0 Hpre].
        exists (k0 :: k :: pre), post. split; [cbn [app]; do 2 f_equal; exact Hks|].
        split; [|done]. constructor; [done|]. constructor; [lia|done].
Qed.

(** X9: the dominant label of a tally is the first of its labels, in the
    order of the dict, that has the largest count: the labels before it
    have strictly smaller counts, the labels after it none larger.  Among
    labels with equal counts the one met first in the scan wins. *)
Theorem dominant_first_max (cnt : list (str * Z)) :
  cnt <> [] ->
  exists pre post,
    List.map fst cnt = pre ++ dominant cnt :: post
    /\ Forall (fun k => count_of cnt k < count_of cnt (dominant cnt)) pre
    /\ Forall (fun k => count_of cnt k <= count_of cnt (dominant cnt)) post.
Proof.
  intros Hne. destruct cnt as [|[k0 v0] rest]; [done|].
  apply (scan_first_max (count_of ((k0, v0) :: rest)) (List.map fst rest) k0).
Qed.

(** ** A longer window counts no less *)

Lemma recent_sublist c1 c2 dir :
  c2 <= c1 -> sublist (recent c1 dir) (recent c2 dir).
Proof.
  intros Hc. unfold recent. induction dir as [|p dir IH]; [constructor|].
  cbn [omap list_omap]. destruct p as [|o]; [done|].
  destruct (Z.ltb_spec c1 (default 0 (s_updated o))) as [H1|H1].
  - destruct (Z.ltb_spec c2 (default 0 (s_updated o))) as [H2|H2]; [|lia].
    by constructor.
  - destruct (c2 <? default 0 (s_updated o)); [by constructor|done].
Qed.

Lemma counted_sublist l1 l2 :
  sublist l1 l2 -> sublist (counted l1) (counted l2).
Proof.
  unfold counted. induction 1 as [|f l1 l2 _ IH|f l1 l2 _ IH]; cbn [flat_map].
  - constructor.
  - by apply sublist_app.
  - by apply sublist_inserts_l.
Qed.

Lemma occurrences_sublist e l1 l2 :
  sublist l1 l2 -> occurrences e l1 <= occurrences e l2.
Proof.
  induction 1 as [|x l1 l2 _ IH|x l1 l2 _ IH]; rewrite ?occurrences_cons;
    [lia|lia|]. destruct (str_eqb e x); lia.
Qed.

(** X10: with the same sessions and the same clock, asking for more days
    retains every session the shorter window retains, in the same order,
    and no count and no total of the tally goes down. *)
Theorem window_monotone (sess : sess_fs) (now_ts : Z) (user_id : str)
    (days days' : Z) (dir : list sess_file) (e : str) :
  days <= days' ->
  sublist (recent (now_ts - days * 86400) dir)
          (recent (now_ts - days' * 86400) dir)
  /\ count_of (window_tally sess now_ts user_id days) e
     <= count_of (window_tally sess now_ts user_id days') e
  /\ total (window_tally sess now_ts user_id days)
     <= total (window_tally sess now_ts user_id days').
Proof.
  intros Hd.
  assert (Hsub : forall dir, sublist (recent (now_ts - days * 86400) dir)
                                     (recent (now_ts - days' * 86400) dir)).
  { intros dir0. apply recent_sublist. lia. }
  split; [apply Hsub|]. unfold window_tally.
  set (d := default [] (sess !! user_session_dir user_id)).
  rewrite !tally_counted, !fold_bump_count, !fold_bump_total.
  pose proof (counted_sublist _ _ (Hsub d)) as Hc. split.
  - apply (occurrences_sublist e) in Hc. lia.
  - apply sublist_length in Hc. lia.
Qed.

(** ** The chat endpoint: what a turn writes and how it fails *)

(** X11: a turn without a signed-in user leaves the memory directory as
    it was, and a turn of a user leaves every file but the memory file of
    this user as it was. *)
Theorem turn_touches_own_file (mem : mem_fs) (sess : sess_fs) (env : turn_env)
    (req : request) :
  (r_user req = None -> snd (api_chat mem sess env req) = mem)
  /\ (forall uid path,
        r_user req = Some uid -> path <> get_mem_path uid ->
        snd (api_chat mem sess env req) !! path = mem !! path).
Proof.
  unfold api_chat. split.
  - by intros ->.
  - intros uid path -> Hp.
    destruct (is_empty (strip (default [] (r_message req)))); [done|].
    destruct (find_relevant_npy _ _ _ _ _); [|done].
    destruct (negb _); [done|].
    destruct (content_of _); cbn [snd]; by rewrite !save_memory_other.
Qed.

(** X12: the answer built from a generated text raises exactly when the
    decoded object holds, under [emotion] or under [reply], a value that
    passes the test of [or] and is not a string; the exception is the
    [AttributeError] of the method called on it, [lower] for [emotion],
    which is read first, [strip] for [reply]. *)
Theorem extract_reply_raises (txt : str) (e : exn) :
  extract_reply txt = Unhandled e
  <-> (holds_non_string (safe_json txt) (py "emotion") = true
       /\ e = AttributeError (py "lower"))
      \/ (holds_non_string (safe_json txt) (py "emotion") = false
          /\ holds_non_string (safe_json txt) (py "reply") = true
          /\ e = AttributeError (py "strip")).
Proof.
  unfold extract_reply. rewrite !get_or_raises.
  destruct (holds_non_string (safe_json txt) (py "emotion")).
  - split.
    + intros [= <-]. by left.
    + intros [[_ ->]|[? _]]; done.
  - destruct (holds_non_string (safe_json txt) (py "reply")); split.
    + intros [= <-]. by right.
    + intros [[? _]|(_ & _ & ->)]; done.
    + discriminate.
    + intros [[? _]|(_ & ? & _)]; done.
Qed.

Lemma api_chat_written mem sess env req :
  written mem -> written (snd (api_chat mem sess env req)).
Proof.
  intros Hw. unfold api_chat. destruct (r_user req) as [uid|]; [|done].
  destruct (is_empty (strip (default [] (r_message req)))); [done|].
  destruct (find_relevant_npy _ _ _ _ _); [|done].
  destruct (negb _); [done|].
  destruct (content_of _); cbn [snd]; by repeat apply written_save.
Qed.

(** X13: on a memory directory that only this subsystem has written, a
    turn leaves such a directory, whatever its answer: every stored object
    is still a record with its four keys, and the retrieval of a later turn,
    for any user and any query, returns. *)
Theorem turn_keeps_invariant (mem : mem_fs) (sess : sess_fs) (env : turn_env)
    (req : request) :
  written mem ->
  written (snd (api_chat mem sess env req))
  /\ well_formed (snd (api_chat mem sess env req))
  /\ (forall get_embedding user_id query top_k,
        exists block,
          find_relevant_npy (snd (api_chat mem sess env req))
            get_embedding user_id query top_k = Ok block).
Proof.
  intros Hw. pose proof (api_chat_written mem sess env req Hw) as Hw'.
  pose proof (written_well_formed _ Hw') as Hwf.
  split; [done|]. split; [done|].
  intros emb uid query top_k. apply find_relevant_readable.
  intros data Hd. eapply Forall_impl; [by apply (Hwf _ _ Hd)|].
  apply complete_readable.
Qed.

Lemma lstrip_head s c r : lstrip s = c :: r -> is_space c = false.
Proof.
  induction s as [|x s IH]; [done|]. cbn [lstrip].
  destruct (is_space x) eqn:Hx; [done|]. by intros [= <- _].
Qed.

Lemma lstrip_fix s :
  match s with [] => True | c :: _ => is_space c = false end -> lstrip s = s.
Proof. destruct s as [|c s]; [done|]. cbn [lstrip]. by intros ->. Qed.

Lemma lstrip_idem s : lstrip (lstrip s) = lstrip s.
Proof.
  apply lstrip_fix. destruct (lstrip s) as [|c r] eqn:E; [done|].
  by apply (lstrip_head s c r).
Qed.

Lemma lstrip_suffix s : exists pre, s = pre ++ lstrip s.
Proof.
  induction s as [|c s [pre IH]]; [by exists []|]. cbn [lstrip].
  destruct (is_space c); [|by exists []].
  exists (c :: pre). cbn [app]. by rewrite <- IH.
Qed.

Lemma strip_idem s : strip (strip s) = strip s.
Proof.
  unfold strip. set (t := lstrip s).
  assert (Ht : match t with [] => True | c :: _ => is_space c = false end).
  { unfold t. destruct (lstrip s) as [|c r] eqn:E; [done|].
    by apply (lstrip_head s c r). }
  assert (Hl : lstrip (rstrip t) = rstrip t).
  { apply lstrip_fix. destruct (lstrip_suffix (rev t)) as [pre Hpre].
    apply (f_equal (@rev N)) in Hpre.
    rewrite rev_involutive, rev_app_distr in Hpre.
    fold (rstrip t) in Hpre. destruct (rstrip t) as [|c u]; [done|].
    rewrite Hpre in Ht. exact Ht. }
  rewrite Hl. unfold rstrip. by rewrite rev_involutive, lstrip_idem.
Qed.

(** X14: a turn that goes through, with both texts embedded and both
    writes completed, leaves the user's file as the records it held,
    followed by the record of the stripped message under the role [user]
    and the record of the generated text, as the backend gave it, under the
    role [assistant]. *)
Theorem turn_records (mem : mem_fs) (sess : sess_fs) (env : turn_env)
    (req : request) (uid ctx txt : str) (v1 v2 : vec) :
  r_user req = Some uid ->
  strip (default [] (r_message req)) <> [] ->
  find_relevant_npy mem (e_embed env 0%nat) uid
    (strip (default [] (r_message req))) 3 = Ok ctx ->
  e_generate env (turn_messages sess env req uid ctx) = GenText txt ->
  strip txt <> [] ->
  e_embed env 1%nat (strip (default [] (r_message req))) = Some v1 -> v1 <> [] ->
  e_embed env 2%nat txt = Some v2 -> v2 <> [] ->
  e_write env 0%nat = Written -> e_write env 1%nat = Written ->
  load_memory (get_mem_path uid) (snd (api_chat mem sess env req))
  = load_memory (get_mem_path uid) mem
    ++ [ record (e_clock env 1%nat) (py "user")
           (strip (default [] (r_message req))) v1;
         record (e_clock env 2%nat) (py "assistant") txt v2 ].
Proof.
  intros Hu Hm Hctx Hgen Htxt Hv1 Hn1 Hv2 Hn2 Hw0 Hw1.
  unfold api_chat. rewrite Hu.
  destruct (strip (default [] (r_message req))) as [|c msg] eqn:Hmsg; [done|].
  cbn [is_empty]. rewrite Hctx.
  unfold turn_messages in Hgen. rewrite Hmsg in Hgen. rewrite Hgen.
  destruct txt as [|t0 txt']; [done|]. cbn [content_of truthy is_empty negb snd].
  rewrite Hw0, Hw1. unfold load_memory at 1.
  rewrite (save_memory_written _ _ _ _ _ _ v2 Htxt Hv2 Hn2).
  unfold load_memory at 1.
  assert (Hm' : strip (c :: msg) <> []) by (by rewrite <- Hmsg, strip_idem, Hmsg).
  rewrite (save_memory_written _ _ _ _ _ _ v1 Hm' Hv1 Hn1).
  by rewrite <- app_assoc.
Qed.

(** X15: while the user's file holds an object without [vector] or
    [text] and the message is embedded, the retrieval of line 259 raises the
    [KeyError] of the first missing key, so that no turn of this user
    reaches the generation backend: the turn ends in an exception that
    nothing catches, with the memory directory as it was. *)
Theorem turn_blocked_by_malformed_record (mem : mem_fs) (sess : sess_fs)
    (env : turn_env) (req : request) (uid : str) (data : list mem_item)
    (q : vec) (k : str) :
  r_user req = Some uid ->
  strip (default [] (r_message req)) <> [] ->
  mem !! get_mem_path uid = Some (MemDoc data) ->
  first_missing_key data = Some k ->
  e_embed env 0%nat (strip (default [] (r_message req))) = Some q -> q <> [] ->
  find_relevant_npy mem (e_embed env 0%nat) uid
    (strip (default [] (r_message req))) 3 = Raise (KeyError k)
  /\ snd (api_chat mem sess env req) = mem
  /\ exists e, fst (api_chat mem sess env req) = Unhandled e.
Proof.
  intros Hu Hm Hfile Hk Hq Hqne.
  assert (Hr : find_relevant_npy mem (e_embed env 0%nat) uid
                 (strip (default [] (r_message req))) 3 = Raise (KeyError k)).
  { by apply (find_relevant_missing_key _ _ _ _ _ data q). }
  split; [exact Hr|]. unfold api_chat. rewrite Hu.
  destruct (strip (default [] (r_message req))) as [|c msg] eqn:Hmsg; [done|].
  cbn [is_empty]. rewrite Hr. split; [done|]. by eexists.
Qed.

Lemma lstrip_blank s : forallb is_space s = true -> lstrip s = [].
Proof.
  induction s as [|c s IH]; [done|]. cbn [forallb lstrip].
  intros [Hc Hs]%andb_prop. rewrite Hc. by apply IH.
Qed.

Lemma strip_blank s : forallb is_space s = true -> strip s = [].
Proof. intros H. unfold strip, rstrip. by rewrite (lstrip_blank s H). Qed.

Lemma find_index_none {A} (p : A -> bool) (l : list A) :
  forallb (fun x => negb (p x)) l = true -> find_index p l = None.
Proof.
  induction l as [|x l IH]; [done|]. cbn [forallb find_index].
  intros [Hx Hl]%andb_prop. apply negb_true_iff in Hx. rewrite Hx.
  by rewrite (IH Hl).
Qed.

Lemma search_braces_blank s : forallb is_space s = true -> search_braces s = None.
Proof.
  intros H. unfold search_braces. rewrite find_index_none; [done|].
  rewrite forallb_forall in *. intros c Hc. specialize (H c Hc).
  destruct (N.eqb_spec 123 c) as [<-|]; [|done]. by vm_compute in H.
Qed.

(** X16: a generated text that is not empty and all white space passes
    the emptiness test of line 272: the turn answers with the empty reply
    and the emotion [neutral], and stores the user's message only, the
    append of the blank text being refused. *)
Theorem turn_blank_generation (mem : mem_fs) (sess : sess_fs) (env : turn_env)
    (req : request) (uid ctx txt : str) :
  r_user req = Some uid ->
  strip (default [] (r_message req)) <> [] ->
  find_relevant_npy mem (e_embed env 0%nat) uid
    (strip (default [] (r_message req))) 3 = Ok ctx ->
  e_generate env (turn_messages sess env req uid ctx) = GenText txt ->
  txt <> [] -> forallb is_space txt = true ->
  api_chat mem sess env req
  = (Reply (py "neutral") [],
     save_memory_npy mem (e_embed env 1%nat) (e_clock env 1%nat)
       (e_write env 0%nat) uid (strip (default [] (r_message req))) (py "user")).
Proof.
  intros Hu Hm Hctx Hgen Htxt Hblank. unfold api_chat. rewrite Hu.
  destruct (strip (default [] (r_message req))) as [|c msg] eqn:Hmsg; [done|].
  cbn [is_empty]. rewrite Hctx.
  unfold turn_messages in Hgen. rewrite Hmsg in Hgen. rewrite Hgen.
  destruct txt as [|t0 txt'] eqn:Etxt; [done|]. cbn [content_of truthy is_empty negb].
  rewrite <- Etxt in *.
  f_equal.
  - rewrite extract_reply_fallback.
    + by rewrite (strip_blank txt Hblank).
    + by rewrite safe_json_no_object by (left; by apply search_braces_blank).
    + by rewrite safe_json_no_object by (left; by apply search_braces_blank).
  - unfold save_memory_npy at 1. by rewrite (strip_blank txt Hblank).
Qed.

(** ** Saved sessions: save, load, list *)

Lemma session_dir_files st session_user d :
  files_of (snd (session_dir st session_user)) d = files_of st d.
Proof.
  unfold session_dir, files_of. destruct session_user as [[|c uid]|]; [done| |done].
  cbn [snd]. destruct (st !! user_session_dir (c :: uid)) eqn:E; [done|].
  destruct (decide (d = user_session_dir (c :: uid))) as [->|Hd].
  - by rewrite lookup_insert_eq, E.
  - by rewrite lookup_insert_ne.
Qed.

Lemma session_dir_exists st (uid : str) :
  uid <> [] ->
  fst (session_dir st (Some uid)) = Some (user_session_dir uid)
  /\ is_Some (snd (session_dir st (Some uid)) !! user_session_dir uid).
Proof.
  intros Hu. unfold session_dir. destruct uid as [|c uid]; [done|]. cbn [fst snd].
  split; [done|]. destruct (st !! user_session_dir (c :: uid)) eqn:E; [by eexists|].
  rewrite lookup_insert_eq. by eexists.
Qed.

Lemma read_json_files st d name :
  is_Some (st !! d) -> read_json (Some (d, name)) st = files_of st d !! name.
Proof. intros [files E]. unfold read_json, files_of. by rewrite E. Qed.

Lemma api_load_files st (uid sid : str) :
  uid <> [] ->
  fst (api_load st (Some uid) (Some sid))
  = load_answer (files_of st (user_session_dir uid) !! session_file_name sid).
Proof.
  intros Hu. unfold api_load, session_path.
  destruct (session_dir_exists st uid Hu) as [Hd Hex].
  pose proof (session_dir_files st (Some uid) (user_session_dir uid)) as Hf.
  destruct (session_dir st (Some uid)) as [d st1]. cbn [fst snd] in *. subst d.
  cbn [option_map fst]. by rewrite (read_json_files _ _ _ Hex), Hf.
Qed.

Lemma api_save_files st (uid : str) sid chat fresh now_ts title d :
  uid <> [] -> title_of chat = Ok title ->
  fst (api_save st (Some uid) sid chat fresh now_ts) = SaveOk (ensure_sid sid fresh)
  /\ files_of (snd (api_save st (Some uid) sid chat fresh now_ts)) d
     = if bool_decide (d = user_session_dir uid)
       then <[session_file_name (ensure_sid sid fresh)
              := SavedDoc (saved_object (ensure_sid sid fresh) title chat now_ts)]>
              (files_of st d)
       else files_of st d.
Proof.
  intros Hu Ht. unfold api_save, session_path.
  destruct (session_dir_exists st uid Hu) as [Hd Hex].
  pose proof (session_dir_files st (Some uid)) as Hf.
  destruct (session_dir st (Some uid)) as [d0 st1]. cbn [fst snd] in *. subst d0.
  cbn [option_map]. rewrite Ht. cbn [snd write_json]. split; [done|].
  case_bool_decide as Hdd.
  - subst d. unfold files_of at 1. rewrite lookup_insert_eq. cbn [default].
    fold (files_of st1 (user_session_dir uid)). by rewrite Hf.
  - unfold files_of at 1. rewrite lookup_insert_ne by done.
    fold (files_of st1 d). by rewrite Hf.
Qed.

Lemma user_session_dir_inj a b :
  user_session_dir a = user_session_dir b -> sanitize a = sanitize b.
Proof. unfold user_session_dir, path_join. intros H. by do 2 apply app_inv_head in H. Qed.

Lemma session_file_name_inj a b :
  session_file_name a = session_file_name b -> sanitize a = sanitize b.
Proof. unfold session_file_name. apply app_inv_tail. Qed.

(** X17: a save that goes through answers with the session identifier
    (the one of the body, or the fresh one when the body has none) and the
    session then loads, under this identifier and under every identifier
    with the same sanitized form, as the object with this identifier, the
    title, the chat of the body ([null] without one) and the time of the
    save. *)
Theorem save_then_load (st : session_store) (uid : str) (sid : option str)
    (chat : option (list turn)) (fresh : str) (now_ts : Z) (title sid' : str) :
  uid <> [] ->
  title_of chat = Ok title ->
  sanitize sid' = sanitize (ensure_sid sid fresh) ->
  fst (api_save st (Some uid) sid chat fresh now_ts) = SaveOk (ensure_sid sid fresh)
  /\ fst (api_load (snd (api_save st (Some uid) sid chat fresh now_ts))
            (Some uid) (Some sid'))
     = LoadOk (Some {| ss_sid := Some (ensure_sid sid fresh);
                       ss_title := Some title;
                       ss_chat := match chat with
                                  | Some l => ChatList l
                                  | None => ChatNull
                                  end;
                       ss_updated := Some now_ts |}).
Proof.
  intros Hu Ht Hs.
  destruct (api_save_files st uid sid chat fresh now_ts title (user_session_dir uid) Hu Ht)
    as [Hr Hf].
  split; [exact Hr|].
  rewrite (api_load_files _ _ _ Hu), Hf, bool_decide_eq_true_2 by done.
  unfold session_file_name. rewrite Hs, lookup_insert_eq. reflexivity.
Qed.

Lemma api_save_files_raised st uid sid chat fresh now_ts e d :
  title_of chat = Raise e ->
  files_of (snd (api_save st uid sid chat fresh now_ts)) d = files_of st d.
Proof.
  intros Ht. unfold api_save. destruct uid as [u|]; [|done]. unfold session_path.
  pose proof (session_dir_files st (Some u) d) as Hf.
  destruct (session_dir st (Some u)) as [d0 st1]. cbn [snd] in Hf.
  rewrite Ht. cbn [snd]. exact Hf.
Qed.

Lemma api_save_files_nobody st sid chat fresh now_ts d :
  files_of (snd (api_save st (Some []) sid chat fresh now_ts)) d = files_of st d.
Proof.
  unfold api_save, session_path, session_dir. cbn [option_map].
  by destruct (title_of chat).
Qed.

(** X18: a save changes what loads under no other user and no other
    session: for a user or a session identifier with another sanitized
    form, [api_load] answers after the save what it answered before. *)
Theorem save_isolated (st : session_store) (uid : option str) (sid : option str)
    (chat : option (list turn)) (fresh : str) (now_ts : Z) (uid' sid' : str) :
  uid' <> [] ->
  sanitize uid' <> sanitize (default [] uid)
  \/ sanitize sid' <> sanitize (ensure_sid sid fresh) ->
  fst (api_load (snd (api_save st uid sid chat fresh now_ts)) (Some uid') (Some sid'))
  = fst (api_load st (Some uid') (Some sid')).
Proof.
  intros Hu' Hne. rewrite !(api_load_files _ _ _ Hu').
  destruct (title_of chat) as [title|e] eqn:Ht;
    [|by rewrite (api_save_files_raised _ _ _ _ _ _ e)].
  destruct uid as [u|]; [|done].
  destruct (decide (u = [])) as [->|Hu]; [by rewrite api_save_files_nobody|].
  destruct (api_save_files st u sid chat fresh now_ts title
              (user_session_dir uid') Hu Ht) as [_ ->].
  case_bool_decide as Hd; [|done].
  apply user_session_dir_inj in Hd. destruct Hne as [Hne|Hne]; [done|].
  rewrite lookup_insert_ne; [done|].
  intros Hn. apply session_file_name_inj in Hn. by rewrite Hn in Hne.
Qed.

Lemma title_of_cases chat :
  match chat with
  | Some (t :: _) =>
      match t_text t with
      | Some s => title_of chat = Ok (take 60 s)
      | None => title_of chat = Raise (KeyError (py "text"))
      end
  | _ => title_of chat = Ok (py "New Chat")
  end.
Proof. destruct chat as [[|t l]|]; try reflexivity. cbn. by destruct (t_text t). Qed.

(** X19: the title of a saved session is at most 60 characters long: the
    text of the first turn cut after 60 characters, or [New Chat] for a body
    whose chat is missing or empty.  When the first turn has no [text] the
    save raises the [KeyError] of that key before it writes: the answer is
    that exception and every session of every user loads as before. *)
Theorem save_title (st : session_store) (uid sid : option str)
    (chat : option (list turn)) (fresh : str) (now_ts : Z) :
  (forall title, title_of chat = Ok title ->
     (length title <= 60)%nat
     /\ match chat with
        | Some (t :: _) => exists s, t_text t = Some s /\ title = take 60 s
        | _ => title = py "New Chat"
        end)
  /\ (forall t l,
        is_Some uid -> chat = Some (t :: l) -> t_text t = None ->
        fst (api_save st uid sid chat fresh now_ts) = SaveRaised (KeyError (py "text"))
        /\ forall uid' sid',
             uid' <> [] ->
             fst (api_load (snd (api_save st uid sid chat fresh now_ts))
                    (Some uid') (Some sid'))
             = fst (api_load st (Some uid') (Some sid'))).
Proof.
  pose proof (title_of_cases chat) as Hc. split.
  - intros title Ht. destruct chat as [[|t l]|].
    + rewrite Hc in Ht. injection Ht as <-. split; [cbn; lia|done].
    + destruct (t_text t) as [s|] eqn:Hs; rewrite Hc in Ht; [|done].
      injection Ht as <-. split; [rewrite length_take; lia|by exists s].
    + rewrite Hc in Ht. injection Ht as <-. split; [cbn; lia|done].
  - intros t l [u ->] -> Htext.
    assert (Ht : title_of (Some (t :: l)) = Raise (KeyError (py "text"))).
    { cbn [title_of]. by rewrite Htext. }
    split.
    + unfold api_save.
      destruct (session_path st (Some u) (ensure_sid sid fresh)) as [p st1].
      by rewrite Ht.
    + intros uid' sid' Hu'. rewrite !(api_load_files _ _ _ Hu').
      by rewrite (api_save_files_raised _ _ _ _ _ _ _ _ Ht).
Qed.

(** ** The listing of the sessions *)

Lemma insert_updated_perm x l : Permutation (insert_updated x l) (x :: l).
Proof.
  induction l as [|y l IH]; [reflexivity|]. cbn [insert_updated].
  destruct (updated_of x <? updated_of y); [|reflexivity].
  rewrite IH. apply perm_swap.
Qed.

Lemma sort_updated_perm l : Permutation (sort_updated l) l.
Proof.
  induction l as [|x l IH]; [reflexivity|]. cbn [sort_updated fold_right].
  fold (sort_updated l). by rewrite insert_updated_perm, IH.
Qed.

Lemma insert_updated_sorted x l :
  newest_first l -> newest_first (insert_updated x l).
Proof.
  unfold newest_first. induction 1 as [|y l Hl IH Hy]; cbn [insert_updated].
  - by repeat constructor.
  - destruct (Z.ltb_spec (updated_of x) (updated_of y)) as [Hlt|Hge].
    + constructor; [done|].
      rewrite (insert_updated_perm x l). constructor; [lia|done].
    + constructor; [by constructor|]. constructor; [done|].
      eapply Forall_impl; [exact Hy|]. intros z Hz. cbn beta in *. lia.
Qed.

Lemma sort_updated_sorted l : newest_first (sort_updated l).
Proof.
  induction l as [|x l IH]; [constructor|]. by apply insert_updated_sorted.
Qed.

Lemma insert_updated_stamped k x l :
  stamped k (insert_updated x l) = stamped k (x :: l).
Proof.
  unfold stamped. induction l as [|y l IH]; [reflexivity|]. cbn [insert_updated].
  destruct (Z.ltb_spec (updated_of x) (updated_of y)) as [Hlt|Hge]; [|reflexivity].
  cbn [List.filter] in *. rewrite IH.
  destruct (Z.eqb_spec (updated_of x) k), (Z.eqb_spec (updated_of y) k);
    try reflexivity. lia.
Qed.

Lemma sort_updated_stamped k l : stamped k (sort_updated l) = stamped k l.
Proof.
  induction l as [|x l IH]; [reflexivity|]. cbn [sort_updated fold_right].
  fold (sort_updated l). rewrite insert_updated_stamped. unfold stamped in *.
  cbn [List.filter]. by rewrite IH.
Qed.

Lemma loaded_In listing o :
  In o (loaded listing) <-> exists name, In (name, SavedDoc o) listing.
Proof.
  unfold loaded. rewrite <- list_elem_of_In, list_elem_of_omap. split.
  - intros ([name f] & Hin & Hf). cbn [snd] in Hf. destruct f as [|o']; [done|].
    injection Hf as ->. exists name. by apply list_elem_of_In.
  - intros [name Hin]. exists (name, SavedDoc o). split; [by apply list_elem_of_In|done].
Qed.

Lemma enumerates_In glob files name (f : saved_file) :
  enumerates glob -> In (name, f) (glob files) <-> files !! name = Some f.
Proof.
  intros Hg. rewrite <- list_elem_of_In, (Hg files). apply elem_of_map_to_list.
Qed.

Lemma api_sessions_listing glob st (uid : str) :
  uid <> [] ->
  fst (api_sessions glob st (Some uid))
  = ListOk (sort_updated (loaded (glob (files_of st (user_session_dir uid))))).
Proof.
  intros Hu. unfold api_sessions.
  destruct (session_dir_exists st uid Hu) as [Hd _].
  pose proof (session_dir_files st (Some uid) (user_session_dir uid)) as Hf.
  destruct (session_dir st (Some uid)) as [d st1]. cbn [fst snd] in *. subst d.
  fold (files_of st1 (user_session_dir uid)). by rewrite Hf.
Qed.

(** X20: the listing of a user's sessions holds exactly the session files
    of the user's directory that load, each once, the newest stamp first
    (a missing [updated] counting as 0), sessions with the same stamp in
    the order in which the directory was read. *)
Theorem sessions_listing
    (glob : gmap str saved_file -> list (str * saved_file))
    (st : session_store) (uid : str) :
  enumerates glob -> uid <> [] ->
  exists l,
    fst (api_sessions glob st (Some uid)) = ListOk l
    /\ newest_first l
    /\ Permutation l (loaded (glob (files_of st (user_session_dir uid))))
    /\ (forall k, stamped k l
                  = stamped k (loaded (glob (files_of st (user_session_dir uid)))))
    /\ (forall o, In o l
                  <-> exists name,
                        files_of st (user_session_dir uid) !! name = Some (SavedDoc o)).
Proof.
  intros Hg Hu. eexists. split; [by apply api_sessions_listing|].
  split; [apply sort_updated_sorted|]. split; [apply sort_updated_perm|].
  split; [intros k; apply sort_updated_stamped|].
  intros o. rewrite <- list_elem_of_In, (sort_updated_perm _), list_elem_of_In, loaded_In.
  split; intros [name H]; exists name; by apply (enumerates_In glob _ _ _ Hg).
Qed.

(** X21: after a save that went through, the listing of the user's
    sessions holds the saved object, and heads with it when every other
    session of the user has an older stamp. *)
Theorem save_then_list
    (glob : gmap str saved_file -> list (str * saved_file))
    (st : session_store) (uid : str) (sid : option str)
    (chat : option (list turn)) (fresh : str) (now_ts : Z) (title : str) :
  enumerates glob -> uid <> [] -> title_of chat = Ok title ->
  exists l,
    fst (api_sessions glob (snd (api_save st (Some uid) sid chat fresh now_ts))
           (Some uid)) = ListOk l
    /\ In (saved_object (ensure_sid sid fresh) title chat now_ts) l
    /\ ((forall name o,
           files_of st (user_session_dir uid) !! name = Some (SavedDoc o) ->
           name <> session_file_name (ensure_sid sid fresh) ->
           updated_of o < now_ts) ->
        exists rest, l = saved_object (ensure_sid sid fresh) title chat now_ts :: rest).
Proof.
  intros Hg Hu Ht.
  set (st' := snd (api_save st (Some uid) sid chat fresh now_ts)).
  set (new := saved_object (ensure_sid sid fresh) title chat now_ts).
  assert (Hfiles : files_of st' (user_session_dir uid)
                   = <[session_file_name (ensure_sid sid fresh) := SavedDoc new]>
                       (files_of st (user_session_dir uid))).
  { destruct (api_save_files st uid sid chat fresh now_ts title
                (user_session_dir uid) Hu Ht) as [_ Hf].
    unfold st'. by rewrite Hf, bool_decide_eq_true_2. }
  set (l := sort_updated (loaded (glob (files_of st' (user_session_dir uid))))).
  assert (Hin : forall o, In o l
                  <-> exists name, files_of st' (user_session_dir uid) !! name
                                   = Some (SavedDoc o)).
  { intros o. unfold l.
    rewrite <- list_elem_of_In, (sort_updated_perm _), list_elem_of_In, loaded_In.
    split; intros [name H]; exists name; by apply (enumerates_In glob _ _ _ Hg). }
  assert (Hnew : In new l).
  { apply Hin. exists (session_file_name (ensure_sid sid fresh)).
    by rewrite Hfiles, lookup_insert_eq. }
  exists l. split; [by apply api_sessions_listing|]. split; [exact Hnew|].
  intros Hold.
  pose proof (sort_updated_sorted (loaded (glob (files_of st' (user_session_dir uid)))))
    as Hsorted. fold l in Hsorted.
  assert (Hother : forall o, In o l -> o = new \/ updated_of o < now_ts).
  { intros o [name Ho]%Hin. rewrite Hfiles in Ho.
    destruct (decide (name = session_file_name (ensure_sid sid fresh))) as [->|Hn].
    - rewrite lookup_insert_eq in Ho. left. congruence.
    - rewrite lookup_insert_ne in Ho by done. right. by apply (Hold name). }
  destruct l as [|h rest]; [done|]. exists rest. f_equal.
  destruct (Hother h (or_introl eq_refl)) as [->|Hh]; [done|].
  destruct Hnew as [->|Hrest]; [done|].
  apply StronglySorted_inv in Hsorted as [_ Hall].
  rewrite List.Forall_forall in Hall. specialize (Hall _ Hrest).
  change (updated_of new) with now_ts in Hall. lia.
Qed.

(** ** The trend analysis over saved sessions *)

Lemma tally_saved_null files cnt o :
  In o files -> ss_chat o = ChatNull -> tally_saved files cnt = None.
Proof.
  intros Hin Hnull. revert cnt. induction files as [|f files IH]; intros cnt; [done|].
  cbn [tally_saved]. destruct Hin as [->|Hin]; [by rewrite Hnull|].
  destruct (ss_chat f); [by apply IH|done|by apply IH].
Qed.

Lemma api_save_dir st (uid : str) sid chat fresh now_ts title :
  uid <> [] -> title_of chat = Ok title ->
  snd (api_save st (Some uid) sid chat fresh now_ts) !! user_session_dir uid
  = Some (<[session_file_name (ensure_sid sid fresh)
            := SavedDoc (saved_object (ensure_sid sid fresh) title chat now_ts)]>
            (files_of st (user_session_dir uid))).
Proof.
  intros Hu Ht. unfold api_save, session_path.
  destruct (session_dir_exists st uid Hu) as [Hd Hex].
  pose proof (session_dir_files st (Some uid) (user_session_dir uid)) as Hf.
  destruct (session_dir st (Some uid)) as [d0 st1]. cbn [fst snd] in *. subst d0.
  cbn [option_map]. rewrite Ht. cbn [snd write_json].
  rewrite lookup_insert_eq. fold (files_of st1 (user_session_dir uid)). by rewrite Hf.
Qed.

(** X23: after a save whose body has no chat, the file holds a [null]
    chat, and the trend analysis of this user raises for every clock and
    every number of days that leave the time of the save inside the
    window. *)
Theorem save_without_chat_breaks_analysis
    (glob : gmap str saved_file -> list (str * saved_file))
    (st : session_store) (uid : str) (sid : option str) (fresh : str)
    (saved_at now_ts days : Z) :
  enumerates glob -> uid <> [] ->
  now_ts - days * 86400 < saved_at ->
  fst (api_save st (Some uid) sid None fresh saved_at) = SaveOk (ensure_sid sid fresh)
  /\ analyze_saved_sessions glob
       (snd (api_save st (Some uid) sid None fresh saved_at)) now_ts uid days
     = None.
Proof.
  intros Hg Hu Hw.
  destruct (api_save_files st uid sid None fresh saved_at (py "New Chat")
              (user_session_dir uid) Hu eq_refl) as [Hr _].
  split; [exact Hr|]. unfold analyze_saved_sessions.
  rewrite (api_save_dir st uid sid None fresh saved_at (py "New Chat") Hu eq_refl).
  set (new := saved_object (ensure_sid sid fresh) (py "New Chat") None saved_at).
  set (files := <[_ := SavedDoc new]> _).
  assert (Hin : In new (recent_saved (now_ts - days * 86400) (glob files))).
  { unfold recent_saved. apply List.filter_In. split.
    - apply loaded_In. exists (session_file_name (ensure_sid sid fresh)).
      apply (enumerates_In glob _ _ _ Hg). unfold files. by rewrite lookup_insert_eq.
    - change (updated_of new) with saved_at. by apply Z.ltb_lt. }
  destruct (recent_saved _ _) as [|o fs] eqn:E; [done|]. cbn [is_empty].
  by rewrite (tally_saved_null (o :: fs) [] new Hin eq_refl).
Qed.

(** X24: after the first save of a user, with a chat, the trend analysis
    of this user is the note of the tally of that chat, for every clock and
    every number of days that leave the time of the save inside the
    window: the labelled assistant turns of the saved chat are the ones
    counted. *)
Theorem save_then_analyze
    (glob : gmap str saved_file -> list (str * saved_file))
    (st : session_store) (uid : str) (sid : option str) (chat : list turn)
    (fresh title : str) (saved_at now_ts days : Z) :
  enumerates glob -> uid <> [] ->
  st !! user_session_dir uid = None ->
  title_of (Some chat) = Ok title ->
  now_ts - days * 86400 < saved_at ->
  analyze_saved_sessions glob
    (snd (api_save st (Some uid) sid (Some chat) fresh saved_at)) now_ts uid days
  = Some (trend_note days
            (tally [ {| s_updated := Some saved_at;
                        s_chat := Some (List.map as_chat_msg chat) |} ])).
Proof.
  intros Hg Hu Hnone Ht Hw. unfold analyze_saved_sessions.
  rewrite (api_save_dir st uid sid (Some chat) fresh saved_at title Hu Ht).
  unfold files_of. rewrite Hnone. cbn [default].
  set (new := saved_object (ensure_sid sid fresh) title (Some chat) saved_at).
  set (name := session_file_name (ensure_sid sid fresh)).
  assert (Hl : glob (<[name := SavedDoc new]> ∅) = [(name, SavedDoc new)]).
  { apply Permutation_length_1_inv. symmetry. rewrite (Hg _).
    by rewrite insert_empty, map_to_list_singleton. }
  rewrite Hl. unfold recent_saved, loaded. cbn [omap list_omap snd List.filter].
  change (updated_of new) with saved_at.
  rewrite (proj2 (Z.ltb_lt _ _) Hw). cbn [is_empty tally_saved].
  reflexivity.
Qed.

(** ** Accounts *)

Lemma dict_get_set_eq {V} k (v : V) d : dict_get k (dict_set k v d) = Some v.
Proof.
  induction d as [|[k' v'] d IH]; cbn [dict_set dict_get].
  - by rewrite (proj2 (str_eqb_eq k k) eq_refl).
  - destruct (str_eqb k' k) eqn:E; cbn [dict_get]; by rewrite E.
Qed.

Lemma dict_get_set_ne {V} k k' (v : V) d :
  k' <> k -> dict_get k' (dict_set k v d) = dict_get k' d.
Proof.
  intros Hne. induction d as [|[k0 v0] d IH]; cbn [dict_set dict_get].
  - destruct (str_eqb k k') eqn:E; [|done]. apply str_eqb_eq in E. congruence.
  - destruct (str_eqb k0 k) eqn:E; cbn [dict_get]; [|by rewrite IH].
    apply str_eqb_eq in E. subst k0.
    destruct (str_eqb k k') eqn:E'; [|done]. apply str_eqb_eq in E'. congruence.
Qed.

Lemma dict_set_fresh {V} k (v : V) d :
  dict_get k d = None -> dict_set k v d = d ++ [(k, v)].
Proof.
  induction d as [|[k0 v0] d IH]; [done|]. cbn [dict_get dict_set].
  destruct (str_eqb k0 k); [done|]. intros H. cbn [app]. by rewrite IH.
Qed.

Lemma given_Some (x : option str) :
  given x = true <-> exists s, x = Some s /\ s <> [].
Proof.
  destruct x as [[|c s]|]; cbn; split; try done.
  - by intros (s & [= <-] & H).
  - intros _. by eexists.
  - by intros (s & [=] & _).
Qed.

(** X25: a registration with the three fields, a name that is not taken
    and a write that completes answers [ok], adds the account at the end of
    the file and leaves the session alone; the login with the same name and
    password then succeeds, as soon as the hash checks against the password
    it was made from, and puts the name in the session. *)
Theorem register_then_login (us : option users_file) (c : cookie)
    (u dn p hash : str) (now_ts : Z) (users : list (str * account)) :
  u <> [] -> dn <> [] -> p <> [] ->
  read_users us = Some users ->
  dict_get u users = None ->
  check_password_hash hash (Some p) = Some true ->
  api_register us (Some u) (Some dn) (Some p) hash now_ts Written
  = (AuthOk,
     Some (UsersDoc (users ++ [(u, {| a_hash := Some hash;
                                      a_display_name := Some dn;
                                      a_created_at := Some now_ts |})])))
  /\ api_login
       (snd (api_register us (Some u) (Some dn) (Some p) hash now_ts Written))
       c (Some u) (Some p)
     = (AuthOk, {| c_user := Some u; c_admin := c_admin c |}).
Proof.
  intros Hu Hdn Hp Hread Hfree Hcheck.
  assert (Hreg : api_register us (Some u) (Some dn) (Some p) hash now_ts Written
                 = (AuthOk,
                    Some (UsersDoc (dict_set u {| a_hash := Some hash;
                                                  a_display_name := Some dn;
                                                  a_created_at := Some now_ts |}
                                      users)))).
  { unfold api_register.
    destruct u as [|? ?]; [done|]. destruct dn as [|? ?]; [done|].
    destruct p as [|? ?]; [done|]. cbn [given andb negb].
    change (default [] (Some ?x)) with x. rewrite Hread, Hfree. by rewrite bool_decide_eq_false_2 by (by intros [? [=]]). }
  split.
  - rewrite Hreg. by rewrite (dict_set_fresh _ _ _ Hfree).
  - rewrite Hreg. cbn [snd]. unfold api_login. cbn [read_users mbind option_bind].
    rewrite dict_get_set_eq. cbn. by rewrite Hcheck.
Qed.

(** X26: no registration changes an account that is there: whatever the
    body, as long as the write does not stop half-way, the users file still
    reads and still holds every account it held, unchanged; a request for a
    name that is taken is answered 409. *)
Theorem registration_keeps_accounts (us : option users_file)
    (username display_name password : option str) (hash : str) (now_ts : Z)
    (wr : write_outcome) (users : list (str * account)) :
  read_users us = Some users ->
  wr <> DumpFailed ->
  (exists users',
     read_users (snd (api_register us username display_name password hash now_ts wr))
     = Some users'
     /\ forall u acc, dict_get u users = Some acc -> dict_get u users' = Some acc)
  /\ (forall u acc,
        given username && given display_name && given password = true ->
        username = Some u ->
        dict_get u users = Some acc ->
        api_register us username display_name password hash now_ts wr
        = (AuthRefused 409, us)).
Proof.
  intros Hread Hwr. split.
  - unfold api_register.
    destruct (negb _); [by exists users|]. rewrite Hread.
    case_bool_decide as Hin; [by exists users|]. cbn [snd].
    destruct wr; [|by exists users|done]. cbn [write_users read_users].
    eexists. split; [done|]. intros u acc Hacc.
    rewrite dict_get_set_ne; [done|]. intros ->. apply Hin. by eexists.
  - intros u acc Hgiven -> Hacc. unfold api_register. rewrite Hgiven.
    cbn [negb]. change (default [] (Some u)) with u. rewrite Hread, Hacc.
    by rewrite bool_decide_eq_true_2 by (by eexists).
Qed.

(** X27: a login succeeds exactly when the users file reads, holds an
    account under the name of the body, the account has a hash and the
    hash checks against the password; it then puts the name in the session
    and keeps the administrator flag.  In every other case the session is
    left as it was: a failed attempt does not sign the current user out. *)
Theorem login_exact (us : option users_file) (c : cookie)
    (username password : option str) :
  (fst (api_login us c username password) = AuthOk
   <-> exists u users acc h,
         username = Some u /\ read_users us = Some users
         /\ dict_get u users = Some acc /\ a_hash acc = Some h
         /\ check_password_hash h password = Some true)
  /\ (fst (api_login us c username password) = AuthOk ->
      snd (api_login us c username password)
      = {| c_user := username; c_admin := c_admin c |})
  /\ (fst (api_login us c username password) <> AuthOk ->
      snd (api_login us c username password) = c).
Proof.
  unfold api_login.
  destruct (read_users us) as [users|] eqn:Hread; cbn [fst snd].
  2: { split; [|by split]. split; [done|]. by intros (? & ? & ? & ? & _ & [=] & _). }
  destruct username as [u|]; cbn [mbind option_bind].
  2: { split; [|by split]. split; [done|]. by intros (? & ? & ? & ? & [=] & _). }
  destruct (dict_get u users) as [acc|] eqn:Hacc; cbn [fst snd].
  2: { split; [|by split]. split; [done|].
       intros (? & ? & ? & ? & [= <-] & [= <-] & Hget & _). congruence. }
  destruct (a_hash acc) as [h|] eqn:Hh.
  2: { destruct (account_truthy acc); cbn [fst snd]; (split; [|by split]);
         (split; [done|]);
         intros (? & ? & ? & ? & [= <-] & [= <-] & Hget & Hhash & _); congruence. }
  assert (Htruthy : account_truthy acc = true).
  { unfold account_truthy. rewrite Hh. reflexivity. }
  rewrite Htruthy.
  destruct (check_password_hash h password) as [[|]|] eqn:Hc; cbn [fst snd].
  - split; [|by split]. split; [|done]. intros _. by exists u, users, acc, h.
  - split; [|by split]. split; [done|].
    intros (? & ? & ? & ? & [= <-] & [= <-] & Hget & Hhash & Hcheck). congruence.
  - split; [|by split]. split; [done|].
    intros (? & ? & ? & ? & [= <-] & [= <-] & Hget & Hhash & Hcheck). congruence.
Qed.

Lemma api_login_ok us c username password :
  fst (api_login us c username password) = AuthOk ->
  exists u users acc,
    username = Some u /\ read_users us = Some users /\ dict_get u users = Some acc
    /\ snd (api_login us c username password)
       = {| c_user := Some u; c_admin := c_admin c |}.
Proof.
  unfold api_login. destruct (read_users us) as [users|]; [|done].
  destruct username as [u|]; cbn [mbind option_bind]; [|done].
  destruct (dict_get u users) as [acc|] eqn:Hacc; [|done].
  destruct (account_truthy acc); [|done]. destruct (a_hash acc); [|done].
  destruct (check_password_hash _ password) as [[|]|]; try done.
  intros _. by exists u, users, acc.
Qed.

Lemma dict_get_None_keys {V} k (d : list (str * V)) :
  dict_get k d = None -> ~ In k (List.map fst d).
Proof.
  intros Hnone Hin. apply dict_get_key in Hin as [v Hv]. congruence.
Qed.

(** X28: the accounts of a users file that only registrations have
    written have a name that is not empty, a hash and a display name, and
    no name twice; a registration whose write does not stop half-way keeps
    the file so.  On such a file a login that succeeds leaves a user
    identifier that is not empty in the session, for which the session
    directory is defined, and no login raises for a missing hash. *)
Theorem registration_invariant (us : option users_file)
    (username display_name password : option str) (hash : str) (now_ts : Z)
    (wr : write_outcome) (users : list (str * account)) :
  read_users us = Some users ->
  registered users ->
  wr <> DumpFailed ->
  (exists users',
     read_users (snd (api_register us username display_name password hash now_ts wr))
     = Some users'
     /\ registered users')
  /\ (forall c u pw,
        fst (api_login us c u pw) = AuthOk ->
        exists uid, c_user (snd (api_login us c u pw)) = Some uid /\ uid <> []
                    /\ forall st, fst (session_dir st (Some uid))
                                  = Some (user_session_dir uid))
  /\ (forall c u pw,
        fst (api_login us c u pw) = AuthRaised ->
        exists h, check_password_hash h pw = None).
Proof.
  intros Hread [Hnd Hall] Hwr. split; [|split].
  - unfold api_register.
    destruct (negb _) eqn:Hgiven; [by exists users|]. rewrite Hread.
    case_bool_decide as Hin; [by exists users|]. cbn [snd].
    destruct wr; [|by exists users|done]. cbn [write_users read_users].
    eexists. split; [done|].
    apply negb_false_iff in Hgiven.
    apply andb_prop in Hgiven as [[Hu Hd]%andb_prop Hp].
    apply given_Some in Hu as (u & -> & Hu). apply given_Some in Hd as (dn & -> & Hd).
    change (default [] (Some u)) with u in *.
    assert (Hfree : dict_get u users = None).
    { destruct (dict_get u users) eqn:E; [|done]. exfalso. apply Hin. by eexists. }
    rewrite (dict_set_fresh _ _ _ Hfree). split.
    + rewrite List.map_app. cbn [List.map fst]. apply NoDup_app. split; [done|].
      split; [|apply NoDup_singleton].
      intros k Hk ->%list_elem_of_singleton.
      by apply (dict_get_None_keys _ _ Hfree), list_elem_of_In.
    + apply Forall_app. split; [done|]. constructor; [|constructor].
      cbn [fst snd a_hash a_display_name]. split; [done|]. split; by eexists.
  - intros c u pw Hok.
    apply api_login_ok in Hok as (uid & users0 & acc & -> & Hr & Hget & ->).
    cbn [c_user]. rewrite Hread in Hr. injection Hr as <-.
    assert (Huid : uid <> []).
    { apply dict_get_In in Hget. rewrite List.Forall_forall in Hall.
      by destruct (Hall _ Hget) as [? _]. }
    exists uid. split; [done|]. split; [done|].
    intros st. by destruct (session_dir_exists st uid Huid).
  - intros c u pw. unfold api_login. rewrite Hread.
    destruct u as [u|]; cbn [mbind option_bind]; [|done].
    destruct (dict_get u users) as [acc|] eqn:Hget; [|done].
    apply dict_get_In in Hget. rewrite List.Forall_forall in Hall.
    destruct (Hall _ Hget) as (_ & [h Hh] & _). cbn [snd] in Hh.
    destruct (account_truthy acc); [|done]. rewrite Hh.
    destruct (check_password_hash h pw) as [[|]|] eqn:Hc; try done.
    intros _. by exists h.
Qed.

(** ** Speech *)

Lemma lstrip_Forall (P : char -> Prop) s : Forall P s -> Forall P (lstrip s).
Proof.
  intros H. destruct (lstrip_suffix s) as [pre Hpre]. rewrite Hpre in H.
  by apply Forall_app in H as [_ ?].
Qed.

Lemma strip_Forall (P : char -> Prop) s : Forall P s -> Forall P (strip s).
Proof.
  intros H. unfold strip, rstrip. by apply Forall_rev, lstrip_Forall, Forall_rev, lstrip_Forall.
Qed.

Lemma ascii_lower_ascii c : is_ascii c = true -> is_ascii (ascii_lower c) = true.
Proof.
  unfold is_ascii, ascii_lower, is_ascii_upper. intros H%N.ltb_lt.
  destruct ((65 <=? c)%N && (c <=? 90)%N) eqn:E; apply N.ltb_lt; [|done].
  apply andb_prop in E as [_ E%N.leb_le]. lia.
Qed.

Lemma existsb_none {A} (f : A -> bool) (l : list A) :
  Forall (fun x => f x = false) l -> existsb f l = false.
Proof. induction 1 as [|x l Hx _ IH]; [done|]. cbn [existsb]. by rewrite Hx. Qed.

Lemma voice_of_ascii text :
  Forall (fun c => is_ascii c = true) text -> voice_of text = py "en-US-AriaNeural".
Proof.
  intros Hascii. unfold voice_of.
  assert (Hlow : Forall (fun c => is_ascii c = true) (lower text)).
  { unfold lower. rewrite (proj2 (forallb_forall _ _)).
    - apply List.Forall_forall. intros c [x [<- Hx]]%in_map_iff.
      rewrite List.Forall_forall in Hascii. by apply ascii_lower_ascii, Hascii.
    - by apply List.Forall_forall. }
  assert (Hvn : forallb (fun c => negb (is_ascii c)) vn_chars = true) by reflexivity.
  rewrite existsb_none; [done|].
  apply List.Forall_forall. intros c Hc. apply bool_decide_eq_false_2.
  intros Hin. rewrite forallb_forall in Hvn. specialize (Hvn c Hc).
  rewrite List.Forall_forall in Hlow.
  apply list_elem_of_In in Hin. rewrite (Hlow c Hin) in Hvn. done.
Qed.

(** X29: a text of ASCII characters only is spoken with the English
    voice: for a signed-in user, with the speech library present and a text
    that is not blank, the endpoint calls the speech service with the
    stripped text and [en-US-AriaNeural], and answers with its audio, or
    with status 500 and the text of its exception. *)
Theorem tts_ascii_voice (synthesize : str -> str -> str + list N)
    (uid : str) (text : str) :
  Forall (fun c => is_ascii c = true) text ->
  strip text <> [] ->
  api_tts true synthesize (Some uid) (Some text)
  = match synthesize (strip text) (py "en-US-AriaNeural") with
    | inr audio => Audio audio
    | inl e => TtsError 500 e
    end.
Proof.
  intros Hascii Hne. unfold api_tts. cbn [negb].
  change (default [] (Some text)) with text.
  destruct (strip text) as [|c s] eqn:Hs; [done|]. cbn [is_empty].
  rewrite <- Hs. by rewrite (voice_of_ascii _ (strip_Forall _ _ Hascii)).
Qed.

End Backend.

(** ** The properties at the sample data *)

(** C1, the claim as stated fails: with the query [[2^500]] the second
    record of [huge_data] has the similarity inf/inf, a NaN, which no
    comparison orders.  The keys are -1.0, NaN, 1.0; [list.sort] with
    [reverse=True] reverses them, finds one ascending run (neither
    [NaN < 1.0] nor [-1.0 < NaN] holds) and reverses it back, so the three
    records stay where they are, as they do in [sort_desc]: the text
    returned first has a strictly lower similarity (-1.0) than the text
    returned last (1.0). *)
Lemma retrieve_order_broken_by_nan :
  find_relevant_npy sample_word sample_base huge_fs (fun _ => Some huge_query)
    (py "alice") (py "hello") 3
  = Ok (context_block [py "opposite"; py "huge"; py "same"])
  /\ List.map (similarity huge_query) huge_data
     = [(-1)%float; PrimFloat.nan; 1%float]
  /\ PrimFloat.ltb (-1)%float 1%float = true.
Proof. repeat split; vm_compute; reflexivity. Qed.

Lemma retrieve_ranked_witness :
  exists ranked : list mem_item,
    find_relevant_npy sample_word sample_base pets_fs (fun _ => Some pets_query)
      (py "alice") (py "pets") (Z.of_nat 2)
    = Ok (context_block (List.map text_of (take 2 ranked)))
    /\ Permutation ranked pets_data
    /\ StronglySorted
         (fun a b => PrimFloat.leb (similarity pets_query b) (similarity pets_query a) = true)
         ranked
    /\ (forall s,
          List.filter (fun item => PrimFloat.eqb (similarity pets_query item) s) ranked
          = List.filter (fun item => PrimFloat.eqb (similarity pets_query item) s) pets_data)
    /\ (forall other,
          Permutation other pets_data ->
          StronglySorted
            (fun a b => PrimFloat.leb (similarity pets_query b) (similarity pets_query a) = true)
            other ->
          (forall s,
             List.filter (fun item => PrimFloat.eqb (similarity pets_query item) s) other
             = List.filter (fun item => PrimFloat.eqb (similarity pets_query item) s) pets_data) ->
          other = ranked).
Proof.
  apply (retrieve_ranked sample_word sample_base pets_fs (fun _ => Some pets_query)
           (py "alice") (py "pets") 2 pets_data pets_query).
  - vm_compute. reflexivity.
  - reflexivity.
  - discriminate.
  - repeat constructor; vm_compute; eauto.
  - repeat constructor.
Defined.

(** What retrieval returns on the sample: the two records of similarity
    1.0 in the order they were appended in. *)
Example retrieve_pets :
  find_relevant_npy sample_word sample_base pets_fs (fun _ => Some pets_query)
    (py "alice") (py "pets") 2
  = Ok (nl ++ nl ++ py "[Relevant Context]:" ++ nl
        ++ py "- cats purr" ++ nl ++ py "- cats nap").
Proof. vm_compute. reflexivity. Qed.

(** C4, the claim as stated fails: a session stamped exactly
    [now - 5 * 86400] is left out of the tally (no note comes out, although
    its three sadness turns alone would give one), and a session stamped
    after [now] is counted (the note comes out). *)
Lemma trend_window_is_open_ended :
  window_tally sample_word sample_base sess_at_cutoff sample_now (py "alice") 5 = []
  /\ analyze_user_trends sample_word sample_case sample_base sess_at_cutoff
       sample_now (py "alice") 5 = []
  /\ window_tally sample_word sample_base sess_future sample_now (py "alice") 5
     = [(py "sadness", 3)]
  /\ analyze_user_trends sample_word sample_case sample_base sess_future
       sample_now (py "alice") 5
     = nl ++ py "[PSYCHOLOGICAL TREND ANALYSIS]:" ++ nl
       ++ py "- Last 5 days mood: 'SADNESS' (3/3)." ++ nl ++ negative_note.
Proof. repeat split; vm_compute; reflexivity. Qed.

Lemma trend_window_witness :
  analyze_user_trends sample_word sample_case sample_base sess_future
    sample_now (py "alice") 5
  = trend_note sample_case 5
      (tally (recent (sample_now - 5 * 86400) [sad_session 1700000001]))
  /\ forall o,
       In o (recent (sample_now - 5 * 86400) [sad_session 1700000001])
       <-> In (SessDoc o) [sad_session 1700000001]
           /\ sample_now - 5 * 86400 < default 0 (s_updated o).
Proof.
  apply (trend_window sample_word sample_case sample_base sess_future sample_now
           (py "alice") 5 [sad_session 1700000001]).
  vm_compute. reflexivity.
Defined.

Lemma user_isolation_witness :
  load_memory (get_mem_path sample_word sample_base (py "bob"))
    (save_memory_npy sample_word sample_base pets_fs (fun _ => Some pets_query)
       103 Written (py "../alice") (py "cats play") (py "user"))
  = load_memory (get_mem_path sample_word sample_base (py "bob")) pets_fs
  /\ (forall emb query top_k,
        find_relevant_npy sample_word sample_base
          (save_memory_npy sample_word sample_base pets_fs (fun _ => Some pets_query)
             103 Written (py "../alice") (py "cats play") (py "user"))
          emb (py "bob") query top_k
        = find_relevant_npy sample_word sample_base pets_fs emb (py "bob") query top_k)
  /\ get_mem_path sample_word sample_base (py "../alice")
     = MEM_DIR sample_base ++ py "/" ++ sanitize sample_word (py "../alice") ++ py ".json"
  /\ (forall sess, py "../alice" <> [] ->
      fst (get_user_session_dir sample_word sample_base sess (Some (py "../alice")))
      = Some (SESS_DIR sample_base ++ py "/" ++ sanitize sample_word (py "../alice")))
  /\ Forall (fun c => c <> 47%N /\ c <> 92%N /\ c <> 46%N /\ c <> 0%N)
       (sanitize sample_word (py "../alice")).
Proof.
  apply (user_isolation sample_word sample_base pets_fs (fun _ => Some pets_query)
           103 Written (py "../alice") (py "bob") (py "cats play") (py "user")).
  vm_compute. discriminate.
Defined.

(** The traversal attempt lands in alice's own file. *)
Example traversal_collapses :
  get_mem_path sample_word sample_base (py "../alice") = alice_mem.
Proof. vm_compute. reflexivity. Qed.

Lemma append_noop_witness :
  save_memory_npy sample_word sample_base pets_fs (fun _ => Some pets_query)
    103 Written (py "alice") (py "  ") (py "user") = pets_fs
  /\ save_memory_npy sample_word sample_base pets_fs (fun _ => None)
       103 Written (py "alice") (py "cats play") (py "user") = pets_fs.
Proof.
  split.
  - apply (append_noop sample_word sample_base). left. reflexivity.
  - apply (append_noop sample_word sample_base). right. left. reflexivity.
Defined.

Lemma retrieve_empty_witness :
  find_relevant_npy sample_word sample_base pets_fs (fun _ => None)
    (py "alice") (py "pets") 3 = Ok []
  /\ find_relevant_npy sample_word sample_base pets_fs (fun _ => Some pets_query)
       (py "bob") (py "pets") 3 = Ok []
  /\ load_memory (get_mem_path sample_word sample_base (py "bob")) pets_fs = [].
Proof.
  split; [|split].
  - apply (retrieve_empty_result sample_word sample_base). do 3 right. reflexivity.
  - apply (retrieve_empty_result sample_word sample_base). left. vm_compute. reflexivity.
  - apply (retrieve_empty_result sample_word sample_base pets_fs (fun _ => None)
             (py "bob") (py "pets") 3).
    left. vm_compute. reflexivity.
Defined.

Lemma generation_failure_witness :
  api_chat sample_word sample_case sample_case sample_loads sample_base pets_fs sess_future
    (env_with (GenError (py "timed out"))) alice_request
  = (ErrorResponse 500 (py "backend-failed"), pets_fs).
Proof.
  eapply (generation_failure_visible sample_word sample_case sample_case sample_loads sample_base
            pets_fs sess_future (env_with (GenError (py "timed out"))) alice_request
            (py "alice")).
  - reflexivity.
  - vm_compute. discriminate.
  - vm_compute. reflexivity.
  - reflexivity.
Defined.

(** C8, the claim as stated fails: the backend answers with a body whose
    message content is the number 5, a malformed response.  The content
    passes the test of line 271, the user's message is appended to the
    memory file, and the append of the content raises the [AttributeError]
    of [strip]: the turn fails, and a memory record of the turn has been
    written. *)
Lemma generation_malformed_content :
  api_chat sample_word sample_case sample_case sample_loads sample_base pets_fs sess_future
    (env_with (GenValue (JInt 5))) alice_request
  = (Unhandled (AttributeError (py "strip")),
     save_memory_npy sample_word sample_base pets_fs (fun _ => Some pets_query)
       sample_now Written (py "alice") (py "are cats ok?") (py "user"))
  /\ List.map text_of
       (load_memory alice_mem
          (snd (api_chat sample_word sample_case sample_case sample_loads sample_base
                  pets_fs sess_future (env_with (GenValue (JInt 5))) alice_request)))
     = [py "cats purr"; py "dogs bark"; py "cats nap"; py "are cats ok?"]
  /\ List.map text_of (load_memory alice_mem pets_fs)
     = [py "cats purr"; py "dogs bark"; py "cats nap"].
Proof.
  split; [|split; vm_compute; reflexivity].
  eapply (generation_content_not_text sample_word sample_case sample_case sample_loads
            sample_base pets_fs sess_future (env_with (GenValue (JInt 5)))
            alice_request (py "alice") _ (JInt 5)).
  - reflexivity.
  - vm_compute. discriminate.
  - vm_compute. reflexivity.
  - reflexivity.
  - reflexivity.
  - discriminate.
Qed.

Lemma reply_extraction_witness :
  fst (api_chat sample_word sample_case sample_case sample_loads sample_base pets_fs sess_future
         (env_with (GenText (py " Cats are fine. "))) alice_request)
  = Reply (py "neutral") (strip (py " Cats are fine. ")).
Proof.
  eapply (reply_extraction_fallback sample_word sample_case sample_case sample_loads sample_base
            pets_fs sess_future (env_with (GenText (py " Cats are fine. ")))
            alice_request (py "alice")).
  - reflexivity.
  - vm_compute. discriminate.
  - vm_compute. reflexivity.
  - reflexivity.
  - vm_compute. discriminate.
  - vm_compute. reflexivity.
  - vm_compute. reflexivity.
  - left. vm_compute. reflexivity.
Defined.

(** C9, the claim as stated fails: the generated text is an object with
    the key [emotion] only, so no object with the two expected fields comes
    out of it; the reply is the whole text, as the claim says, but the
    emotion is the one of the object, [joy], not [neutral]. *)
Lemma reply_partial_object :
  search_braces joy_text = Some joy_text
  /\ sample_loads joy_text = Some [(py "emotion", JStr (py "joy"))]
  /\ fst (api_chat sample_word sample_case sample_case sample_loads sample_base
            pets_fs sess_future (env_with (GenText joy_text)) alice_request)
     = Reply (py "joy") (strip joy_text)
  /\ str_eqb (py "joy") (py "neutral") = false.
Proof. repeat split; vm_compute; reflexivity. Qed.

(** The successful turn appends the user's message and the reply. *)
Example turn_appends_two_records :
  List.map text_of
    (load_memory alice_mem
       (snd (api_chat sample_word sample_case sample_case sample_loads sample_base pets_fs sess_future
               (env_with (GenText (py " Cats are fine. "))) alice_request)))
  = [py "cats purr"; py "dogs bark"; py "cats nap";
     py "are cats ok?"; py " Cats are fine. "].
Proof. vm_compute. reflexivity. Qed.

Lemma append_invariant_witness :
  well_formed
    (save_memory_npy sample_word sample_base ∅ (fun _ => Some pets_query)
       100 Written (py "alice") (py "cats purr") (py "user"))
  /\ (forall emb user_id query top_k,
        exists block,
          find_relevant_npy sample_word sample_base
            (save_memory_npy sample_word sample_base ∅ (fun _ => Some pets_query)
               100 Written (py "alice") (py "cats purr") (py "user"))
            emb user_id query top_k = Ok block).
Proof.
  pose proof (append_invariant sample_word sample_base
    (save_memory_npy sample_word sample_base ∅ (fun _ => Some pets_query)
       100 Written (py "alice") (py "cats purr") (py "user"))
    (written_save sample_word sample_base ∅ (fun _ => Some pets_query) 100 Written
       (py "alice") (py "cats purr") (py "user") (written_empty sample_word sample_base))) as H.
  split; [apply H|]. destruct H as (_ & _ & H). exact H.
Defined.

(** ** The further properties at the sample data *)

Lemma retrieve_returns_stored_texts_witness :
  exists res rest,
    find_relevant_npy sample_word sample_base pets_fs (fun _ => Some pets_query)
      (py "alice") (py "pets") 2
    = Ok (context_block res)
    /\ Permutation (res ++ rest) (List.map text_of pets_data)
    /\ Z.of_nat (length res)
       = if 2 <? 0 then Z.max 0 (Z.of_nat (length pets_data) + 2)
         else Z.min 2 (Z.of_nat (length pets_data)).
Proof.
  apply (retrieve_returns_stored_texts sample_word sample_base pets_fs
           (fun _ => Some pets_query) (py "alice") (py "pets") 2 pets_data pets_query).
  - vm_compute. reflexivity.
  - reflexivity.
  - discriminate.
  - repeat constructor; vm_compute; eauto.
Defined.

Lemma append_then_retrieve_witness :
  exists res,
    find_relevant_npy sample_word sample_base
      (save_memory_npy sample_word sample_base ∅ (fun _ => Some pets_query)
         100 Written (py "alice") (py "cats purr") (py "user"))
      (fun _ => Some pets_query) (py "alice") (py "pets") 3
    = Ok (context_block res)
    /\ Permutation res
         (List.map text_of (load_memory (get_mem_path sample_word sample_base (py "alice")) ∅)
          ++ [py "cats purr"])
    /\ (load_memory (get_mem_path sample_word sample_base (py "alice")) ∅ = [] ->
        res = [py "cats purr"]).
Proof.
  apply (append_then_retrieve sample_word sample_base ∅ (fun _ => Some pets_query)
           100 (py "alice") (py "cats purr") (py "user") pets_query
           (fun _ => Some pets_query) (py "pets") pets_query 3).
  - vm_compute. discriminate.
  - reflexivity.
  - discriminate.
  - reflexivity.
  - discriminate.
  - vm_compute. constructor.
  - vm_compute. reflexivity.
Defined.

Lemma append_write_failure_witness :
  save_memory_npy sample_word sample_base pets_fs (fun _ => Some pets_query)
    103 OpenFailed (py "alice") (py "hello") (py "user") = pets_fs
  /\ load_memory alice_mem
       (save_memory_npy sample_word sample_base pets_fs (fun _ => Some pets_query)
          103 DumpFailed (py "alice") (py "hello") (py "user")) = [].
Proof.
  pose proof (append_write_failure sample_word sample_base pets_fs
                (fun _ => Some pets_query) 103 (py "alice") (py "hello") (py "user")
                pets_query) as H.
  destruct H as (H1 & H2 & _).
  - vm_compute. discriminate.
  - reflexivity.
  - discriminate.
  - split; [exact H1|exact H2].
Defined.

(** Two labels with the same count: the one met first is the dominant
    one. *)
Lemma dominant_first_max_witness :
  dominant [(py "joy", 2); (py "sadness", 2)] = py "joy"
  /\ exists pre post,
       List.map fst [(py "joy", 2); (py "sadness", 2)]
       = pre ++ dominant [(py "joy", 2); (py "sadness", 2)] :: post
       /\ Forall (fun k => count_of [(py "joy", 2); (py "sadness", 2)] k
                           < count_of [(py "joy", 2); (py "sadness", 2)]
                               (dominant [(py "joy", 2); (py "sadness", 2)])) pre
       /\ Forall (fun k => count_of [(py "joy", 2); (py "sadness", 2)] k
                           <= count_of [(py "joy", 2); (py "sadness", 2)]
                                (dominant [(py "joy", 2); (py "sadness", 2)])) post.
Proof.
  split; [vm_compute; reflexivity|].
  apply (dominant_first_max [(py "joy", 2); (py "sadness", 2)]). discriminate.
Defined.

Lemma window_monotone_witness :
  sublist (recent (sample_now - 1 * 86400) [sad_session 1699568001])
          (recent (sample_now - 5 * 86400) [sad_session 1699568001])
  /\ count_of (window_tally sample_word sample_base sess_future sample_now (py "alice") 1)
       (py "sadness")
     <= count_of (window_tally sample_word sample_base sess_future sample_now (py "alice") 5)
          (py "sadness")
  /\ total (window_tally sample_word sample_base sess_future sample_now (py "alice") 1)
     <= total (window_tally sample_word sample_base sess_future sample_now (py "alice") 5).
Proof.
  apply (window_monotone sample_word sample_base sess_future sample_now (py "alice")
           1 5 [sad_session 1699568001] (py "sadness")).
  lia.
Defined.

Lemma turn_keeps_invariant_witness :
  written sample_word sample_base
    (snd (api_chat sample_word sample_case sample_case sample_loads sample_base
            ∅ sess_future (env_with (GenText (py " Cats are fine. "))) alice_request))
  /\ well_formed
       (snd (api_chat sample_word sample_case sample_case sample_loads sample_base
               ∅ sess_future (env_with (GenText (py " Cats are fine. "))) alice_request))
  /\ (forall get_embedding user_id query top_k,
        exists block,
          find_relevant_npy sample_word sample_base
            (snd (api_chat sample_word sample_case sample_case sample_loads sample_base
                    ∅ sess_future (env_with (GenText (py " Cats are fine. ")))
                    alice_request))
            get_embedding user_id query top_k = Ok block).
Proof.
  apply (turn_keeps_invariant sample_word sample_case sample_case sample_loads
           sample_base ∅ sess_future (env_with (GenText (py " Cats are fine. ")))
           alice_request).
  apply written_empty.
Defined.

Lemma turn_records_witness :
  load_memory (get_mem_path sample_word sample_base (py "alice"))
    (snd (api_chat sample_word sample_case sample_case sample_loads sample_base
            pets_fs sess_future (env_with (GenText (py " Cats are fine. ")))
            alice_request))
  = load_memory (get_mem_path sample_word sample_base (py "alice")) pets_fs
    ++ [ record sample_now (py "user") (py "are cats ok?") pets_query;
         record sample_now (py "assistant") (py " Cats are fine. ") pets_query ].
Proof.
  eapply (turn_records sample_word sample_case sample_case sample_loads sample_base
            pets_fs sess_future (env_with (GenText (py " Cats are fine. ")))
            alice_request (py "alice") _ (py " Cats are fine. ") pets_query pets_query).
  - reflexivity.
  - vm_compute. discriminate.
  - vm_compute. reflexivity.
  - reflexivity.
  - vm_compute. discriminate.
  - reflexivity.
  - discriminate.
  - reflexivity.
  - discriminate.
  - reflexivity.
  - reflexivity.
Defined.

(** A file whose one object has no [vector] blocks the turns of its user. *)
Lemma turn_blocked_witness :
  find_relevant_npy sample_word sample_base
    {[ alice_mem := MemDoc [ {| it_ts := Some 100; it_role := Some (py "user");
                               it_text := Some (py "cats purr");
                               it_vector := None |} ] ]}
    (e_embed (env_with (GenText (py " Cats are fine. "))) 0%nat) (py "alice")
    (strip (default [] (r_message alice_request))) 3
  = Raise (KeyError (py "vector"))
  /\ snd (api_chat sample_word sample_case sample_case sample_loads sample_base
            {[ alice_mem := MemDoc [ {| it_ts := Some 100; it_role := Some (py "user");
                                       it_text := Some (py "cats purr");
                                       it_vector := None |} ] ]}
            sess_future (env_with (GenText (py " Cats are fine. "))) alice_request)
     = {[ alice_mem := MemDoc [ {| it_ts := Some 100; it_role := Some (py "user");
                                   it_text := Some (py "cats purr");
                                   it_vector := None |} ] ]}
  /\ exists e,
       fst (api_chat sample_word sample_case sample_case sample_loads sample_base
              {[ alice_mem := MemDoc [ {| it_ts := Some 100; it_role := Some (py "user");
                                         it_text := Some (py "cats purr");
                                         it_vector := None |} ] ]}
              sess_future (env_with (GenText (py " Cats are fine. "))) alice_request)
       = Unhandled e.
Proof.
  eapply (turn_blocked_by_malformed_record sample_word sample_case sample_case
            sample_loads sample_base _ sess_future
            (env_with (GenText (py " Cats are fine. "))) alice_request (py "alice")
            _ pets_query (py "vector")).
  - reflexivity.
  - vm_compute. discriminate.
  - vm_compute. reflexivity.
  - reflexivity.
  - reflexivity.
  - discriminate.
Defined.

Lemma turn_blank_generation_witness :
  api_chat sample_word sample_case sample_case sample_loads sample_base
    pets_fs sess_future (env_with (GenText (py "  "))) alice_request
  = (Reply (py "neutral") [],
     save_memory_npy sample_word sample_base pets_fs (fun _ => Some pets_query)
       sample_now Written (py "alice") (strip (py " are cats ok? ")) (py "user")).
Proof.
  eapply (turn_blank_generation sample_word sample_case sample_case sample_loads
            sample_base pets_fs sess_future (env_with (GenText (py "  ")))
            alice_request (py "alice") _ (py "  ")).
  - reflexivity.
  - vm_compute. discriminate.
  - vm_compute. reflexivity.
  - reflexivity.
  - discriminate.
  - reflexivity.
Defined.

(** A session saved under [s1] loads under [s.1], which names the same
    file. *)
Lemma save_then_load_witness :
  fst (api_load sample_word sample_base
         (snd (api_save sample_word sample_base ∅ (Some (py "alice"))
                 (Some (py "s1")) (Some [hello_turn; sad_reply]) (py "fresh")
                 sample_now))
         (Some (py "alice")) (Some (py "s.1")))
  = LoadOk (Some {| ss_sid := Some (py "s1"); ss_title := Some (py "hello there");
                    ss_chat := ChatList [hello_turn; sad_reply];
                    ss_updated := Some sample_now |}).
Proof.
  refine (proj2 (save_then_load sample_word sample_base ∅ (py "alice")
                   (Some (py "s1")) (Some [hello_turn; sad_reply]) (py "fresh")
                   sample_now (py "hello there") (py "s.1") _ _ _)).
  - discriminate.
  - reflexivity.
  - vm_compute. reflexivity.
Defined.

Lemma save_isolated_witness :
  fst (api_load sample_word sample_base
         (snd (api_save sample_word sample_base alice_store (Some (py "bob"))
                 (Some (py "s1")) None (py "fresh") sample_now))
         (Some (py "alice")) (Some (py "s1")))
  = fst (api_load sample_word sample_base alice_store
           (Some (py "alice")) (Some (py "s1"))).
Proof.
  apply (save_isolated sample_word sample_base alice_store (Some (py "bob"))
           (Some (py "s1")) None (py "fresh") sample_now (py "alice") (py "s1")).
  - discriminate.
  - left. intros H. vm_compute in H. discriminate H.
Defined.

Lemma sessions_listing_witness :
  exists l,
    fst (api_sessions sample_word sample_base map_to_list alice_store
           (Some (py "alice"))) = ListOk l
    /\ newest_first l
    /\ Permutation l
         (loaded (map_to_list
                    (files_of alice_store
                       (user_session_dir sample_word sample_base (py "alice")))))
    /\ (forall k,
          stamped k l
          = stamped k
              (loaded (map_to_list
                         (files_of alice_store
                            (user_session_dir sample_word sample_base (py "alice"))))))
    /\ (forall o,
          In o l
          <-> exists name,
                files_of alice_store
                  (user_session_dir sample_word sample_base (py "alice")) !! name
                = Some (SavedDoc o)).
Proof.
  apply (sessions_listing sample_word sample_base map_to_list alice_store (py "alice")).
  - intros files. reflexivity.
  - discriminate.
Defined.

Lemma save_then_list_witness :
  exists l,
    fst (api_sessions sample_word sample_base map_to_list
           (snd (api_save sample_word sample_base alice_store (Some (py "alice"))
                   (Some (py "s2")) (Some [hello_turn]) (py "fresh") sample_now))
           (Some (py "alice"))) = ListOk l
    /\ In (saved_object (py "s2") (py "hello there") (Some [hello_turn]) sample_now) l.
Proof.
  destruct (save_then_list sample_word sample_base map_to_list alice_store
              (py "alice") (Some (py "s2")) (Some [hello_turn]) (py "fresh")
              sample_now (py "hello there")) as (l & Hl & Hin & _).
  - intros files. reflexivity.
  - discriminate.
  - reflexivity.
  - exists l. split; [exact Hl|exact Hin].
Defined.

Lemma save_without_chat_witness :
  fst (api_save sample_word sample_base ∅ (Some (py "alice")) None None
         (py "fresh") sample_now) = SaveOk (py "fresh")
  /\ analyze_saved_sessions sample_word sample_case sample_base map_to_list
       (snd (api_save sample_word sample_base ∅ (Some (py "alice")) None None
               (py "fresh") sample_now))
       sample_now (py "alice") 5
     = None.
Proof.
  apply (save_without_chat_breaks_analysis sample_word sample_case sample_base
           map_to_list ∅ (py "alice") None (py "fresh") sample_now sample_now 5).
  - intros files. reflexivity.
  - discriminate.
  - reflexivity.
Defined.

Lemma save_then_analyze_witness :
  analyze_saved_sessions sample_word sample_case sample_base map_to_list
    (snd (api_save sample_word sample_base ∅ (Some (py "alice")) None
            (Some [sad_reply; sad_reply; sad_reply]) (py "fresh") sample_now))
    sample_now (py "alice") 5
  = Some (trend_note sample_case 5
            (tally [ {| s_updated := Some sample_now;
                        s_chat := Some (List.map as_chat_msg
                                          [sad_reply; sad_reply; sad_reply]) |} ])).
Proof.
  apply (save_then_analyze sample_word sample_case sample_base map_to_list ∅
           (py "alice") None [sad_reply; sad_reply; sad_reply] (py "fresh")
           (py "I am sorry.") sample_now sample_now 5).
  - intros files. reflexivity.
  - discriminate.
  - apply lookup_empty.
  - reflexivity.
  - reflexivity.
Defined.

(** Three saved turns tagged [sadness] give the note on SADNESS. *)
Example save_then_analyze_note :
  analyze_saved_sessions sample_word sample_case sample_base map_to_list
    (snd (api_save sample_word sample_base ∅ (Some (py "alice")) None
            (Some [sad_reply; sad_reply; sad_reply]) (py "fresh") sample_now))
    sample_now (py "alice") 5
  = Some (nl ++ py "[PSYCHOLOGICAL TREND ANALYSIS]:" ++ nl
          ++ py "- Last 5 days mood: 'SADNESS' (3/3)." ++ nl ++ negative_note).
Proof. vm_compute. reflexivity. Qed.

Lemma register_then_login_witness :
  api_login sample_check
    (snd (api_register None (Some (py "alice")) (Some (py "Alice"))
            (Some (py "secret")) (sample_hash (py "secret")) sample_now Written))
    {| c_user := None; c_admin := false |} (Some (py "alice")) (Some (py "secret"))
  = (AuthOk, {| c_user := Some (py "alice"); c_admin := false |}).
Proof.
  refine (proj2 (register_then_login sample_check None
                   {| c_user := None; c_admin := false |}
                   (py "alice") (py "Alice") (py "secret")
                   (sample_hash (py "secret")) sample_now [] _ _ _ _ _ _)).
  - discriminate.
  - discriminate.
  - discriminate.
  - reflexivity.
  - reflexivity.
  - vm_compute. reflexivity.
Defined.

(** A second registration under the name [alice] is answered 409 and the
    first account stays. *)
Lemma registration_keeps_accounts_witness :
  api_register
    (Some (UsersDoc [(py "alice", {| a_hash := Some (sample_hash (py "secret"));
                                     a_display_name := Some (py "Alice");
                                     a_created_at := Some sample_now |})]))
    (Some (py "alice")) (Some (py "Mallory")) (Some (py "other"))
    (sample_hash (py "other")) sample_now Written
  = (AuthRefused 409,
     Some (UsersDoc [(py "alice", {| a_hash := Some (sample_hash (py "secret"));
                                     a_display_name := Some (py "Alice");
                                     a_created_at := Some sample_now |})])).
Proof.
  refine (proj2 (registration_keeps_accounts
                   (Some (UsersDoc [(py "alice", _)]))
                   (Some (py "alice")) (Some (py "Mallory")) (Some (py "other"))
                   (sample_hash (py "other")) sample_now Written _ _ _)
                (py "alice") _ _ _ _).
  - reflexivity.
  - discriminate.
  - reflexivity.
  - reflexivity.
  - reflexivity.
Defined.

Lemma registration_invariant_witness :
  exists users',
    read_users (snd (api_register None (Some (py "alice")) (Some (py "Alice"))
                       (Some (py "secret")) (sample_hash (py "secret"))
                       sample_now Written))
    = Some users'
    /\ registered users'.
Proof.
  refine (proj1 (registration_invariant sample_word sample_base sample_check None
                   (Some (py "alice")) (Some (py "Alice")) (Some (py "secret"))
                   (sample_hash (py "secret")) sample_now Written [] _ _ _)).
  - reflexivity.
  - split; constructor.
  - discriminate.
Defined.

Lemma tts_ascii_voice_witness :
  api_tts sample_case true (fun _ _ => inr []) (Some (py "alice")) (Some (py " Hello! "))
  = Audio [].
Proof.
  apply (tts_ascii_voice sample_case (fun _ _ => inr []) (py "alice") (py " Hello! ")).
  - repeat constructor.
  - vm_compute. discriminate.
Defined.
